(** * pyipmi.sdr: the Sensor Data Record reader and decoder

    A shallow embedding of [src/pyipmi/sdr.py] (Python 2): the record
    decoder [create_sdr] with its five record classes, the analog value
    converter of the full sensor record, the paginated reader [get_sdr],
    the enumerator [sdr_entries] and [get_sensor_reading].

    Conventions.
    - A Python exception is a value of [exn]; a computation that may raise
      returns a [result].
    - Code that talks to the BMC or pops bytes from a buffer threads its
      state explicitly: [M S A := S -> result A * S].
    - Python [int]/[long] is [Z]; Python [float] is the kernel's binary64
      [float]; a [str]/[array('c')] of raw bytes is a [list byte].
    - An attribute that may be missing on an object is an [option]. *)

From stdpp Require Import base option list strings gmap pretty.
From Stdlib Require Import ZArith Floats Lia.
From Stdlib Require Import Strings.Ascii Strings.Byte.
Import ListNotations.
Open Scope Z_scope.

(** ** Exceptions and results *)

(** The exception classes that [sdr.py] raises itself or that the
    interpreter raises on its behalf. *)
Inductive exn : Type :=
| DecodingError (msg : string)
| CompletionCodeError (cc : Z)
| RetryError
| NotImplementedError
| ValueError
| ZeroDivisionError
| OverflowError
| TypeError
| IndexError
| AttributeError.

Inductive result (A : Type) : Type :=
| Ok (a : A)
| Raise (e : exn).
Arguments Ok {A} a.
Arguments Raise {A} e.

Definition result_bind {A B : Type} (r : result A) (k : A -> result B) : result B :=
  match r with
  | Ok a => k a
  | Raise e => Raise e
  end.

Notation "'let!' x ':=' e 'in' k" := (result_bind e (fun x => k))
  (at level 10, x name, e at level 100, k at level 200).

(** Stateful code: the state survives an exception, as the mutated Python
    objects do. *)
Definition M (S A : Type) : Type := S -> result A * S.

Definition ret {S A : Type} (a : A) : M S A := fun s => (Ok a, s).
Definition throw {S A : Type} (e : exn) : M S A := fun s => (Raise e, s).
Definition bind {S A B : Type} (c : M S A) (k : A -> M S B) : M S B :=
  fun s =>
    match c s with
    | (Ok a, s') => k a s'
    | (Raise e, s') => (Raise e, s')
    end.
Definition lift {S A : Type} (r : result A) : M S A := fun s => (r, s).

Notation "'let*' x ':=' e 'in' k" := (bind e (fun x => k))
  (at level 10, x name, e at level 100, k at level 200).

(** The error taxonomy of the specification (section 7), and the kind under
    which a caller that catches by exception class sees each exception of
    the code.  [TypeError], [IndexError], [AttributeError],
    [ZeroDivisionError] and [OverflowError] are interpreter errors outside
    the taxonomy. *)
Inductive ErrorKind : Type :=
| KDecodingError
| KCompletionError (code : Z)
| KRetryExhausted
| KUnsupportedRecordType (record_type : Z)
| KOutOfRange
| KUnsupported.

Definition error_kind (e : exn) : option ErrorKind :=
  match e with
  | DecodingError _ => Some KDecodingError
  | CompletionCodeError cc => Some (KCompletionError cc)
  | RetryError => Some KRetryExhausted
  | NotImplementedError => Some KUnsupported
  | ValueError => Some KOutOfRange
  | _ => None
  end.

(** ** Bytes and string formatting *)

(** [ord(c)] of a one-character string. *)
Definition ord (c : byte) : Z := Z.of_N (Byte.to_N c).

(** Python truth value of an integer. *)
Definition truthy (z : Z) : bool := negb (z =? 0).

Definition hex_digit (d : Z) : ascii :=
  match d with
  | 0 => "0" | 1 => "1" | 2 => "2" | 3 => "3" | 4 => "4" | 5 => "5"
  | 6 => "6" | 7 => "7" | 8 => "8" | 9 => "9" | 10 => "a" | 11 => "b"
  | 12 => "c" | 13 => "d" | 14 => "e" | _ => "f"
  end%char.

(** ['%02x' % z] for a byte value [0 <= z < 256], the only values the
    callers format. *)
Definition fmt_02x (z : Z) : string :=
  String (hex_digit (z / 16)) (String (hex_digit (z mod 16)) EmptyString).

(** ['%d' % z]. *)
Definition fmt_d (z : Z) : string := pretty z.

(** ** The byte cursor *)

(** Little-endian value of a run of bytes. *)
Fixpoint le_value (bs : list byte) : Z :=
  match bs with
  | [] => 0
  | c :: bs' => ord c + 256 * le_value bs'
  end.

(** Modelled from the spec: [pyipmi.utils.ByteBuffer] is not under src/.
    Section 2 of the specification describes it as a sequential reader over
    a byte buffer that consumes little-endian unsigned integers, advancing
    its position, and can yield the remaining bytes as a text string;
    section 4.4 has the parsers fail with [DecodingError] when fewer bytes
    than required are present.  The buffer is the list of bytes not yet
    consumed. *)
Definition ByteBuffer : Type := list byte.

(** Modelled from the spec: [ByteBuffer.pop_unsigned_int(length)], absent
    with its class.  It consumes [length] bytes and returns their
    little-endian value; with fewer bytes left it raises [DecodingError]
    (the message is not given by the specification). *)
Definition pop_unsigned_int (length : nat) : M ByteBuffer Z :=
  fun buffer =>
    if (length <=? List.length buffer)%nat
    then (Ok (le_value (take length buffer)), drop length buffer)
    else (Raise (DecodingError "Data too short"), buffer).

(** Modelled from the spec: [ByteBuffer.to_string()], absent with its
    class.  It yields the remaining bytes as a string. *)
Definition to_string : M ByteBuffer (list byte) :=
  fun buffer => (Ok buffer, buffer).

(** ** Python numbers *)

(** The two numeric types that meet in the converter's arithmetic. *)
Inductive pynum : Type :=
| PyInt (z : Z)
| PyFloat (f : float).

(** Correctly rounded binary64 value of an integer (round to nearest,
    ties to even). *)
Definition float_of_Z (z : Z) : float :=
  SF2Prim (binary_normalize prec emax z 0 false).

(** [float(z)] and the implicit conversion of an [int] operand: integers
    that round beyond the largest finite double raise [OverflowError]. *)
Definition float_of_int (z : Z) : result float :=
  if Z.abs z <? 2 ^ 1024 - 2 ^ 970
  then Ok (float_of_Z z)
  else Raise OverflowError.

Definition to_float (x : pynum) : result float :=
  match x with
  | PyInt z => float_of_int z
  | PyFloat f => Ok f
  end.

(** [x * y], [x + y], [x - y]: exact on two integers, binary64 otherwise. *)
Definition py_arith (zop : Z -> Z -> Z) (fop : float -> float -> float)
    (x y : pynum) : result pynum :=
  match x, y with
  | PyInt a, PyInt b => Ok (PyInt (zop a b))
  | _, _ =>
      let! a := to_float x in
      let! b := to_float y in
      Ok (PyFloat (fop a b))
  end.

Definition py_mul : pynum -> pynum -> result pynum := py_arith Z.mul PrimFloat.mul.
Definition py_add : pynum -> pynum -> result pynum := py_arith Z.add PrimFloat.add.
Definition py_sub : pynum -> pynum -> result pynum := py_arith Z.sub PrimFloat.sub.

(** [x / y] with a [float] dividend (the only use in [sdr.py]): a zero
    divisor raises [ZeroDivisionError]. *)
Definition py_float_div (x : float) (y : pynum) : result float :=
  let! d := to_float y in
  if (d =? 0)%float then Raise ZeroDivisionError else Ok (x / d)%float.

(** [round(x)] with one argument (Python 2): the nearest integral value,
    a tie going away from zero; zeros, infinities and NaN are returned
    unchanged. *)
Definition py_round (x : float) : float :=
  match Prim2SF x with
  | S754_finite s m e =>
      if 0 <=? e then x
      else
        let d := 2 ^ (- e) in
        let q := Z.pos m / d in
        let r := Z.pos m mod d in
        let n := if d <=? 2 * r then q + 1 else q in
        if s then (- float_of_Z n)%float else float_of_Z n
  | _ => x
  end.

(** [int(x)] of a float: truncation toward zero. *)
Definition py_int (x : float) : result Z :=
  match Prim2SF x with
  | S754_zero _ => Ok 0
  | S754_infinity _ => Raise OverflowError
  | S754_nan => Raise ValueError
  | S754_finite s m e =>
      let n := if 0 <=? e then Z.pos m * 2 ^ e else Z.pos m / 2 ^ (- e) in
      Ok (if s then - n else n)
  end.

(** The literal [0.1]: the double nearest to one tenth. *)
Definition tenth : float := 0x1.999999999999ap-4%float.

(** The functions of the C library behind Python's [math] module and
    float power have no counterpart in the kernel's floats; the converter
    is parameterised by them.  Each [math] function may raise
    ([ValueError] on a domain error, [OverflowError] on overflow). *)
Class MathModule : Type := {
  (** [10 ** k] for a negative integer [k]: the C [pow(10.0, k)]. *)
  pow10_neg : Z -> float;
  (** [math.log(x)] *)
  math_log : float -> result float;
  (** [math.log(x, base)] with an integer base *)
  math_log_base : float -> Z -> result float;
  (** [math.exp(x)] *)
  math_exp : float -> result float;
  (** [math.pow(x, y)] *)
  math_pow : float -> float -> result float;
  (** [math.sqrt(x)] *)
  math_sqrt : float -> result float
}.

(** [10 ** k] for an integer [k]: an integer when [k >= 0], a float
    otherwise. *)
Definition py_pow10 `{MathModule} (k : Z) : pynum :=
  if 0 <=? k then PyInt (10 ^ k) else PyFloat (pow10_neg k).

(** ** Record classes *)

(** [if z & mask: l.append(name)] *)
Definition flag (z mask : Z) (name : string) : list string :=
  if truthy (Z.land z mask) then [name] else [].

(** *** [class SdrCommon] *)
Module SdrCommon.

(** The attributes set by [from_response]. *)
Record header : Type := {
  data : list byte;
  id : Z;
  version : Z;
  type : Z;
  lenght : Z
}.

(** An object of the class: [head] is [None] while [from_response] has
    not run, [next_id] is [None] while the attribute is not set. *)
Record t : Type := {
  head : option header;
  next_id : option Z
}.

Definition from_response (data : list byte) : result header :=
  if (List.length data <? 5)%nat
  then Raise (DecodingError
                ("Invalid SDR length (" +:+ fmt_d (Z.of_nat (List.length data)) +:+ ")"))
  else
    fst ((let* id := pop_unsigned_int 2 in
          let* version := pop_unsigned_int 1 in
          let* type := pop_unsigned_int 1 in
          let* lenght := pop_unsigned_int 1 in
          ret {| data := data; id := id; version := version;
                 type := type; lenght := lenght |}) data).

(** [if next_id: self.next_id = next_id]: the attribute is set for a
    truthy argument only. *)
Definition set_next_id (next_id : option Z) : option Z :=
  match next_id with
  | Some n => if truthy n then Some n else None
  | None => None
  end.

Definition __init__ (rsp : list byte) (next_id : option Z) : result t :=
  let! h := match rsp with
            | [] => Ok None
            | _ :: _ => let! h := from_response rsp in Ok (Some h)
            end in
  Ok {| head := h; next_id := set_next_id next_id |}.

End SdrCommon.

(** [if data: self.from_data(data)] of the five constructors. *)
Definition init_body {A : Type} (from_data : list byte -> result A)
    (data : list byte) : result (option A) :=
  match data with
  | [] => Ok None
  | _ :: _ => let! r := from_data data in Ok (Some r)
  end.

(** *** [class SdrFullSensorRecord] (SDR type 0x01) *)
Module SdrFullSensorRecord.

Definition DATA_FMT_UNSIGNED : Z := 0.
Definition DATA_FMT_1S_COMPLEMENT : Z := 1.
Definition DATA_FMT_2S_COMPLEMENT : Z := 2.
Definition DATA_FMT_NONE : Z := 3.

Definition L_LINEAR : Z := 0.
Definition L_LN : Z := 1.
Definition L_LOG : Z := 2.
Definition L_LOG2 : Z := 3.
Definition L_E : Z := 4.
Definition L_EXP10 : Z := 5.
Definition L_EXP2 : Z := 6.
Definition L_1_X : Z := 7.
Definition L_SQR : Z := 8.
Definition L_CUBE : Z := 9.
Definition L_SQRT : Z := 10.
Definition L_CUBERT : Z := 11.

(** The attributes set by [from_data]. *)
Record fields : Type := {
  owner_id : Z;
  owner_lun : Z;
  number : Z;
  entity_id : Z;
  entity_instance : Z;
  initialization : list string;
  capabilities : list string;
  sensor_type_code : Z;
  event_reading_type_code : Z;
  assertion_mask : Z;
  deassertion_mask : Z;
  discrete_reading_mask : Z;
  analog_data_format : Z;
  rate_unit : Z;
  modifier_unit : Z;
  percentage : Z;
  linearization : Z;
  m : Z;
  tolerance : Z;
  b : Z;
  accuracy : Z;
  accuracy_exp : Z;
  k2 : Z;
  k1 : Z;
  analog_characteristic : list string;
  nominal_reading : Z;
  normal_maximum : Z;
  normal_minimum : Z;
  sensor_maximum_reading : Z;
  sensor_minimum_reading : Z;
  threshold : gmap string Z;
  hysteresis : gmap string Z;
  reserved : Z;
  oem : Z;
  device_id_string_type_length : Z;
  device_id_string : list byte
}.

Record t : Type := {
  common : SdrCommon.t;
  attrs : option fields
}.

Definition _convert_complement (value : Z) (size : Z) : Z :=
  if truthy (Z.land value (Z.shiftl 1 (size - 1)))
  then - (Z.shiftl 1 size) + value
  else value.

(** The [if]/[elif] chain on [capabilities & 0x30], used twice with the
    same mask. *)
Definition support_level (capabilities : Z) (prefix : string) : list string :=
  let v := Z.land capabilities 0x30 in
  if v =? 0x00 then [prefix +:+ "_not_supported"]
  else if v =? 0x10 then [prefix +:+ "_readable"]
  else if v =? 0x20 then [prefix +:+ "_read_and_setable"]
  else if v =? 0x30 then [prefix +:+ "_fixed"]
  else [].

Definition parse : M ByteBuffer fields :=
  (* record key bytes *)
  let* owner_id := pop_unsigned_int 1 in
  let* owner_lun := pop_unsigned_int 1 in
  let* number := pop_unsigned_int 1 in
  (* record body bytes *)
  let* entity_id := pop_unsigned_int 1 in
  let* entity_instance := pop_unsigned_int 1 in
  (* byte 11 *)
  let* initialization := pop_unsigned_int 1 in
  (* byte 12 - sensor capabilities *)
  let* capabilities := pop_unsigned_int 1 in
  let* sensor_type_code := pop_unsigned_int 1 in
  let* event_reading_type_code := pop_unsigned_int 1 in
  let* assertion_mask := pop_unsigned_int 2 in
  let* deassertion_mask := pop_unsigned_int 2 in
  let* discrete_reading_mask := pop_unsigned_int 2 in
  (* byte 21, 22, 23 *)
  let* units_1 := pop_unsigned_int 1 in
  let* units_2 := pop_unsigned_int 1 in
  let* units_3 := pop_unsigned_int 1 in
  (* byte 24 *)
  let* linearization := pop_unsigned_int 1 in
  (* byte 25, 26 *)
  let* m := pop_unsigned_int 1 in
  let* m_tol := pop_unsigned_int 1 in
  (* byte 27, 28, 29 *)
  let* b := pop_unsigned_int 1 in
  let* b_acc := pop_unsigned_int 1 in
  let* acc_accexp := pop_unsigned_int 1 in
  (* byte 30 *)
  let* rexp_bexp := pop_unsigned_int 1 in
  (* byte 31 *)
  let* analog_characteristics := pop_unsigned_int 1 in
  let* nominal_reading := pop_unsigned_int 1 in
  let* normal_maximum := pop_unsigned_int 1 in
  let* normal_minimum := pop_unsigned_int 1 in
  let* sensor_maximum_reading := pop_unsigned_int 1 in
  let* sensor_minimum_reading := pop_unsigned_int 1 in
  let* threshold_unr := pop_unsigned_int 1 in
  let* threshold_ucr := pop_unsigned_int 1 in
  let* threshold_unc := pop_unsigned_int 1 in
  let* threshold_lnr := pop_unsigned_int 1 in
  let* threshold_lcr := pop_unsigned_int 1 in
  let* threshold_lnc := pop_unsigned_int 1 in
  let* positive_going := pop_unsigned_int 1 in
  let* negative_going := pop_unsigned_int 1 in
  let* reserved := pop_unsigned_int 2 in
  let* oem := pop_unsigned_int 1 in
  let* device_id_string_type_length := pop_unsigned_int 1 in
  let* device_id_string := to_string in
  ret {|
    owner_id := owner_id;
    owner_lun := owner_lun;
    number := number;
    entity_id := entity_id;
    entity_instance := entity_instance;
    initialization :=
      flag initialization 0x40 "scanning"
      ++ flag initialization 0x20 "events"
      ++ flag initialization 0x10 "thresholds"
      ++ flag initialization 0x08 "hysteresis"
      ++ flag initialization 0x04 "type"
      ++ flag initialization 0x02 "default_event_generation"
      ++ flag initialization 0x01 "default_scanning";
    capabilities :=
      flag capabilities 0x80 "ignore_sensor"
      ++ flag capabilities 0x40 "auto_rearm"
      ++ support_level capabilities "hysteresis"
      ++ support_level capabilities "threshold";
    sensor_type_code := sensor_type_code;
    event_reading_type_code := event_reading_type_code;
    assertion_mask := assertion_mask;
    deassertion_mask := deassertion_mask;
    discrete_reading_mask := discrete_reading_mask;
    analog_data_format := Z.land (Z.shiftr units_1 6) 0x3;
    rate_unit := Z.shiftr (Z.shiftr units_1 3) 0x7;
    modifier_unit := Z.land (Z.shiftr units_1 1) 0x2;
    percentage := Z.land units_1 0x1;
    linearization := Z.land linearization 0x7f;
    m := Z.lor (Z.land m 0xff) (Z.shiftl (Z.land m_tol 0xc0) 2);
    tolerance := Z.land m_tol 0x3f;
    b := _convert_complement
           (Z.lor (Z.land b 0xff) (Z.shiftl (Z.land b_acc 0xc0) 2)) 10;
    accuracy := Z.lor (Z.land b_acc 0x3f) (Z.shiftl (Z.land acc_accexp 0xf0) 4);
    accuracy_exp := Z.shiftr (Z.land acc_accexp 0x0c) 2;
    k2 := _convert_complement (Z.shiftr (Z.land rexp_bexp 0xf0) 4) 4;
    k1 := _convert_complement (Z.land rexp_bexp 0x0f) 4;
    analog_characteristic :=
      flag analog_characteristics 0x01 "nominal_reading"
      ++ flag analog_characteristics 0x02 "normal_max"
      ++ flag analog_characteristics 0x04 "normal_min";
    nominal_reading := nominal_reading;
    normal_maximum := normal_maximum;
    normal_minimum := normal_minimum;
    sensor_maximum_reading := sensor_maximum_reading;
    sensor_minimum_reading := sensor_minimum_reading;
    threshold :=
      <["lnc" := threshold_lnc]>
        (<["lcr" := threshold_lcr]>
           (<["lnr" := threshold_lnr]>
              (<["unc" := threshold_unc]>
                 (<["ucr" := threshold_ucr]>
                    (<["unr" := threshold_unr]> ∅)))));
    hysteresis :=
      <["negative_going" := negative_going]>
        (<["positive_going" := positive_going]> ∅);
    reserved := reserved;
    oem := oem;
    device_id_string_type_length := device_id_string_type_length;
    device_id_string := device_id_string
  |}.

(** [buffer = ByteBuffer(data[5:])] followed by the pops of [parse]. *)
Definition from_data (data : list byte) : result fields :=
  fst (parse (drop 5 data)).

Definition __init__ (data : list byte) (next_id : option Z) : result t :=
  let! c := SdrCommon.__init__ data next_id in
  let! a := init_body from_data data in
  Ok {| common := c; attrs := a |}.

(** **** The analog value converter *)
Section Converter.
Context `{MathModule}.

(** The property [l]: the linearization function selected by the low
    seven bits of [linearization]. *)
Definition l (self : fields) : result (float -> result float) :=
  let linearization := Z.land (linearization self) 0x7f in
  if linearization =? L_LN then Ok math_log
  else if linearization =? L_LOG then Ok (fun x => math_log_base x 10)
  else if linearization =? L_LOG2 then Ok (fun x => math_log_base x 2)
  else if linearization =? L_E then Ok math_exp
  else if linearization =? L_EXP10 then Ok (fun x => math_pow 10 x)
  else if linearization =? L_EXP2 then Ok (fun x => math_pow 2 x)
  else if linearization =? L_1_X then Ok (fun x => py_float_div 1 (PyFloat x))
  else if linearization =? L_SQR then Ok (fun x => math_pow x 2)
  else if linearization =? L_CUBE then Ok (fun x => math_pow x 3)
  else if linearization =? L_SQRT then Ok math_sqrt
  else if linearization =? L_CUBERT
  then Ok (fun x => let! third := py_float_div 1 (PyInt 3) in math_pow x third)
  else if linearization =? L_LINEAR then Ok (fun x => Ok x)
  else Raise (DecodingError ("unknown linearization " +:+ fmt_d linearization)).

Definition convert_sensor_raw_to_value (self : fields) (raw : Z) : result float :=
  let fmt := analog_data_format self in
  let raw :=
    if fmt =? DATA_FMT_1S_COMPLEMENT then
      if truthy (Z.land raw 0x80)
      then - (Z.lxor (Z.land raw 0x7f) 0x7f)
      else raw
    else if fmt =? DATA_FMT_2S_COMPLEMENT then
      if truthy (Z.land raw 0x80)
      then - (Z.lxor (Z.land raw 0x7f) 0x7f) - 1
      else raw
    else raw in
  let! raw := float_of_int raw in
  (* [self.l] is looked up before its argument is computed *)
  let! lin := l self in
  let! mr := py_mul (PyInt (m self)) (PyFloat raw) in
  let! bk := py_mul (PyInt (b self)) (py_pow10 (k1 self)) in
  let! scaled := py_add mr bk in
  let! x := py_mul scaled (py_pow10 (k2 self)) in
  let! x := to_float x in
  lin x.

(** [linearization is not self.L_LINEAR] compares object identity;
    both operands are integers in [0, 127], which CPython keeps as
    unique objects, so the test is integer inequality. *)
Definition convert_sensor_value_to_raw (self : fields) (value : float) : result Z :=
  let linearization := Z.land (linearization self) 0x7f in
  if negb (linearization =? L_LINEAR) then Raise NotImplementedError
  else
    let! scaled := py_mul (PyFloat value) (py_pow10 (-1 * k2 self)) in
    let! scaled := to_float scaled in
    let! q := py_float_div scaled (PyInt (m self)) in
    let! bk := py_mul (PyInt (b self)) (py_pow10 (k1 self)) in
    let! raw := py_sub (PyFloat q) bk in
    let! raw := to_float raw in
    let fmt := analog_data_format self in
    let! _ :=
      if fmt =? DATA_FMT_1S_COMPLEMENT then
        if (value <? 0)%float then Raise NotImplementedError else Ok tt
      else if fmt =? DATA_FMT_2S_COMPLEMENT then
        if (value <? 0)%float then Raise NotImplementedError else Ok tt
      else Ok tt in
    let! raw := py_int (py_round raw) in
    if raw >? 0xff then Raise ValueError else Ok raw.

End Converter.

End SdrFullSensorRecord.

(** *** [class SdrCompactSensorRecord] (SDR type 0x02) *)
Module SdrCompactSensorRecord.

Record fields : Type := {
  owner_id : Z;
  owner_lun : Z;
  number : Z;
  entity_id : Z;
  entity_instance : Z;
  sensor_initialization : Z;
  capabilities : Z;
  sensor_type : Z;
  event_reading_type_code : Z;
  assertion_mask : Z;
  deassertion_mask : Z;
  discrete_reading_mask : Z;
  units_1 : Z;
  units_2 : Z;
  units_3 : Z;
  record_sharing : Z;
  positive_going_hysteresis : Z;
  negative_going_hysteresis : Z;
  reserved : Z;
  oem : Z;
  device_id_string_type_length : Z;
  device_id_string : list byte
}.

Record t : Type := {
  common : SdrCommon.t;
  attrs : option fields
}.

Definition parse : M ByteBuffer fields :=
  let* owner_id := pop_unsigned_int 1 in
  let* owner_lun := pop_unsigned_int 1 in
  let* number := pop_unsigned_int 1 in
  let* entity_id := pop_unsigned_int 1 in
  let* entity_instance := pop_unsigned_int 1 in
  let* sensor_initialization := pop_unsigned_int 1 in
  let* capabilities := pop_unsigned_int 1 in
  let* sensor_type := pop_unsigned_int 1 in
  let* event_reading_type_code := pop_unsigned_int 1 in
  let* assertion_mask := pop_unsigned_int 2 in
  let* deassertion_mask := pop_unsigned_int 2 in
  let* discrete_reading_mask := pop_unsigned_int 2 in
  let* units_1 := pop_unsigned_int 1 in
  let* units_2 := pop_unsigned_int 1 in
  let* units_3 := pop_unsigned_int 1 in
  let* record_sharing := pop_unsigned_int 2 in
  let* positive_going_hysteresis := pop_unsigned_int 1 in
  let* negative_going_hysteresis := pop_unsigned_int 1 in
  let* reserved := pop_unsigned_int 3 in
  let* oem := pop_unsigned_int 1 in
  let* device_id_string_type_length := pop_unsigned_int 1 in
  let* device_id_string := to_string in
  ret {|
    owner_id := owner_id;
    owner_lun := owner_lun;
    number := number;
    entity_id := entity_id;
    entity_instance := entity_instance;
    sensor_initialization := sensor_initialization;
    capabilities := capabilities;
    sensor_type := sensor_type;
    event_reading_type_code := event_reading_type_code;
    assertion_mask := assertion_mask;
    deassertion_mask := deassertion_mask;
    discrete_reading_mask := discrete_reading_mask;
    units_1 := units_1;
    units_2 := units_2;
    units_3 := units_3;
    record_sharing := record_sharing;
    positive_going_hysteresis := positive_going_hysteresis;
    negative_going_hysteresis := negative_going_hysteresis;
    reserved := reserved;
    oem := oem;
    device_id_string_type_length := device_id_string_type_length;
    device_id_string := device_id_string
  |}.

Definition from_data (data : list byte) : result fields :=
  fst (parse (drop 5 data)).

Definition __init__ (data : list byte) (next_id : option Z) : result t :=
  let! c := SdrCommon.__init__ data next_id in
  let! a := init_body from_data data in
  Ok {| common := c; attrs := a |}.

End SdrCompactSensorRecord.

(** *** [class SdrEventOnlySensorRecord] (SDR type 0x03) *)
Module SdrEventOnlySensorRecord.

Record t : Type := {
  common : SdrCommon.t
}.

(** [from_data] is [pass]. *)
Definition from_data (data : list byte) : result unit := Ok tt.

Definition __init__ (data : list byte) (next_id : option Z) : result t :=
  let! c := SdrCommon.__init__ data next_id in
  let! _ := init_body from_data data in
  Ok {| common := c |}.

End SdrEventOnlySensorRecord.

(** *** [class SdrFruDeviceLocator] (SDR type 0x11) *)
Module SdrFruDeviceLocator.

Record fields : Type := {
  device_access_address : Z;
  fru_device_id : Z;
  logical_physical : Z;
  channel_number : Z;
  reserved : Z;
  device_type : Z;
  device_type_modifier : Z;
  entity_id : Z;
  entity_instance : Z;
  oem : Z;
  device_id_string_type_length : Z;
  device_id_string : list byte
}.

Record t : Type := {
  common : SdrCommon.t;
  attrs : option fields
}.

Definition parse : M ByteBuffer fields :=
  (* record key bytes *)
  let* device_access_address := pop_unsigned_int 1 in
  let* fru_device_id := pop_unsigned_int 1 in
  let* logical_physical := pop_unsigned_int 1 in
  let* channel_number := pop_unsigned_int 1 in
  (* record body bytes *)
  let* reserved := pop_unsigned_int 1 in
  let* device_type := pop_unsigned_int 1 in
  let* device_type_modifier := pop_unsigned_int 1 in
  let* entity_id := pop_unsigned_int 1 in
  let* entity_instance := pop_unsigned_int 1 in
  let* oem := pop_unsigned_int 1 in
  let* device_id_string_type_length := pop_unsigned_int 1 in
  let* device_id_string := to_string in
  ret {|
    device_access_address := Z.shiftr device_access_address 1;
    fru_device_id := fru_device_id;
    logical_physical := logical_physical;
    channel_number := channel_number;
    reserved := reserved;
    device_type := device_type;
    device_type_modifier := device_type_modifier;
    entity_id := entity_id;
    entity_instance := entity_instance;
    oem := oem;
    device_id_string_type_length := device_id_string_type_length;
    device_id_string := device_id_string
  |}.

Definition from_data (data : list byte) : result fields :=
  fst (parse (drop 5 data)).

Definition __init__ (data : list byte) (next_id : option Z) : result t :=
  let! c := SdrCommon.__init__ data next_id in
  let! a := init_body from_data data in
  Ok {| common := c; attrs := a |}.

End SdrFruDeviceLocator.

(** *** [class SdrManagementContollerDeviceLocator] (SDR type 0x12) *)
Module SdrManagementContollerDeviceLocator.

Record fields : Type := {
  device_slave_address : Z;
  channel_number : Z;
  power_state_notification : Z;
  global_initialization : Z;
  device_capabilities : Z;
  reserved : Z;
  entity_id : Z;
  entity_instance : Z;
  oem : Z;
  device_id_string_type_length : Z;
  device_id_string : list byte
}.

Record t : Type := {
  common : SdrCommon.t;
  attrs : option fields
}.

Definition parse : M ByteBuffer fields :=
  let* device_slave_address := pop_unsigned_int 1 in
  let* channel_number := pop_unsigned_int 1 in
  let* power_state_notification := pop_unsigned_int 1 in
  let* device_capabilities := pop_unsigned_int 1 in
  let* reserved := pop_unsigned_int 3 in
  let* entity_id := pop_unsigned_int 1 in
  let* entity_instance := pop_unsigned_int 1 in
  let* oem := pop_unsigned_int 1 in
  let* device_id_string_type_length := pop_unsigned_int 1 in
  let* device_id_string := to_string in
  ret {|
    device_slave_address := Z.shiftr device_slave_address 1;
    channel_number := Z.land channel_number 0xf;
    power_state_notification := power_state_notification;
    global_initialization := 0;
    device_capabilities := device_capabilities;
    reserved := reserved;
    entity_id := entity_id;
    entity_instance := entity_instance;
    oem := oem;
    device_id_string_type_length := device_id_string_type_length;
    device_id_string := device_id_string
  |}.

Definition from_data (data : list byte) : result fields :=
  fst (parse (drop 5 data)).

Definition __init__ (data : list byte) (next_id : option Z) : result t :=
  let! c := SdrCommon.__init__ data next_id in
  let! a := init_body from_data data in
  Ok {| common := c; attrs := a |}.

End SdrManagementContollerDeviceLocator.

(** ** The record decoder *)

Definition SDR_TYPE_FULL_SENSOR_RECORD : Z := 0x01.
Definition SDR_TYPE_COMPACT_SENSOR_RECORD : Z := 0x02.
Definition SDR_TYPE_EVENT_ONLY_SENSOR_RECORD : Z := 0x03.
Definition SDR_TYPE_ENTITY_ASSOCIATION_RECORD : Z := 0x08.
Definition SDR_TYPE_FRU_DEVICE_LOCATOR_RECORD : Z := 0x11.
Definition SDR_TYPE_MANAGEMENT_CONTROLLER_DEVICE_LOCATOR_RECORD : Z := 0x12.
Definition SDR_TYPE_MANAGEMENT_CONTROLLER_CONFIRMATION_RECORD : Z := 0x13.
Definition SDR_TYPE_BMC_MESSAGE_CHANNEL_INFO_RECORD : Z := 0x14.

(** An object returned by [create_sdr], by class. *)
Inductive Sdr : Type :=
| FullSensorRecord (o : SdrFullSensorRecord.t)
| CompactSensorRecord (o : SdrCompactSensorRecord.t)
| EventOnlySensorRecord (o : SdrEventOnlySensorRecord.t)
| FruDeviceLocator (o : SdrFruDeviceLocator.t)
| ManagementContollerDeviceLocator (o : SdrManagementContollerDeviceLocator.t).

Definition sdr_common (s : Sdr) : SdrCommon.t :=
  match s with
  | FullSensorRecord o => SdrFullSensorRecord.common o
  | CompactSensorRecord o => SdrCompactSensorRecord.common o
  | EventOnlySensorRecord o => SdrEventOnlySensorRecord.common o
  | FruDeviceLocator o => SdrFruDeviceLocator.common o
  | ManagementContollerDeviceLocator o => SdrManagementContollerDeviceLocator.common o
  end.

(** The attribute [s.next_id]; reading it raises [AttributeError] when it
    was never set. *)
Definition next_id (s : Sdr) : option Z := SdrCommon.next_id (sdr_common s).

Definition unsupported_sdr_type (sdr_type : Z) : exn :=
  DecodingError ("Unsupported SDR type(0x" +:+ fmt_02x sdr_type +:+ ")").

Definition create_sdr (data : list byte) (next_id : option Z) : result Sdr :=
  match data !! 3%nat with
  | None => Raise IndexError
  | Some c =>
      let sdr_type := ord c in
      if sdr_type =? SDR_TYPE_FULL_SENSOR_RECORD then
        let! o := SdrFullSensorRecord.__init__ data next_id in
        Ok (FullSensorRecord o)
      else if sdr_type =? SDR_TYPE_COMPACT_SENSOR_RECORD then
        let! o := SdrCompactSensorRecord.__init__ data next_id in
        Ok (CompactSensorRecord o)
      else if sdr_type =? SDR_TYPE_EVENT_ONLY_SENSOR_RECORD then
        let! o := SdrEventOnlySensorRecord.__init__ data next_id in
        Ok (EventOnlySensorRecord o)
      else if sdr_type =? SDR_TYPE_FRU_DEVICE_LOCATOR_RECORD then
        let! o := SdrFruDeviceLocator.__init__ data next_id in
        Ok (FruDeviceLocator o)
      else if sdr_type =? SDR_TYPE_MANAGEMENT_CONTROLLER_DEVICE_LOCATOR_RECORD then
        let! o := SdrManagementContollerDeviceLocator.__init__ data next_id in
        Ok (ManagementContollerDeviceLocator o)
      else if sdr_type =? SDR_TYPE_MANAGEMENT_CONTROLLER_CONFIRMATION_RECORD then
        Raise (unsupported_sdr_type sdr_type)
      else if sdr_type =? SDR_TYPE_BMC_MESSAGE_CHANNEL_INFO_RECORD then
        Raise (unsupported_sdr_type sdr_type)
      else
        Raise (unsupported_sdr_type sdr_type)
  end.

(** ** The messaging port *)

(** The three requests [class Sdr] builds with [create_request_by_name],
    with the fields it sets. *)
Inductive Request : Type :=
| ReserveDeviceSdrRepository
| GetDeviceSdr (reservation_id record_id offset length : Z)
| GetSensorReading (sensor_number : Z).

(** A response object, with the fields [class Sdr] reads. *)
Record Response : Type := {
  completion_code : Z;
  reservation_id : Z;
  next_record_id : Z;
  record_data : list byte;
  sensor_reading : Z;
  update_in_progress : bool;
  states1 : option Z;
  states2 : option Z
}.

(** [self.send_message]: the transport is outside the module; it is a
    state machine over a device state of its own. *)
Class Transport : Type := {
  Dev : Type;
  send_message : Request -> Dev -> Response * Dev
}.

(** Completion codes of [pyipmi.msgs.constants], which is not under src/;
    their values are parameters. *)
Class Constants : Type := {
  CC_RES_CANCELED : Z;
  CC_RESP_COULD_NOT_BE_PRV : Z;
  CC_CANT_RET_NUM_REQ_BYTES : Z
}.

(** Modelled from the spec: [pyipmi.utils.check_completion_code] is not
    under src/.  Section 4.1 of the specification: the call fails with a
    completion error carrying the code when the completion code is
    non-zero. *)
Definition check_completion_code (cc : Z) : result unit :=
  if cc =? 0 then Ok tt else Raise (CompletionCodeError cc).

(** A [while True:] loop: the body either continues with a new state
    ([inl]) or leaves the loop with a value ([inr]).  The result is [None]
    when the loop is still running after [fuel] iterations. *)
Fixpoint while_true {S St A : Type} (fuel : nat) (body : St -> M S (St + A))
    (st : St) : M S (option A) :=
  match fuel with
  | O => ret None
  | Datatypes.S fuel' =>
      let* r := body st in
      match r with
      | inl st' => while_true fuel' body st'
      | inr a => ret (Some a)
      end
  end.

Section Sdr.
Context `{Transport} `{Constants}.

(** What the methods of [class Sdr] act on: the device behind the
    transport, and the durations passed to [time.sleep] so far (most
    recent first). *)
Record World : Type := {
  dev : Dev;
  slept : list float
}.

Definition send (req : Request) : M World Response :=
  fun w =>
    let (rsp, d) := send_message req (dev w) in
    (Ok rsp, {| dev := d; slept := slept w |}).

Definition time_sleep (seconds : float) : M World unit :=
  fun w => (Ok tt, {| dev := dev w; slept := seconds :: slept w |}).

Definition get_reservation_id : M World Z :=
  let* rsp := send ReserveDeviceSdrRepository in
  let* _ := lift (check_completion_code (completion_code rsp)) in
  ret (reservation_id rsp).

(** *** [get_sdr] *)

(** State of the header loop: [retry] and [req.reservation_id]. *)
Record header_state : Type := {
  h_retry : Z;
  h_reservation_id : Z
}.

(** One iteration of the header loop; it leaves the loop with the
    response and the reservation id the request then carries. *)
Definition header_step (record_id : Z) (st : header_state)
    : M World (header_state + Response * Z) :=
  if h_retry st =? 0 then throw RetryError
  else
    let* rsp := send (GetDeviceSdr (h_reservation_id st) record_id 0 5) in
    if completion_code rsp =? 0 then
      ret (inr (rsp, h_reservation_id st))
    else if completion_code rsp =? CC_RES_CANCELED then
      let* reservation_id := get_reservation_id in
      let* _ := time_sleep tenth in
      ret (inl {| h_retry := h_retry st - 1; h_reservation_id := reservation_id |})
    else if completion_code rsp =? CC_RESP_COULD_NOT_BE_PRV then
      let* _ := time_sleep (tenth * float_of_Z (h_retry st)) in
      ret (inl {| h_retry := h_retry st - 1;
                  h_reservation_id := h_reservation_id st |})
    else
      let* _ := lift (check_completion_code (completion_code rsp)) in
      ret (inl st).

(** The five header fields popped from the first response. *)
Definition pop_header : M ByteBuffer Z :=
  let* record_id := pop_unsigned_int 2 in
  let* record_version := pop_unsigned_int 1 in
  let* record_type := pop_unsigned_int 1 in
  let* record_length := pop_unsigned_int 1 in
  ret (record_length + 5).

(** State of the body loop: [retry], [self.max_req_len],
    [req.reservation_id], [req.offset] and [record_data]. *)
Record body_state : Type := {
  retry : Z;
  max_req_len : Z;
  req_reservation_id : Z;
  req_offset : Z;
  acc_record_data : list byte
}.

Definition body_step (record_id record_length : Z) (st : body_state)
    : M World (body_state + list byte) :=
  if retry st =? 0 then throw RetryError
  else
    let length := max_req_len st in
    let length :=
      if req_offset st + length >? record_length
      then record_length - req_offset st
      else length in
    let* rsp := send (GetDeviceSdr (req_reservation_id st) record_id
                                   (req_offset st) length) in
    if completion_code rsp =? CC_CANT_RET_NUM_REQ_BYTES then
      let max_req_len' := max_req_len st - 4 in
      ret (inl {| retry := if max_req_len' <=? 0 then 0 else retry st;
                  max_req_len := max_req_len';
                  req_reservation_id := req_reservation_id st;
                  req_offset := req_offset st;
                  acc_record_data := acc_record_data st |})
    else if completion_code rsp =? CC_RES_CANCELED then
      let* reservation_id := get_reservation_id in
      let* _ := time_sleep (tenth * float_of_Z (retry st)) in
      (* clean all previous data and retry with new reservation *)
      ret (inl {| retry := retry st - 1;
                  max_req_len := max_req_len st;
                  req_reservation_id := reservation_id;
                  req_offset := 0;
                  acc_record_data := [] |})
    else if completion_code rsp =? 0xce then
      let* _ := time_sleep (tenth * float_of_Z (retry st)) in
      ret (inl {| retry := retry st - 1;
                  max_req_len := max_req_len st;
                  req_reservation_id := req_reservation_id st;
                  req_offset := req_offset st;
                  acc_record_data := acc_record_data st |})
    else
      let* _ := lift (check_completion_code (completion_code rsp)) in
      let record_data := acc_record_data st ++ record_data rsp in
      if Z.of_nat (List.length record_data) >=? record_length
      then ret (inr record_data)
      else ret (inl {| retry := retry st;
                       max_req_len := max_req_len st;
                       req_reservation_id := req_reservation_id st;
                       req_offset := Z.of_nat (List.length record_data);
                       acc_record_data := record_data |}).

(** The state in which the body loop is entered. *)
Definition body_start (reservation_id : Z) (record_data : list byte) : body_state :=
  {| retry := 20;
     max_req_len := 20;
     req_reservation_id := reservation_id;
     req_offset := Z.of_nat (List.length record_data);
     acc_record_data := record_data |}.

(** [get_sdr(record_id, reservation_id=None)]; each of its two loops may
    run for [fuel] iterations, and the result is [None] when one of them
    has not finished by then. *)
Definition get_sdr (fuel : nat) (record_id : Z) (reservation_id : option Z)
    : M World (option Sdr) :=
  let* reservation_id :=
    match reservation_id with
    | None => get_reservation_id
    | Some r => ret r
    end in
  (* get record header ... 5 bytes *)
  let* h := while_true fuel (header_step record_id)
              {| h_retry := 5; h_reservation_id := reservation_id |} in
  match h with
  | None => ret None
  | Some (rsp, reservation_id) =>
      let next_record_id := next_record_id rsp in
      let record_data := record_data rsp in
      let* record_length := lift (fst (pop_header (record_data))) in
      (* now get the other record data *)
      let* body := while_true fuel (body_step record_id record_length)
                     (body_start reservation_id record_data) in
      match body with
      | None => ret None
      | Some record_data =>
          let* s := lift (create_sdr record_data (Some next_record_id)) in
          ret (Some s)
      end
  end.

(** *** [sdr_entries] *)

(** How a run of the generator stands: the records yielded so far, and
    how it ended ([None] while it is still running). *)
Record generated : Type := {
  yielded : list Sdr;
  ended : option (result unit)
}.

Definition yield (s : Sdr) (g : generated) : generated :=
  {| yielded := s :: yielded g; ended := ended g |}.

(** The loop of [sdr_entries] over a reader [read] standing for
    [self.get_sdr]. *)
Fixpoint sdr_entries_loop (read : Z -> option Z -> M World (option Sdr))
    (fuel : nat) (reservation_id record_id : Z) (w : World) : generated * World :=
  match fuel with
  | O => ({| yielded := []; ended := None |}, w)
  | Datatypes.S fuel' =>
      match read record_id (Some reservation_id) w with
      | (Raise e, w') => ({| yielded := []; ended := Some (Raise e) |}, w')
      | (Ok None, w') => ({| yielded := []; ended := None |}, w')
      | (Ok (Some s), w') =>
          match next_id s with
          | None =>
              (yield s {| yielded := []; ended := Some (Raise AttributeError) |}, w')
          | Some n =>
              if n =? 0xffff
              then (yield s {| yielded := []; ended := Some (Ok tt) |}, w')
              else
                let (g, w'') := sdr_entries_loop read fuel' reservation_id n w' in
                (yield s g, w'')
          end
      end
  end.

Definition sdr_entries_with (read : Z -> option Z -> M World (option Sdr))
    (fuel : nat) (w : World) : generated * World :=
  match get_reservation_id w with
  | (Raise e, w') => ({| yielded := []; ended := Some (Raise e) |}, w')
  | (Ok reservation_id, w') => sdr_entries_loop read fuel reservation_id 0 w'
  end.

Definition sdr_entries (fuel : nat) : World -> generated * World :=
  sdr_entries_with (get_sdr fuel) fuel.

(** [list(self.sdr_entries())] *)
Definition get_sdr_list (fuel : nat) : M World (option (list Sdr)) :=
  fun w =>
    let (g, w') := sdr_entries fuel w in
    match ended g with
    | None => (Ok None, w')
    | Some (Ok _) => (Ok (Some (yielded g)), w')
    | Some (Raise e) => (Raise e, w')
    end.

(** *** [get_sensor_reading] *)

Definition get_sensor_reading (sensor_number : Z) : M World (option Z * option Z) :=
  let* rsp := send (GetSensorReading sensor_number) in
  let* _ := lift (check_completion_code (completion_code rsp)) in
  let reading := if update_in_progress rsp then None else Some (sensor_reading rsp) in
  let states :=
    match states1 rsp with
    | Some s1 => Some s1
    | None => None
    end in
  let* states :=
    match states2 rsp with
    | Some s2 =>
        match states with
        | Some s => ret (Some (Z.lor s (Z.shiftl s2 8)))
        | None => throw TypeError   (* [None |= int] *)
        end
    | None => ret states
    end in
  ret (reading, states).

End Sdr.

(** ** Concrete transports, constants and records *)

(** The completion codes as the IPMI specification numbers them. *)
Definition ipmi_constants : Constants := {|
  CC_RES_CANCELED := 0xc5;
  CC_RESP_COULD_NOT_BE_PRV := 0xce;
  CC_CANT_RET_NUM_REQ_BYTES := 0xca
|}.

(** A response with the given completion code and every field empty. *)
Definition response (cc : Z) : Response := {|
  completion_code := cc;
  reservation_id := 0;
  next_record_id := 0;
  record_data := [];
  sensor_reading := 0;
  update_in_progress := false;
  states1 := None;
  states2 := None
|}.

(** Responses of the three commands. *)
Definition reserved_rsp (reservation : Z) : Response := {|
  completion_code := 0;
  reservation_id := reservation;
  next_record_id := 0;
  record_data := [];
  sensor_reading := 0;
  update_in_progress := false;
  states1 := None;
  states2 := None
|}.

Definition sdr_rsp (next : Z) (bytes : list byte) : Response := {|
  completion_code := 0;
  reservation_id := 0;
  next_record_id := next;
  record_data := bytes;
  sensor_reading := 0;
  update_in_progress := false;
  states1 := None;
  states2 := None
|}.

Definition reading_rsp (reading : Z) (updating : bool) (s1 s2 : option Z) : Response := {|
  completion_code := 0;
  reservation_id := 0;
  next_record_id := 0;
  record_data := [];
  sensor_reading := reading;
  update_in_progress := updating;
  states1 := s1;
  states2 := s2
|}.

(** A mocked transport: it answers the requests with the responses of a
    script, in order, whatever is asked, and keeps the requests it was
    sent.  Once the script is used up it answers completion code [0xff]. *)
Definition scripted : Transport := {|
  Dev := list Response * list Request;
  send_message req d :=
    match fst d with
    | rsp :: script => (rsp, (script, snd d ++ [req]))
    | [] => (response 0xff, ([], snd d ++ [req]))
    end
|}.

Definition script_world (script : list Response) : @World scripted :=
  {| dev := (script, []) : @Dev scripted; slept := [] |}.

(** The requests a scripted transport has received. *)
Definition requests (w : @World scripted) : list Request := snd (dev w).

(** A full sensor record of 52 bytes (identifier 0x000a, version 0x51,
    type 0x01, body length 47) whose unit, linearization and coefficient
    bytes are the arguments.  The six threshold bytes are 1 to 6 and the
    identifier string is "Temp". *)
Definition full_sensor_bytes
    (units_1 linearization m m_tol b b_acc rexp_bexp : byte) : list byte :=
  [ x0a; x00; x51; x01; x2f;
    x20; x00; x01; x03; x01; x7f; x68; x01; x01;
    x80; x0a; x80; x7a; x38; x38;
    units_1; x01; x00;
    linearization;
    m; m_tol; b; b_acc; x00; rexp_bexp;
    x07; x19; x50; x0a; xff; x00;
    x01; x02; x03; x04; x05; x06;
    x02; x02; x00; x00; x00; xc4;
    x54; x65; x6d; x70 ].

(** ** A faithful repository *)

(** A repository that holds records and serves the reads of them
    faithfully: a read returns the requested bytes of the record and its
    successor.  It refuses reads longer than [page_limit] ("cannot return
    number of requested bytes", 0xca), answers the coming reads with the
    completion codes of [plan] where these are not 0, and numbers the
    reservations it issues. *)
Record Repository : Type := {
  records : gmap Z (list byte * Z);
  page_limit : Z;
  plan : list Z;
  issued : Z;
  received : list Request
}.

Definition serve (d : Repository) (record_id offset length : Z) : Response :=
  if length >? page_limit d then response 0xca
  else
    match records d !! record_id with
    | Some (bytes, next) =>
        sdr_rsp next (take (Z.to_nat length) (drop (Z.to_nat offset) bytes))
    | None => response 0xcb
    end.

Definition repository_send (req : Request) (d : Repository) : Response * Repository :=
  match req with
  | ReserveDeviceSdrRepository =>
      (reserved_rsp (issued d + 1),
       {| records := records d; page_limit := page_limit d; plan := plan d;
          issued := issued d + 1; received := received d ++ [req] |})
  | GetDeviceSdr _ record_id offset length =>
      match plan d with
      | [] =>
          (serve d record_id offset length,
           {| records := records d; page_limit := page_limit d; plan := [];
              issued := issued d; received := received d ++ [req] |})
      | cc :: plan' =>
          (if cc =? 0 then serve d record_id offset length else response cc,
           {| records := records d; page_limit := page_limit d; plan := plan';
              issued := issued d; received := received d ++ [req] |})
      end
  | GetSensorReading _ =>
      (response 0xc1,
       {| records := records d; page_limit := page_limit d; plan := plan d;
          issued := issued d; received := received d ++ [req] |})
  end.

Definition repository : Transport := {|
  Dev := Repository;
  send_message := repository_send
|}.

(** The world in which the repository is in state [d] and the reader has
    slept the durations [s]. *)
Definition repository_world (d : Repository) (s : list float) : @World repository :=
  @Build_World repository d s.

(** A repository with a single record. *)
Definition one_record (rid : Z) (bytes : list byte) (next : Z)
    (limit : Z) (p : list Z) : Repository :=
  {| records := {[ rid := (bytes, next) ]}; page_limit := limit; plan := p;
     issued := 0; received := [] |}.

(** The repository holds the record [rec] with successor [next] under the
    identifier [rid], and serves reads of four bytes. *)
Definition holds (rid next : Z) (rec : list byte) (d : Repository) : Prop :=
  records d !! rid = Some (rec, next) /\ 4 <= page_limit d.

(** The body loop has assembled the first [n] bytes of the record [rec]
    and asks for pages of four to twenty bytes. *)
Definition assembling (rec : list byte) (st : body_state) (n : nat) : Prop :=
  acc_record_data st = take n rec
  /\ req_offset st = Z.of_nat n
  /\ (n <= List.length rec)%nat
  /\ 4 <= max_req_len st <= 20
  /\ max_req_len st mod 4 = 0.


(** ** The specification's reading of the code

    Definitions that follow the words of the specification, for comparison
    with the definitions above. *)

(** The analog data formats of the two bits [analog_data_format]. *)
Inductive AnalogDataFormat : Type :=
| FormatUnsigned
| Format1sComplement
| Format2sComplement
| FormatNone.

Definition analog_format_of (fmt : Z) : AnalogDataFormat :=
  match fmt with
  | 0 => FormatUnsigned
  | 1 => Format1sComplement
  | 2 => Format2sComplement
  | _ => FormatNone
  end.

(** Step 1 of the specification's [raw_to_value]: the sign adjustment of
    the raw reading. *)
Definition sign_adjust (format : AnalogDataFormat) (raw : Z) : Z :=
  match format with
  | FormatUnsigned => raw
  | Format1sComplement =>
      if Z.testbit raw 7 then - (Z.lxor (Z.land raw 0x7f) 0x7f) else raw
  | Format2sComplement =>
      if Z.testbit raw 7 then - (Z.lxor (Z.land raw 0x7f) 0x7f) - 1 else raw
  | FormatNone => raw
  end.

Section ConverterFormulas.
Context `{MathModule}.

(** The twelve linearization functions, in the order of their selector
    values 0 to 11: identity, ln, log10, log2, exp, 10^x, 2^x, 1/x, x^2,
    x^3, square root, cube root. *)
Definition linearizations : list (float -> result float) :=
  [ (fun x => Ok x);
    math_log;
    (fun x => math_log_base x 10);
    (fun x => math_log_base x 2);
    math_exp;
    (fun x => math_pow 10 x);
    (fun x => math_pow 2 x);
    (fun x => py_float_div 1 (PyFloat x));
    (fun x => math_pow x 2);
    (fun x => math_pow x 3);
    math_sqrt;
    (fun x => let! third := py_float_div 1 (PyInt 3) in math_pow x third) ].

(** [10^k] as a double. *)
Definition float_pow10 (k : Z) : float :=
  if 0 <=? k then float_of_Z (10 ^ k) else pow10_neg k.

(** [b * 10^k1] as a double: the product is exact for [k1 >= 0]. *)
Definition offset_term (self : SdrFullSensorRecord.fields) : float :=
  if 0 <=? SdrFullSensorRecord.k1 self
  then float_of_Z (SdrFullSensorRecord.b self * 10 ^ SdrFullSensorRecord.k1 self)
  else (float_of_Z (SdrFullSensorRecord.b self)
        * pow10_neg (SdrFullSensorRecord.k1 self))%float.

(** The specification's [raw_to_value]: sign adjustment, then
    [linearize((m * raw + b * 10^k1) * 10^k2)] in binary64, with
    [linearize] taken from the table by the 7-bit selector. *)
Definition raw_to_value (self : SdrFullSensorRecord.fields) (raw : Z) : result float :=
  let selector := Z.land (SdrFullSensorRecord.linearization self) 0x7f in
  let x := float_of_Z
             (sign_adjust (analog_format_of (SdrFullSensorRecord.analog_data_format self))
                raw) in
  match linearizations !! Z.to_nat selector with
  | Some linearize =>
      linearize ((float_of_Z (SdrFullSensorRecord.m self) * x + offset_term self)
                 * float_pow10 (SdrFullSensorRecord.k2 self))%float
  | None => Raise (DecodingError ("unknown linearization " +:+ fmt_d selector))
  end.

(** The specification's inverse formula [(value * 10^-k2) / m - b * 10^k1]
    in binary64. *)
Definition value_to_raw_formula (self : SdrFullSensorRecord.fields) (value : float)
    : float :=
  ((value * float_pow10 (- SdrFullSensorRecord.k2 self))
   / float_of_Z (SdrFullSensorRecord.m self) - offset_term self)%float.

End ConverterFormulas.

(** The ranges of the converter's coefficients in a decoded record. *)
Record coefficient_ranges (self : SdrFullSensorRecord.fields) : Prop := {
  range_format : 0 <= SdrFullSensorRecord.analog_data_format self <= 3;
  range_linearization :
    0 <= SdrFullSensorRecord.linearization self < 128
    /\ Z.land (SdrFullSensorRecord.linearization self) 0x7f
       = SdrFullSensorRecord.linearization self;
  range_m : 0 <= SdrFullSensorRecord.m self < 1024;
  range_b : -512 <= SdrFullSensorRecord.b self < 512;
  range_k1 : -8 <= SdrFullSensorRecord.k1 self < 8;
  range_k2 : -8 <= SdrFullSensorRecord.k2 self < 8
}.

(** The threshold decoded under a name, [None] when the record does not
    decode or has no such threshold. *)
Definition decoded_threshold (data : list byte) (name : string) : option Z :=
  match SdrFullSensorRecord.from_data data with
  | Ok r => SdrFullSensorRecord.threshold r !! name
  | Raise _ => None
  end.

(** The byte of a record at an offset, as an integer. *)
Definition byte_at (data : list byte) (offset : nat) : option Z :=
  ord <$> data !! offset.

(** The order of the specification's data model: the six threshold bytes
    (record offsets 36 to 41) taken as unr, ucr, unc, lnc, lcr, lnr. *)
Definition thresholds_in_data_model_order (data : list byte) : Prop :=
  decoded_threshold data "unr" = byte_at data 36
  /\ decoded_threshold data "ucr" = byte_at data 37
  /\ decoded_threshold data "unc" = byte_at data 38
  /\ decoded_threshold data "lnc" = byte_at data 39
  /\ decoded_threshold data "lcr" = byte_at data 40
  /\ decoded_threshold data "lnr" = byte_at data 41.

(** The value of a lowercase hexadecimal digit. *)
Definition hex_value (a : ascii) : option Z :=
  (if Ascii.eqb a "0" then Some 0 else if Ascii.eqb a "1" then Some 1
   else if Ascii.eqb a "2" then Some 2 else if Ascii.eqb a "3" then Some 3
   else if Ascii.eqb a "4" then Some 4 else if Ascii.eqb a "5" then Some 5
   else if Ascii.eqb a "6" then Some 6 else if Ascii.eqb a "7" then Some 7
   else if Ascii.eqb a "8" then Some 8 else if Ascii.eqb a "9" then Some 9
   else if Ascii.eqb a "a" then Some 10 else if Ascii.eqb a "b" then Some 11
   else if Ascii.eqb a "c" then Some 12 else if Ascii.eqb a "d" then Some 13
   else if Ascii.eqb a "e" then Some 14 else if Ascii.eqb a "f" then Some 15
   else None)%char.

(** The record type that an "Unsupported SDR type(0x..)" decoding error
    reports: the two hexadecimal digits of its message. *)
Definition reported_sdr_type (e : exn) : option Z :=
  match e with
  | DecodingError msg =>
      if String.prefix "Unsupported SDR type(0x" msg
      then
        match String.get 23 msg, String.get 24 msg with
        | Some hi, Some lo =>
            match hex_value hi, hex_value lo with
            | Some h, Some l => Some (16 * h + l)
            | _, _ => None
            end
        | _, _ => None
        end
      else None
  | _ => None
  end.

(** The record types with a parser. *)
Definition supported_sdr_type (sdr_type : Z) : bool :=
  (sdr_type =? 0x01) || (sdr_type =? 0x02) || (sdr_type =? 0x03)
  || (sdr_type =? 0x11) || (sdr_type =? 0x12).

(** What [get_sdr] makes of the assembled bytes. *)
Definition decoded (record : list byte) (next : Z) : result (option Sdr) :=
  match create_sdr record (Some next) with
  | Ok s => Ok (Some s)
  | Raise e => Raise e
  end.

Section Chain.
Context `{Transport}.


End Chain.

(** ** Further example inputs *)

(** An event-only record of five bytes with the given identifier byte. *)
Definition event_only_bytes (id : byte) : list byte := [id; x00; x51; x03; x00].


(** The example record: a full sensor record with [m = 2], [b = 10],
    [k1 = k2 = 0], linear and unsigned. *)
Definition example_record : list byte :=
  full_sensor_bytes x00 x00 x02 x00 x0a x00 x00.

(** A full sensor record with [m = 0] in 1s complement format. *)
Definition zero_m_record : list byte :=
  full_sensor_bytes x40 x00 x00 x00 x0a x00 x00.


(** ** Record layouts

    Vocabulary for stating where in a record an attribute comes from. *)

(** The little-endian unsigned integer held in the [length] bytes of a
    record from [offset] on. *)
Definition le_at (data : list byte) (offset length : nat) : Z :=
  le_value (take length (drop offset data)).

(** An unsigned field of [bits] bits read as two's complement. *)
Definition twos_complement (bits value : Z) : Z :=
  if value <? 2 ^ (bits - 1) then value else value - 2 ^ bits.

(** The least number of bytes of a record of each class that decodes. *)
Definition minimum_length (sdr_type : Z) : option nat :=
  if sdr_type =? 0x01 then Some 48%nat
  else if sdr_type =? 0x02 then Some 32%nat
  else if sdr_type =? 0x03 then Some 5%nat
  else if sdr_type =? 0x11 then Some 16%nat
  else if sdr_type =? 0x12 then Some 16%nat
  else None.

(** The record type of each class. *)
Definition sdr_type_of (s : Sdr) : Z :=
  match s with
  | FullSensorRecord _ => 0x01
  | CompactSensorRecord _ => 0x02
  | EventOnlySensorRecord _ => 0x03
  | FruDeviceLocator _ => 0x11
  | ManagementContollerDeviceLocator _ => 0x12
  end.

(** The four support levels, by the value of the two bits that select
    them. *)
Definition support_levels : list string :=
  ["_not_supported"; "_readable"; "_read_and_setable"; "_fixed"].


(** A compact sensor record of 36 bytes (identifier 0x0002, version 0x51,
    type 0x02, body length 31) with the identifier string "Fan1". *)
Definition compact_sensor_bytes : list byte :=
  [ x02; x00; x51; x02; x1f;
    x20; x00; x30; x1d; x01; x67; x40; x04; x6f;
    x80; x0a; x00; x00; x03; x00;
    xc0; x12; x00;
    x01; x00; x02; x02; x00; x00; x00; x00; xc4;
    x46; x61; x6e; x31 ].

(** A FRU device locator record of 19 bytes with the identifier string
    "FRU". *)
Definition fru_locator_bytes : list byte :=
  [ x03; x00; x51; x11; x0e;
    xa1; x05; x80; x07; x00; x10; x02; x0a; x60; x00; xc3;
    x46; x52; x55 ].

(** A management controller device locator record of 19 bytes with the
    identifier string "BMC". *)
Definition mc_locator_bytes : list byte :=
  [ x04; x00; x51; x12; x0e;
    x41; xf7; x00; xbf; x00; x00; x00; x06; x61; x00; xc3;
    x42; x4d; x43 ].

(** The doubles of the integers [lo], ..., [lo + n - 1]. *)
Definition floats (lo n : nat) : list float :=
  map (fun k => float_of_Z (Z.of_nat k)) (seq lo n).

(** The arithmetic of the two converters of a linear record with
    [b = 0] and [k2 = 0], on the doubles of [m] and of the raw reading:
    the value is not negative, and the quotient that is rounded equals the
    raw reading. *)
Definition round_trip_check (mf rf : float) : bool :=
  let value := ((mf * rf + 0) * 1)%float in
  negb (value <? 0)%float && ((value * 1 / mf - 0) =? rf)%float.

(** A full sensor record with [m = 2] and no offset, linear and
    unsigned. *)
Definition no_offset_record : list byte :=
  full_sensor_bytes x00 x00 x02 x00 x00 x00 x00.

(** ** Further transports *)

(** A device that answers every request with completion code 0 and no
    data. *)
Definition silent : Transport := {|
  Dev := unit;
  send_message _ d := (response 0, d)
|}.

(** A device that refuses every request with the given completion
    code. *)
Definition refusing (cc : Z) : Transport := {|
  Dev := unit;
  send_message _ d := (response cc, d)
|}.

(** ** Chains of records *)

(** A record whose length byte agrees with its number of bytes. *)
Definition well_formed (rec : list byte) : Prop :=
  exists c, rec !! 4%nat = Some c /\ Z.of_nat (List.length rec) = ord c + 5.

(** [chain records stop id l]: [l] lists the records of a repository
    from the record [id] on, each with its successor, following the
    successors; the last one is the first whose successor is [stop], and
    no successor before it is 0 or 0xFFFF. *)
Inductive chain (records : gmap Z (list byte * Z)) (stop : Z)
    : Z -> list (list byte * Z) -> Prop :=
| chain_last (id : Z) (rec : list byte) :
    records !! id = Some (rec, stop) ->
    chain records stop id [(rec, stop)]
| chain_next (id next : Z) (rec : list byte) (l : list (list byte * Z)) :
    records !! id = Some (rec, next) ->
    next <> 0xffff ->
    next <> 0 ->
    chain records stop next l ->
    chain records stop id ((rec, next) :: l).

(** The record [sdr] is what [create_sdr] makes of a well-formed entry
    of a repository. *)
Definition decodes_to (entry : list byte * Z) (sdr : Sdr) : Prop :=
  well_formed (fst entry) /\ create_sdr (fst entry) (Some (snd entry)) = Ok sdr.

(** A repository of two records: the example full sensor record as
    record 0 with successor 5, and a management controller device locator
    as record 5, the last one.  It serves reads of at most 16 bytes. *)
Definition two_record_repository : Repository :=
  {| records := {[ 0 := (example_record, 5); 5 := (mc_locator_bytes, 0xffff) ]};
     page_limit := 16; plan := []; issued := 0; received := [] |}.

(** The same repository with the last record pointing to record 0. *)
Definition zero_successor_repository : Repository :=
  {| records := {[ 0 := (example_record, 5); 5 := (mc_locator_bytes, 0) ]};
     page_limit := 16; plan := []; issued := 0; received := [] |}.

(** ** [set_sensor_thresholds] *)

(** The [SetSensorThreshold] request with the fields the method sets.
    [set_mask] and [threshold] are objects with one attribute per
    threshold; each is the map from the names of its attributes to their
    values, and an assignment to an attribute is an insertion. *)
Module SetSensorThresholdReq.

Record t : Type := {
  sensor_number : Z;
  set_mask : gmap string Z;
  threshold : gmap string Z
}.

End SetSensorThresholdReq.

(** The messaging port for this request: [pyipmi.msgs] is not under src/,
    so the request that [create_request_by_name('SetSensorThreshold')]
    returns and what [self.send_message] answers to such a request are
    parameters, over the device of the transport. *)
Class ThresholdTransport `{Transport} : Type := {
  create_set_sensor_threshold : SetSensorThresholdReq.t;
  send_set_sensor_threshold : SetSensorThresholdReq.t -> Dev -> Response * Dev
}.

Section SetSensorThresholds.
Context `{ThresholdTransport}.

(** [if value is not None: req.set_mask.<name> = 1;
    req.threshold.<name> = value] *)
Definition set_threshold (name : string) (value : option Z)
    (req : SetSensorThresholdReq.t) : SetSensorThresholdReq.t :=
  match value with
  | Some v =>
      {| SetSensorThresholdReq.sensor_number :=
           SetSensorThresholdReq.sensor_number req;
         SetSensorThresholdReq.set_mask :=
           <[name := 1]> (SetSensorThresholdReq.set_mask req);
         SetSensorThresholdReq.threshold :=
           <[name := v]> (SetSensorThresholdReq.threshold req) |}
  | None => req
  end.

Definition set_sensor_thresholds (sensor_number : Z)
    (unr ucr unc lnc lcr lnr : option Z) : M World unit :=
  let req := create_set_sensor_threshold in
  let req :=
    {| SetSensorThresholdReq.sensor_number := sensor_number;
       SetSensorThresholdReq.set_mask := SetSensorThresholdReq.set_mask req;
       SetSensorThresholdReq.threshold := SetSensorThresholdReq.threshold req |} in
  let req := set_threshold "unr" unr req in
  let req := set_threshold "ucr" ucr req in
  let req := set_threshold "unc" unc req in
  let req := set_threshold "lnc" lnc req in
  let req := set_threshold "lcr" lcr req in
  let req := set_threshold "lnr" lnr req in
  let* rsp := (fun w : World =>
                 let (rsp, d) := send_set_sensor_threshold req (dev w) in
                 (Ok rsp, {| dev := d; slept := slept w |})) in
  lift (check_completion_code (completion_code rsp)).

End SetSensorThresholds.

(** The value supplied for a threshold name in a call
    [set_sensor_thresholds(n, unr, ucr, unc, lnc, lcr, lnr)]: [None] for
    an argument left at [None] and for any other name. *)
Definition supplied (unr ucr unc lnc lcr lnr : option Z) (name : string) : option Z :=
  if String.eqb name "unr" then unr
  else if String.eqb name "ucr" then ucr
  else if String.eqb name "unc" then unc
  else if String.eqb name "lnc" then lnc
  else if String.eqb name "lcr" then lcr
  else if String.eqb name "lnr" then lnr
  else None.

(** ** String forms: the [__str__] methods *)

(** The double quote character. *)
Definition double_quote : ascii := ascii_of_byte x22.

(** ['%-16s' % s]: [s], padded with spaces on the right to 16
    characters. *)
Definition fmt_ljust16 (s : string) : string :=
  s +:+ String.string_of_list_ascii (replicate (16 - String.length s) " "%char).

(** [' '.join(l)] *)
Fixpoint join_space (l : list string) : string :=
  match l with
  | [] => EmptyString
  | [x] => x
  | x :: l' => x +:+ " " +:+ join_space l'
  end.

(** [' '.join(['%02x' % ord(b) for b in data])] *)
Definition hex_dump (data : list byte) : string :=
  join_space (map (fun b => fmt_02x (ord b)) data).

(** The expression ['["%-16s"] [%s]' % (self.device_id_string, ' '.join(...))]
    of the [__str__] methods.  Reading an attribute that was never set
    raises [AttributeError]; [self.device_id_string] is read first. *)
Definition format_record (device_id_string data : option (list byte)) : result string :=
  match device_id_string with
  | None => Raise AttributeError
  | Some name =>
      match data with
      | None => Raise AttributeError
      | Some bytes =>
          Ok ("[" +:+ String double_quote (fmt_ljust16 (String.string_of_list_byte name))
              +:+ String double_quote "] [" +:+ hex_dump bytes +:+ "]")
      end
  end.

(** [SdrCommon.__str__]: an object of the class has no
    [device_id_string]. *)
Definition SdrCommon__str__ (self : SdrCommon.t) : result string :=
  format_record None (SdrCommon.data <$> SdrCommon.head self).

Definition SdrFullSensorRecord__str__ (self : SdrFullSensorRecord.t) : result string :=
  format_record
    (SdrFullSensorRecord.device_id_string <$> SdrFullSensorRecord.attrs self)
    (SdrCommon.data <$> SdrCommon.head (SdrFullSensorRecord.common self)).

Definition SdrCompactSensorRecord__str__ (self : SdrCompactSensorRecord.t)
    : result string :=
  format_record
    (SdrCompactSensorRecord.device_id_string <$> SdrCompactSensorRecord.attrs self)
    (SdrCommon.data <$> SdrCommon.head (SdrCompactSensorRecord.common self)).

Definition SdrEventOnlySensorRecord__str__ (self : SdrEventOnlySensorRecord.t)
    : result string :=
  Ok "Not supported yet.".

Definition SdrFruDeviceLocator__str__ (self : SdrFruDeviceLocator.t) : result string :=
  format_record
    (SdrFruDeviceLocator.device_id_string <$> SdrFruDeviceLocator.attrs self)
    (SdrCommon.data <$> SdrCommon.head (SdrFruDeviceLocator.common self)).

Definition SdrManagementContollerDeviceLocator__str__
    (self : SdrManagementContollerDeviceLocator.t) : result string :=
  format_record
    (SdrManagementContollerDeviceLocator.device_id_string
       <$> SdrManagementContollerDeviceLocator.attrs self)
    (SdrCommon.data
       <$> SdrCommon.head (SdrManagementContollerDeviceLocator.common self)).

(** [str(s)] of an object [create_sdr] returned, by its class. *)
Definition str (s : Sdr) : result string :=
  match s with
  | FullSensorRecord o => SdrFullSensorRecord__str__ o
  | CompactSensorRecord o => SdrCompactSensorRecord__str__ o
  | EventOnlySensorRecord o => SdrEventOnlySensorRecord__str__ o
  | FruDeviceLocator o => SdrFruDeviceLocator__str__ o
  | ManagementContollerDeviceLocator o => SdrManagementContollerDeviceLocator__str__ o
  end.

(** Reads a dump of two-digit hexadecimal numbers separated by single
    spaces back into bytes. *)
Fixpoint parse_hex_dump (s : string) : option (list byte) :=
  match s with
  | EmptyString => Some []
  | String hi (String lo rest) =>
      match hex_value hi, hex_value lo with
      | Some h, Some l =>
          match Byte.of_N (Z.to_N (16 * h + l)) with
          | Some b =>
              match rest with
              | EmptyString => Some [b]
              | String sep rest' =>
                  if Ascii.eqb sep " "
                  then match parse_hex_dump rest' with
                       | Some bs => Some (b :: bs)
                       | None => None
                       end
                  else None
              end
          | None => None
          end
      | _, _ => None
      end
  | _ => None
  end.

(** ** Back-off *)

(** The durations slept while [n] attempts are used up one after the
    other, the most recent first: 0.1 * 1, 0.1 * 2, ..., 0.1 * n. *)
Definition back_off (n : nat) : list float :=
  map (fun k => (tenth * float_of_Z (Z.of_nat k))%float) (seq 1 n).

(** ** Further converter checks *)

(** The scaled value of a zero reading of a record without offset, on
    the doubles of [m] and of [10^k2]: it is zero. *)
Definition zero_reading_check (mf pf : float) : bool :=
  (((mf * 0 + 0) * pf) =? 0)%float.

(** A full sensor record with [m = 2] and no offset whose linearization
    is 1/x. *)
Definition reciprocal_record : list byte :=
  full_sensor_bytes x00 x07 x02 x00 x00 x00 x00.

(** A script in which the body read of the 52-byte example record is
    answered with 60 bytes: the 47 bytes of the body and 13 more. *)
Definition surplus_script : list Response :=
  [ sdr_rsp 9 (take 5 example_record);
    sdr_rsp 0 (drop 5 example_record ++ replicate 13 x21) ].

(** The arithmetic of [convert_sensor_value_to_raw] for a linear record
    with [b = 0] and [k2 = 0] on the negated product of the doubles of
    [m] and of a reading: the quotient that is rounded equals the negated
    reading. *)
Definition negative_value_check (mf rf : float) : bool :=
  ((- (mf * rf) * 1 / mf - 0) =? - rf)%float.

(** ** Reservation loss *)

(** The repository [d] with no fault planned. *)
Definition unplanned (d : Repository) : Repository :=
  {| records := records d; page_limit := page_limit d; plan := [];
     issued := issued d; received := received d |}.

(** The reads of [count] consecutive pages of [size] bytes of the record
    [rid] under the reservation [rsv], the first of them at [offset]; a
    page is cut at the record length [L]. *)
Fixpoint pages (count : nat) (rsv rid L size offset : Z) : list Request :=
  match count with
  | O => []
  | S count' =>
      GetDeviceSdr rsv rid offset (Z.min size (L - offset))
      :: pages count' rsv rid L size (offset + size)
  end.

(** The number of pages of [size] bytes that [n] bytes take. *)
Definition page_count (n size : Z) : nat := Z.to_nat ((n + size - 1) / size).

(** The repository of the reservation loss example: it holds the 52-byte
    example record as record 10 with successor 9, serves reads of at most
    20 bytes, and cancels the reservation at the third read. *)
Definition interrupted_repository : Repository :=
  one_record 10 example_record 9 20 [0; 0; 0xc5].

(** The answers of the call sequence success(partial), reservation
    canceled, success(rest) taken by the letter: the header, the first 20
    body bytes, "reservation canceled", the new reservation 8, and the 27
    bytes that follow the first 20 body bytes. *)
Definition literal_rest_script : list Response :=
  [ sdr_rsp 9 (take 5 example_record);
    sdr_rsp 0 (take 20 (drop 5 example_record));
    response 0xc5;
    reserved_rsp 8;
    sdr_rsp 0 (drop 25 example_record) ].

(** The same answers without the cancellation: the header, the first 20
    body bytes and the 27 bytes that follow them. *)
Definition uninterrupted_script : list Response :=
  [ sdr_rsp 9 (take 5 example_record);
    sdr_rsp 0 (take 20 (drop 5 example_record));
    sdr_rsp 0 (drop 25 example_record) ].

(** The answers of five refused reads. *)
Definition refusals_script : list Response := replicate 5 (response 0xca).

(** * Properties *)

(** ** Bytes and the byte cursor *)

Lemma ord_range (c : byte) : 0 <= ord c < 256.
Proof.
  unfold ord. pose proof (Byte.to_N_bounded c) as Hb. lia.
Qed.

Lemma bind_Ok_inv {S A B : Type} (c : M S A) (k : A -> M S B) s b s'' :
  bind c k s = (Ok b, s'') ->
  exists a s', c s = (Ok a, s') /\ k a s' = (Ok b, s'').
Proof.
  unfold bind. destruct (c s) as [[a|e] s'] eqn:Hc; intros Hk.
  - exists a, s'. split; [reflexivity | exact Hk].
  - discriminate Hk.
Qed.

Lemma pop1_Ok_inv (buffer buffer' : ByteBuffer) (v : Z) :
  pop_unsigned_int 1 buffer = (Ok v, buffer') ->
  exists c, buffer = c :: buffer' /\ v = ord c.
Proof.
  unfold pop_unsigned_int. destruct buffer as [|c rest]; simpl; intros Hp.
  - discriminate Hp.
  - exists c. inversion Hp; subst. split; [reflexivity | lia].
Qed.

Lemma pop2_Ok_inv (buffer buffer' : ByteBuffer) (v : Z) :
  pop_unsigned_int 2 buffer = (Ok v, buffer') ->
  exists c0 c1, buffer = c0 :: c1 :: buffer' /\ v = ord c0 + 256 * ord c1.
Proof.
  unfold pop_unsigned_int.
  destruct buffer as [|c0 [|c1 rest]]; simpl; intros Hp; try discriminate Hp.
  exists c0, c1. inversion Hp; subst. split; [reflexivity | lia].
Qed.

Lemma pop3_Ok_inv (buffer buffer' : ByteBuffer) (v : Z) :
  pop_unsigned_int 3 buffer = (Ok v, buffer') ->
  exists c0 c1 c2, buffer = c0 :: c1 :: c2 :: buffer'
                   /\ v = ord c0 + 256 * (ord c1 + 256 * ord c2).
Proof.
  unfold pop_unsigned_int.
  destruct buffer as [|c0 [|c1 [|c2 rest]]]; simpl; intros Hp; try discriminate Hp.
  exists c0, c1, c2. inversion Hp; subst. split; [reflexivity | lia].
Qed.

Lemma to_string_Ok_inv (buffer buffer' : ByteBuffer) (v : list byte) :
  to_string buffer = (Ok v, buffer') -> v = buffer /\ buffer' = buffer.
Proof. unfold to_string. intros Hp. inversion Hp; subst. split; reflexivity. Qed.

Lemma ret_Ok_inv {S A : Type} (a b : A) (s s' : S) :
  ret a s = (Ok b, s') -> b = a /\ s' = s.
Proof. unfold ret. intros Hp. inversion Hp; subst. split; reflexivity. Qed.

(** Inverts a successful run of a chain of pops, one step at a time. *)
Ltac invert_parse H :=
  repeat
    (let v := fresh "v" in
     let buf := fresh "buf" in
     let Hpop := fresh "Hpop" in
     apply bind_Ok_inv in H as (v & buf & Hpop & H);
     first
       [ apply pop1_Ok_inv in Hpop as (? & -> & ->)
       | apply pop2_Ok_inv in Hpop as (? & ? & -> & ->)
       | apply pop3_Ok_inv in Hpop as (? & ? & ? & -> & ->)
       | apply to_string_Ok_inv in Hpop as (-> & ->) ]);
  apply ret_Ok_inv in H as (-> & ->).

(** A successful [from_data] is a successful run of [parse] on the bytes
    that follow the five header bytes. *)
Lemma full_from_data_Ok_inv (data : list byte) (r : SdrFullSensorRecord.fields) :
  SdrFullSensorRecord.from_data data = Ok r ->
  exists body buffer,
    drop 5 data = body /\ SdrFullSensorRecord.parse body = (Ok r, buffer).
Proof.
  unfold SdrFullSensorRecord.from_data.
  destruct (SdrFullSensorRecord.parse (drop 5 data)) as [res buffer] eqn:Hp.
  simpl. intros ->. exists (drop 5 data), buffer. split; [reflexivity | exact Hp].
Qed.

(** The header of a record that starts 0a 00 51 01 20: identifier 0x000a,
    version 0x51, type 0x01, body length 0x20. *)
Lemma from_response_header (rest : list byte) :
  SdrCommon.from_response ([x0a; x00; x51; x01; x20] ++ rest)
  = Ok {| SdrCommon.data := [x0a; x00; x51; x01; x20] ++ rest;
          SdrCommon.id := 0x000a;
          SdrCommon.version := 0x51;
          SdrCommon.type := 0x01;
          SdrCommon.lenght := 0x20 |}.
Proof. reflexivity. Qed.

(** A 4-bit field read as two's complement: 0b1000 is -8, 0b0111 is 7. *)
Lemma convert_complement_four_bits :
  SdrFullSensorRecord._convert_complement 8 4 = -8
  /\ SdrFullSensorRecord._convert_complement 7 4 = 7.
Proof. split; reflexivity. Qed.

(** ** Bit fields *)

(** Masking with a single bit tests that bit. *)
Lemma land_pow2 (a n : Z) :
  0 <= n -> Z.land a (2 ^ n) = if Z.testbit a n then 2 ^ n else 0.
Proof.
  intros Hn. apply Z.bits_inj'. intros i Hi.
  rewrite Z.land_spec, Z.pow2_bits_eqb by lia.
  destruct (Z.eqb_spec n i) as [->|Hne].
  - destruct (Z.testbit a i) eqn:Ha; simpl.
    + rewrite Z.pow2_bits_true by lia. reflexivity.
    + rewrite Z.bits_0. reflexivity.
  - rewrite andb_false_r.
    destruct (Z.testbit a n).
    + rewrite Z.pow2_bits_false by lia. reflexivity.
    + rewrite Z.bits_0. reflexivity.
Qed.

Lemma truthy_land_pow2 (a n : Z) :
  0 <= n -> truthy (Z.land a (2 ^ n)) = Z.testbit a n.
Proof.
  intros Hn. rewrite land_pow2 by lia. unfold truthy.
  destruct (Z.testbit a n).
  - destruct (Z.eqb_spec (2 ^ n) 0) as [H0|]; [| reflexivity].
    pose proof (Z.pow_pos_nonneg 2 n). lia.
  - reflexivity.
Qed.

Lemma lor_lt_pow2 (a b n : Z) :
  0 < n -> 0 <= a < 2 ^ n -> 0 <= b < 2 ^ n -> 0 <= Z.lor a b < 2 ^ n.
Proof.
  intros Hn Ha Hb. split; [apply Z.lor_nonneg; lia |].
  destruct (Z.eq_dec (Z.lor a b) 0) as [-> | Hnz]; [lia |].
  assert (0 <= Z.lor a b) by (apply Z.lor_nonneg; lia).
  apply Z.log2_lt_pow2; [lia |].
  rewrite Z.log2_lor by lia.
  apply Z.max_lub_lt.
  - destruct (Z.eq_dec a 0) as [-> | ?]; [simpl; lia | apply Z.log2_lt_pow2; lia].
  - destruct (Z.eq_dec b 0) as [-> | ?]; [simpl; lia | apply Z.log2_lt_pow2; lia].
Qed.

(** [_convert_complement] reads an unsigned [size]-bit field as two's
    complement. *)
Lemma convert_complement_range (value size : Z) :
  0 < size -> 0 <= value < 2 ^ size ->
  - 2 ^ (size - 1) <= SdrFullSensorRecord._convert_complement value size
  < 2 ^ (size - 1).
Proof.
  intros Hsize Hv. unfold SdrFullSensorRecord._convert_complement.
  rewrite !Z.shiftl_1_l, truthy_land_pow2 by lia.
  assert (Hpow : 2 ^ size = 2 * 2 ^ (size - 1)).
  { rewrite <- Z.pow_succ_r by lia. f_equal. lia. }
  assert (Hpos : 0 < 2 ^ (size - 1)) by (apply Z.pow_pos_nonneg; lia).
  destruct (Z.testbit value (size - 1)) eqn:Hbit.
  - apply Z.testbit_true in Hbit; [| lia].
    assert (value / 2 ^ (size - 1) = 1).
    { assert (0 <= value / 2 ^ (size - 1) < 2).
      { split; [apply Z.div_pos; lia | apply Z.div_lt_upper_bound; lia]. }
      assert (value / 2 ^ (size - 1) <> 0) by (intros E; rewrite E in Hbit; discriminate).
      lia. }
    pose proof (Z.div_mod value (2 ^ (size - 1))).
    pose proof (Z.mod_pos_bound value (2 ^ (size - 1))). lia.
  - apply Z.testbit_false in Hbit; [| lia].
    assert (value / 2 ^ (size - 1) = 0).
    { assert (0 <= value / 2 ^ (size - 1) < 2).
      { split; [apply Z.div_pos; lia | apply Z.div_lt_upper_bound; lia]. }
      destruct (Z.eq_dec (value / 2 ^ (size - 1)) 1) as [E|];
        [rewrite E in Hbit; discriminate | lia]. }
    pose proof (Z.div_mod value (2 ^ (size - 1))).
    pose proof (Z.mod_pos_bound value (2 ^ (size - 1))). lia.
Qed.

Lemma low_byte_range (c : byte) : 0 <= Z.land (ord c) 0xff < 2 ^ 10.
Proof. destruct c; vm_compute; split; first [discriminate | reflexivity]. Qed.

Lemma high_bits_range (c : byte) :
  0 <= Z.shiftl (Z.land (ord c) 0xc0) 2 < 2 ^ 10.
Proof. destruct c; vm_compute; split; first [discriminate | reflexivity]. Qed.

Lemma low_nibble_range (c : byte) : 0 <= Z.land (ord c) 0x0f < 2 ^ 4.
Proof. destruct c; vm_compute; split; first [discriminate | reflexivity]. Qed.

Lemma high_nibble_range (c : byte) :
  0 <= Z.shiftr (Z.land (ord c) 0xf0) 4 < 2 ^ 4.
Proof. destruct c; vm_compute; split; first [discriminate | reflexivity]. Qed.

Lemma format_bits_range (c : byte) : 0 <= Z.land (Z.shiftr (ord c) 6) 0x3 <= 3.
Proof. destruct c; vm_compute; split; first [discriminate | reflexivity]. Qed.

Lemma selector_bits (c : byte) :
  0 <= Z.land (ord c) 0x7f < 128
  /\ Z.land (Z.land (ord c) 0x7f) 0x7f = Z.land (ord c) 0x7f.
Proof.
  destruct c; vm_compute;
    (split; [split; first [discriminate | reflexivity] | reflexivity]).
Qed.

Lemma full_record_coefficient_ranges
    (data : list byte) (self : SdrFullSensorRecord.fields) :
  SdrFullSensorRecord.from_data data = Ok self -> coefficient_ranges self.
Proof.
  intros Hdec. apply full_from_data_Ok_inv in Hdec as (body & buffer & Hbody & Hp).
  unfold SdrFullSensorRecord.parse in Hp. invert_parse Hp.
  constructor; cbn [SdrFullSensorRecord.analog_data_format
                      SdrFullSensorRecord.linearization SdrFullSensorRecord.m
                      SdrFullSensorRecord.b SdrFullSensorRecord.k1
                      SdrFullSensorRecord.k2].
  - apply format_bits_range.
  - apply selector_bits.
  - change 1024 with (2 ^ 10).
    apply lor_lt_pow2; [lia | apply low_byte_range | apply high_bits_range].
  - change (-512) with (- 2 ^ (10 - 1)). change 512 with (2 ^ (10 - 1)).
    apply convert_complement_range; [lia |].
    apply lor_lt_pow2; [lia | apply low_byte_range | apply high_bits_range].
  - change (-8) with (- 2 ^ (4 - 1)). change 8 with (2 ^ (4 - 1)).
    apply convert_complement_range; [lia | apply low_nibble_range].
  - change (-8) with (- 2 ^ (4 - 1)). change 8 with (2 ^ (4 - 1)).
    apply convert_complement_range; [lia | apply high_nibble_range].
Qed.

(** ** The full sensor record parser *)

(** C10.  For every byte sequence that the full sensor record parser
    accepts, the decoded [rate_unit] is 0 whatever the [units_1] byte is,
    and the decoded [modifier_unit] is 0 or 2: the parser shifts
    [units_1] right by 3 and then by 7, and masks [units_1 >> 1] with
    the single bit 0x2. *)
Theorem full_record_rate_unit_is_zero
    (data : list byte) (r : SdrFullSensorRecord.fields) :
  SdrFullSensorRecord.from_data data = Ok r ->
  SdrFullSensorRecord.rate_unit r = 0
  /\ (SdrFullSensorRecord.modifier_unit r = 0
      \/ SdrFullSensorRecord.modifier_unit r = 2).
Proof.
  intros Hdec. apply full_from_data_Ok_inv in Hdec as (body & buffer & Hbody & Hp).
  unfold SdrFullSensorRecord.parse in Hp. invert_parse Hp. simpl.
  match goal with
  | |- Z.shiftr (Z.shiftr (ord ?c) 3) 7 = 0 /\ _ => destruct c
  end; vm_compute; auto.
Qed.

Lemma full_record_rate_unit_is_zero_witness :
  exists r,
    SdrFullSensorRecord.from_data (full_sensor_bytes xff x00 x02 x00 x0a x00 x00) = Ok r
    /\ SdrFullSensorRecord.rate_unit r = 0
    /\ (SdrFullSensorRecord.modifier_unit r = 0
        \/ SdrFullSensorRecord.modifier_unit r = 2).
Proof.
  eexists. split; [reflexivity |].
  apply (full_record_rate_unit_is_zero
           (full_sensor_bytes xff x00 x02 x00 x0a x00 x00)).
  reflexivity.
Defined.

(** C8, as amended.  The full sensor record parser consumes the six
    threshold bytes (record offsets 36 to 41) in the order unr, ucr, unc,
    lnr, lcr, lnc, and stores each under that name: the fourth byte is the
    lower non-recoverable threshold and the sixth the lower non-critical
    one. *)
Theorem full_record_threshold_order
    (data : list byte) (r : SdrFullSensorRecord.fields) :
  SdrFullSensorRecord.from_data data = Ok r ->
  SdrFullSensorRecord.threshold r !! "unr" = byte_at data 36
  /\ SdrFullSensorRecord.threshold r !! "ucr" = byte_at data 37
  /\ SdrFullSensorRecord.threshold r !! "unc" = byte_at data 38
  /\ SdrFullSensorRecord.threshold r !! "lnr" = byte_at data 39
  /\ SdrFullSensorRecord.threshold r !! "lcr" = byte_at data 40
  /\ SdrFullSensorRecord.threshold r !! "lnc" = byte_at data 41.
Proof.
  intros Hdec. apply full_from_data_Ok_inv in Hdec as (body & buffer & Hbody & Hp).
  unfold SdrFullSensorRecord.parse in Hp. invert_parse Hp.
  unfold byte_at.
  pose proof (fun i : nat => lookup_drop data 5 i) as Hat. rewrite Hbody in Hat.
  pose proof (Hat 31%nat) as H36. pose proof (Hat 32%nat) as H37.
  pose proof (Hat 33%nat) as H38. pose proof (Hat 34%nat) as H39.
  pose proof (Hat 35%nat) as H40. pose proof (Hat 36%nat) as H41.
  cbn in H36, H37, H38, H39, H40, H41.
  rewrite <- H36, <- H37, <- H38, <- H39, <- H40, <- H41.
  cbn [SdrFullSensorRecord.threshold fmap option_fmap option_map].
  repeat split; simplify_map_eq; reflexivity.
Qed.

Lemma full_record_threshold_order_witness :
  exists r,
    SdrFullSensorRecord.from_data (full_sensor_bytes x00 x00 x02 x00 x0a x00 x00) = Ok r
    /\ SdrFullSensorRecord.threshold r !! "lnr" = Some 4
    /\ SdrFullSensorRecord.threshold r !! "lnc" = Some 6.
Proof.
  eexists. split; [reflexivity |].
  pose proof (full_record_threshold_order
                (full_sensor_bytes x00 x00 x02 x00 x0a x00 x00) _ eq_refl)
    as (_ & _ & _ & Hlnr & _ & Hlnc).
  split; [exact Hlnr | exact Hlnc].
Defined.

(** C8, as stated, fails: in a record whose threshold bytes are 1 to 6 the
    fourth byte, 4, is not decoded as [lnc] (which is 6, the sixth byte)
    but as [lnr]. *)
Lemma thresholds_not_in_data_model_order :
  byte_at (full_sensor_bytes x00 x00 x02 x00 x0a x00 x00) 39 = Some 4
  /\ decoded_threshold (full_sensor_bytes x00 x00 x02 x00 x0a x00 x00) "lnc" = Some 6
  /\ decoded_threshold (full_sensor_bytes x00 x00 x02 x00 x0a x00 x00) "lnr" = Some 4
  /\ ~ thresholds_in_data_model_order (full_sensor_bytes x00 x00 x02 x00 x0a x00 x00).
Proof.
  repeat split; try reflexivity.
  intros (_ & _ & _ & Hlnc & _). vm_compute in Hlnc. discriminate Hlnc.
Qed.

(** ** The analog value converter *)

Lemma float_of_int_small (z : Z) :
  Z.abs z < 2 ^ 64 -> float_of_int z = Ok (float_of_Z z).
Proof.
  intros Hz. unfold float_of_int.
  destruct (Z.ltb_spec (Z.abs z) (2 ^ 1024 - 2 ^ 970)) as [_ | Hge];
    [reflexivity |].
  exfalso. assert (Hbig : 2 ^ 64 <= 2 ^ 1024 - 2 ^ 970) by (vm_compute; discriminate).
  lia.
Qed.

Lemma float_of_Z_nonzero (m : Z) :
  0 < m < 1024 -> (float_of_Z m =? 0)%float = false.
Proof.
  intros Hm.
  assert (Hall : forallb (fun n => negb (float_of_Z (Z.of_nat n) =? 0)%float)
                   (seq 1 1023) = true) by (vm_compute; reflexivity).
  rewrite forallb_forall in Hall. specialize (Hall (Z.to_nat m)).
  rewrite Z2Nat.id in Hall by lia. apply negb_true_iff, Hall, in_seq. lia.
Qed.

Lemma pow10_small (k : Z) : 0 <= k < 8 -> 0 < 10 ^ k <= 10 ^ 7.
Proof.
  intros Hk. split; [apply Z.pow_pos_nonneg; lia |].
  apply Z.pow_le_mono_r; lia.
Qed.

(** The sign adjustment of [convert_sensor_raw_to_value] is that of the
    specification. *)
Lemma sign_adjust_code (fmt raw : Z) :
  (if fmt =? SdrFullSensorRecord.DATA_FMT_1S_COMPLEMENT then
     if truthy (Z.land raw 0x80) then - (Z.lxor (Z.land raw 0x7f) 0x7f) else raw
   else if fmt =? SdrFullSensorRecord.DATA_FMT_2S_COMPLEMENT then
     if truthy (Z.land raw 0x80) then - (Z.lxor (Z.land raw 0x7f) 0x7f) - 1 else raw
   else raw)
  = sign_adjust (analog_format_of fmt) raw.
Proof.
  change 0x80 with (2 ^ 7). rewrite truthy_land_pow2 by lia.
  unfold SdrFullSensorRecord.DATA_FMT_1S_COMPLEMENT,
    SdrFullSensorRecord.DATA_FMT_2S_COMPLEMENT.
  destruct (Z.eqb_spec fmt 1) as [-> | H1]; [reflexivity |].
  destruct (Z.eqb_spec fmt 2) as [-> | H2]; [reflexivity |].
  destruct fmt as [|p|p]; try reflexivity.
  destruct p as [[p|p|]|[p|p|]|]; try reflexivity; congruence.
Qed.

Lemma sign_adjust_byte_range (format : AnalogDataFormat) (c : byte) :
  -128 <= sign_adjust format (ord c) <= 255.
Proof.
  destruct format; destruct c; vm_compute; split; discriminate.
Qed.

Section ConverterProperties.
Context `{MathModule}.

(** The [if]/[elif] chain of the property [l] is the lookup in the table
    of the twelve linearizations. *)
Lemma l_is_table_lookup (self : SdrFullSensorRecord.fields) :
  SdrFullSensorRecord.l self =
  let selector := Z.land (SdrFullSensorRecord.linearization self) 0x7f in
  match linearizations !! Z.to_nat selector with
  | Some linearize => Ok linearize
  | None => Raise (DecodingError ("unknown linearization " +:+ fmt_d selector))
  end.
Proof.
  unfold SdrFullSensorRecord.l. cbv zeta.
  assert (Hs : 0 <= Z.land (SdrFullSensorRecord.linearization self) 0x7f)
    by (apply Z.land_nonneg; right; lia).
  generalize dependent (Z.land (SdrFullSensorRecord.linearization self) 0x7f).
  intros s Hs.
  assert (Hcases : s = 0 \/ s = 1 \/ s = 2 \/ s = 3 \/ s = 4 \/ s = 5 \/ s = 6
                   \/ s = 7 \/ s = 8 \/ s = 9 \/ s = 10 \/ s = 11 \/ 12 <= s) by lia.
  repeat (destruct Hcases as [-> | Hcases]; [reflexivity |]).
  unfold SdrFullSensorRecord.L_LN, SdrFullSensorRecord.L_LOG,
    SdrFullSensorRecord.L_LOG2, SdrFullSensorRecord.L_E,
    SdrFullSensorRecord.L_EXP10, SdrFullSensorRecord.L_EXP2,
    SdrFullSensorRecord.L_1_X, SdrFullSensorRecord.L_SQR,
    SdrFullSensorRecord.L_CUBE, SdrFullSensorRecord.L_SQRT,
    SdrFullSensorRecord.L_CUBERT, SdrFullSensorRecord.L_LINEAR.
  repeat match goal with
         | |- context [s =? ?n] =>
             let E := fresh in
             destruct (Z.eqb_spec s n) as [E | E]; [lia | clear E]
         end.
  rewrite (lookup_ge_None_2 linearizations (Z.to_nat s)) by (simpl; lia).
  reflexivity.
Qed.

(** The offset [b * 10**k1] of a decoded record, as a Python number added
    to or subtracted from a float. *)
Lemma offset_term_code (self : SdrFullSensorRecord.fields)
    (fop : float -> float -> float) (zop : Z -> Z -> Z) (x : float) :
  coefficient_ranges self ->
  (let! bk := py_mul (PyInt (SdrFullSensorRecord.b self))
                (py_pow10 (SdrFullSensorRecord.k1 self)) in
   py_arith zop fop (PyFloat x) bk)
  = Ok (PyFloat (fop x (offset_term self))).
Proof.
  intros [_ _ _ Hb Hk1 _]. unfold offset_term, py_pow10, py_mul.
  destruct (Z.leb_spec 0 (SdrFullSensorRecord.k1 self)) as [Hk | Hk]; simpl.
  - pose proof (pow10_small (SdrFullSensorRecord.k1 self) ltac:(lia)) as Hp.
    rewrite float_of_int_small; [reflexivity |].
    assert (Z.abs (SdrFullSensorRecord.b self * 10 ^ SdrFullSensorRecord.k1 self)
            <= 512 * 10 ^ 7).
    { rewrite Z.abs_mul, (Z.abs_eq (10 ^ _)) by lia.
      apply Z.mul_le_mono_nonneg; lia. }
    assert (512 * 10 ^ 7 < 2 ^ 64) by (vm_compute; reflexivity). lia.
  - rewrite float_of_int_small by (assert (2 ^ 10 < 2 ^ 64) by reflexivity; lia).
    reflexivity.
Qed.

(** Multiplication of a float by [10**k] for an exponent of a decoded
    record. *)
Lemma float_pow10_code (x : float) (k : Z) :
  -8 <= k <= 8 ->
  py_mul (PyFloat x) (py_pow10 k) = Ok (PyFloat (x * float_pow10 k)).
Proof.
  intros Hk. unfold float_pow10, py_pow10, py_mul.
  destruct (Z.leb_spec 0 k) as [Hpos | Hneg]; simpl; [| reflexivity].
  rewrite float_of_int_small; [reflexivity |].
  assert (0 < 10 ^ k <= 10 ^ 8)
    by (split; [apply Z.pow_pos_nonneg; lia | apply Z.pow_le_mono_r; lia]).
  assert (10 ^ 8 < 2 ^ 64) by reflexivity. lia.
Qed.

(** C1.  For every decoded full sensor record and every raw byte,
    [convert_sensor_raw_to_value] sign-adjusts the byte by the analog data
    format (unsigned and none: unchanged; 1s complement with bit 7 set:
    [-((raw & 0x7f) ^ 0x7f)]; 2s complement: the same minus 1) and returns
    [linearize((m * raw + b * 10^k1) * 10^k2)], where [linearize] is the
    entry of the table of twelve functions at the 7-bit selector; a
    selector outside 0..11 raises [DecodingError]. *)
Theorem convert_sensor_raw_to_value_formula
    (data : list byte) (self : SdrFullSensorRecord.fields) (c : byte) :
  SdrFullSensorRecord.from_data data = Ok self ->
  SdrFullSensorRecord.convert_sensor_raw_to_value self (ord c)
  = raw_to_value self (ord c).
Proof.
  intros Hdec. pose proof (full_record_coefficient_ranges data self Hdec) as Hr.
  destruct Hr as [Hfmt Hlin Hm Hb Hk1 Hk2] eqn:HR. clear HR.
  unfold SdrFullSensorRecord.convert_sensor_raw_to_value, raw_to_value.
  cbv zeta. rewrite sign_adjust_code.
  pose proof (sign_adjust_byte_range
                (analog_format_of (SdrFullSensorRecord.analog_data_format self)) c)
    as Hraw.
  rewrite float_of_int_small by (assert (2 ^ 8 < 2 ^ 64) by reflexivity; lia).
  cbn [result_bind]. rewrite l_is_table_lookup. cbv zeta.
  destruct (linearizations !! Z.to_nat (Z.land (SdrFullSensorRecord.linearization self) 127))
    as [linearize |]; [| reflexivity].
  cbn [result_bind].
  unfold py_mul at 1. cbn [py_arith to_float].
  rewrite float_of_int_small by (assert (2 ^ 10 < 2 ^ 64) by reflexivity; lia).
  cbn [result_bind].
  pose proof (offset_term_code self PrimFloat.add Z.add
                (float_of_Z (SdrFullSensorRecord.m self)
                 * float_of_Z (sign_adjust
                                 (analog_format_of
                                    (SdrFullSensorRecord.analog_data_format self))
                                 (ord c)))%float
                (Build_coefficient_ranges self Hfmt Hlin Hm Hb Hk1 Hk2)) as Hoff.
  unfold result_bind in Hoff |- *. unfold py_add.
  destruct (py_mul (PyInt (SdrFullSensorRecord.b self))
              (py_pow10 (SdrFullSensorRecord.k1 self))) as [bk | e];
    [| discriminate Hoff].
  rewrite Hoff. rewrite float_pow10_code by lia. reflexivity.
Qed.

End ConverterProperties.

Lemma convert_sensor_raw_to_value_formula_witness :
  exists linear unknown,
    SdrFullSensorRecord.from_data example_record = Ok linear
    /\ SdrFullSensorRecord.from_data (full_sensor_bytes x80 x0c x02 x00 x0a x00 x00)
       = Ok unknown
    /\ forall M : MathModule,
         SdrFullSensorRecord.convert_sensor_raw_to_value linear (ord x14) = Ok 50%float
         /\ SdrFullSensorRecord.convert_sensor_raw_to_value unknown (ord xff)
            = Raise (DecodingError "unknown linearization 12").
Proof.
  do 2 eexists. split; [reflexivity |]. split; [reflexivity |].
  intros M. split.
  - rewrite (convert_sensor_raw_to_value_formula example_record _ x14 eq_refl).
    vm_compute. reflexivity.
  - rewrite (convert_sensor_raw_to_value_formula
               (full_sensor_bytes x80 x0c x02 x00 x0a x00 x00) _ xff eq_refl).
    vm_compute. reflexivity.
Defined.

Section InverseConverter.
Context `{MathModule}.

(** The quotient and offset of [convert_sensor_value_to_raw] for a decoded
    record with a non-zero [m]. *)
Lemma value_to_raw_arithmetic (self : SdrFullSensorRecord.fields) (value : float)
    (k : float -> result Z) :
  coefficient_ranges self ->
  SdrFullSensorRecord.m self <> 0 ->
  (let! scaled := py_mul (PyFloat value)
                    (py_pow10 (-1 * SdrFullSensorRecord.k2 self)) in
   let! scaled := to_float scaled in
   let! q := py_float_div scaled (PyInt (SdrFullSensorRecord.m self)) in
   let! bk := py_mul (PyInt (SdrFullSensorRecord.b self))
                (py_pow10 (SdrFullSensorRecord.k1 self)) in
   let! raw := py_sub (PyFloat q) bk in
   let! raw := to_float raw in
   k raw)
  = k (value_to_raw_formula self value).
Proof.
  intros Hr Hm0. pose proof Hr as [_ _ Hm _ _ Hk2].
  replace (-1 * SdrFullSensorRecord.k2 self) with (- SdrFullSensorRecord.k2 self) by lia.
  rewrite float_pow10_code by lia. cbn [result_bind to_float].
  unfold py_float_div. cbn [to_float].
  rewrite float_of_int_small by (assert (2 ^ 10 < 2 ^ 64) by reflexivity; lia).
  cbn [result_bind]. rewrite float_of_Z_nonzero by lia. cbn [result_bind].
  pose proof (offset_term_code self PrimFloat.sub Z.sub
                (value * float_pow10 (- SdrFullSensorRecord.k2 self)
                 / float_of_Z (SdrFullSensorRecord.m self))%float Hr) as Hoff.
  unfold result_bind in Hoff |- *. unfold py_sub.
  destruct (py_mul (PyInt (SdrFullSensorRecord.b self))
              (py_pow10 (SdrFullSensorRecord.k1 self))) as [bk | e];
    [| discriminate Hoff].
  rewrite Hoff. reflexivity.
Qed.

(** With [m = 0] the division raises before anything else is looked at. *)
Lemma value_to_raw_zero_m (self : SdrFullSensorRecord.fields) (value : float)
    (k : float -> result Z) :
  coefficient_ranges self ->
  SdrFullSensorRecord.m self = 0 ->
  (let! scaled := py_mul (PyFloat value)
                    (py_pow10 (-1 * SdrFullSensorRecord.k2 self)) in
   let! scaled := to_float scaled in
   let! q := py_float_div scaled (PyInt (SdrFullSensorRecord.m self)) in
   k q)
  = Raise ZeroDivisionError.
Proof.
  intros Hr Hm0. pose proof Hr as [_ _ _ _ _ Hk2].
  replace (-1 * SdrFullSensorRecord.k2 self) with (- SdrFullSensorRecord.k2 self) by lia.
  rewrite float_pow10_code by lia. cbn [result_bind to_float].
  rewrite Hm0. reflexivity.
Qed.

(** C5, as amended.  For a decoded full sensor record,
    [convert_sensor_value_to_raw]
    - raises [NotImplementedError] (the specification's Unsupported) when
      the linearization selector is not linear;
    - otherwise, when [m] is 0, raises [ZeroDivisionError];
    - otherwise raises [NotImplementedError] when the analog data format
      is 1s or 2s complement and the value is negative;
    - otherwise rounds [(value * 10^-k2) / m - b * 10^k1] to an integer and
      raises [ValueError] (the specification's OutOfRange) when the integer
      is greater than 0xff, and returns it when it is not; a quotient that
      is infinite or not a number has no integer, and [int] raises. *)
Theorem convert_sensor_value_to_raw_cases
    (data : list byte) (self : SdrFullSensorRecord.fields) (value : float) :
  SdrFullSensorRecord.from_data data = Ok self ->
  let selector := Z.land (SdrFullSensorRecord.linearization self) 0x7f in
  let signed := (SdrFullSensorRecord.analog_data_format self =? 1)
                || (SdrFullSensorRecord.analog_data_format self =? 2) in
  (selector <> 0 ->
   SdrFullSensorRecord.convert_sensor_value_to_raw self value
   = Raise NotImplementedError)
  /\ (selector = 0 -> SdrFullSensorRecord.m self = 0 ->
      SdrFullSensorRecord.convert_sensor_value_to_raw self value
      = Raise ZeroDivisionError)
  /\ (selector = 0 -> SdrFullSensorRecord.m self <> 0 ->
      signed && (value <? 0)%float = true ->
      SdrFullSensorRecord.convert_sensor_value_to_raw self value
      = Raise NotImplementedError)
  /\ (selector = 0 -> SdrFullSensorRecord.m self <> 0 ->
      signed && (value <? 0)%float = false ->
      SdrFullSensorRecord.convert_sensor_value_to_raw self value
      = match py_int (py_round (value_to_raw_formula self value)) with
        | Ok raw => if raw >? 0xff then Raise ValueError else Ok raw
        | Raise e => Raise e
        end).
Proof.
  intros Hdec selector signed.
  pose proof (full_record_coefficient_ranges data self Hdec) as Hr.
  unfold SdrFullSensorRecord.convert_sensor_value_to_raw. cbv zeta.
  fold selector. unfold SdrFullSensorRecord.L_LINEAR,
    SdrFullSensorRecord.DATA_FMT_1S_COMPLEMENT,
    SdrFullSensorRecord.DATA_FMT_2S_COMPLEMENT.
  repeat split.
  - intros Hsel. apply Z.eqb_neq in Hsel. rewrite Hsel. reflexivity.
  - intros Hsel Hm0. rewrite Hsel. cbn [Z.eqb negb].
    apply (value_to_raw_zero_m self value _ Hr Hm0).
  - intros Hsel Hm0 Hneg. rewrite Hsel. cbn [Z.eqb negb].
    rewrite (value_to_raw_arithmetic self value _ Hr Hm0).
    apply andb_true_iff in Hneg as [Hsigned Hlt]. rewrite Hlt.
    subst signed. apply orb_true_iff in Hsigned as [-> | H2]; [reflexivity |].
    rewrite H2. destruct (_ =? 1); reflexivity.
  - intros Hsel Hm0 Hpos. rewrite Hsel. cbn [Z.eqb negb].
    rewrite (value_to_raw_arithmetic self value _ Hr Hm0).
    subst signed. apply andb_false_iff in Hpos as [Hunsigned | Hge].
    + apply orb_false_iff in Hunsigned as [-> ->]. reflexivity.
    + rewrite Hge.
      destruct (_ =? 1); [reflexivity |]. destruct (_ =? 2); reflexivity.
Qed.

End InverseConverter.

Lemma convert_sensor_value_to_raw_cases_witness :
  exists linear zero_m,
    SdrFullSensorRecord.from_data example_record = Ok linear
    /\ SdrFullSensorRecord.from_data zero_m_record = Ok zero_m
    /\ forall M : MathModule,
         SdrFullSensorRecord.convert_sensor_value_to_raw linear 50 = Ok 15
         /\ SdrFullSensorRecord.convert_sensor_value_to_raw linear 1000
            = Raise ValueError
         /\ SdrFullSensorRecord.convert_sensor_value_to_raw zero_m 50
            = Raise ZeroDivisionError.
Proof.
  do 2 eexists. split; [reflexivity |]. split; [reflexivity |].
  intros M.
  pose proof (convert_sensor_value_to_raw_cases example_record _ 50 eq_refl)
    as (_ & _ & _ & H50).
  pose proof (convert_sensor_value_to_raw_cases example_record _ 1000 eq_refl)
    as (_ & _ & _ & H1000).
  pose proof (convert_sensor_value_to_raw_cases zero_m_record _ 50 eq_refl)
    as (_ & Hzero & _).
  split; [| split].
  - rewrite H50; [vm_compute; reflexivity | reflexivity | discriminate | reflexivity].
  - rewrite H1000; [vm_compute; reflexivity | reflexivity | discriminate | reflexivity].
  - apply Hzero; reflexivity.
Defined.

(** C5, as stated, fails: for a record in 1s complement format with
    [m = 0] a negative value does not raise [NotImplementedError]; the
    division by [m] comes first and raises [ZeroDivisionError]. *)
Lemma negative_value_with_zero_m_divides_first :
  exists self,
    SdrFullSensorRecord.from_data zero_m_record = Ok self
    /\ SdrFullSensorRecord.analog_data_format self = 1
    /\ Z.land (SdrFullSensorRecord.linearization self) 0x7f = 0
    /\ SdrFullSensorRecord.m self = 0
    /\ (-1 <? 0)%float = true
    /\ forall M : MathModule,
         SdrFullSensorRecord.convert_sensor_value_to_raw self (-1)
         = Raise ZeroDivisionError.
Proof.
  eexists. split; [reflexivity |]. repeat (split; [reflexivity |]).
  intros M. vm_compute. reflexivity.
Qed.

(** C4 at the failing input: the record with [m = 2], [b = 10],
    [k1 = k2 = 0], linear and unsigned; the raw byte 20 converts to 50.0,
    and 50.0 converts back to 15: the inverse subtracts [b * 10^k1] after
    dividing by [m] instead of before. *)
Theorem value_to_raw_does_not_invert_raw_to_value (M : MathModule) :
  exists self,
    SdrFullSensorRecord.from_data example_record = Ok self
    /\ SdrFullSensorRecord.convert_sensor_raw_to_value self 20 = Ok 50%float
    /\ SdrFullSensorRecord.convert_sensor_value_to_raw self 50 = Ok 15.
Proof.
  eexists. split; [reflexivity |]. split; vm_compute; reflexivity.
Qed.


(** ** The record decoder *)

Lemma reported_unsupported_sdr_type (c : byte) :
  reported_sdr_type (unsupported_sdr_type (ord c)) = Some (ord c).
Proof. destruct c; vm_compute; reflexivity. Qed.

(** C3, as amended.  [create_sdr] reads the record type from the fourth
    byte and hands the record to the constructor of the full, compact,
    event-only, FRU device locator or management controller device locator
    class for type 0x01, 0x02, 0x03, 0x11 or 0x12.  For 0x13, 0x14 and any
    other type it raises [DecodingError], never another error; the message
    "Unsupported SDR type(0x..)" carries the record type, and the error is
    of the same kind as every other decoding failure. *)
Theorem create_sdr_dispatch (data : list byte) (c : byte) (next : option Z) :
  data !! 3%nat = Some c ->
  (ord c = 0x01 ->
   create_sdr data next =
   let! o := SdrFullSensorRecord.__init__ data next in Ok (FullSensorRecord o))
  /\ (ord c = 0x02 ->
      create_sdr data next =
      let! o := SdrCompactSensorRecord.__init__ data next in Ok (CompactSensorRecord o))
  /\ (ord c = 0x03 ->
      create_sdr data next =
      let! o := SdrEventOnlySensorRecord.__init__ data next in
      Ok (EventOnlySensorRecord o))
  /\ (ord c = 0x11 ->
      create_sdr data next =
      let! o := SdrFruDeviceLocator.__init__ data next in Ok (FruDeviceLocator o))
  /\ (ord c = 0x12 ->
      create_sdr data next =
      let! o := SdrManagementContollerDeviceLocator.__init__ data next in
      Ok (ManagementContollerDeviceLocator o))
  /\ (supported_sdr_type (ord c) = false ->
      exists e,
        create_sdr data next = Raise e
        /\ e = DecodingError ("Unsupported SDR type(0x" +:+ fmt_02x (ord c) +:+ ")")
        /\ reported_sdr_type e = Some (ord c)
        /\ error_kind e = Some KDecodingError).
Proof.
  intros Hc. unfold create_sdr. rewrite Hc.
  repeat split.
  - intros ->. reflexivity.
  - intros ->. reflexivity.
  - intros ->. reflexivity.
  - intros ->. reflexivity.
  - intros ->. reflexivity.
  - unfold supported_sdr_type. intros Hno.
    repeat (apply orb_false_elim in Hno as [Hno ?]).
    unfold SDR_TYPE_FULL_SENSOR_RECORD, SDR_TYPE_COMPACT_SENSOR_RECORD,
      SDR_TYPE_EVENT_ONLY_SENSOR_RECORD, SDR_TYPE_FRU_DEVICE_LOCATOR_RECORD,
      SDR_TYPE_MANAGEMENT_CONTROLLER_DEVICE_LOCATOR_RECORD.
    repeat match goal with H : (_ =? _) = false |- _ => rewrite H; clear H end.
    exists (unsupported_sdr_type (ord c)).
    split; [ destruct (ord c =? _); [| destruct (ord c =? _)]; reflexivity |].
    split; [reflexivity |].
    split; [apply reported_unsupported_sdr_type | reflexivity].
Qed.

Lemma create_sdr_dispatch_witness :
  create_sdr [x01; x00; x51; x14; x00] (Some 2) =
  Raise (DecodingError "Unsupported SDR type(0x14)")
  /\ create_sdr [x01; x00; x51; x03; x00] (Some 2) =
     (let! o := SdrEventOnlySensorRecord.__init__ [x01; x00; x51; x03; x00] (Some 2) in
      Ok (EventOnlySensorRecord o)).
Proof.
  pose proof (create_sdr_dispatch [x01; x00; x51; x14; x00] x14 (Some 2) eq_refl)
    as (_ & _ & _ & _ & _ & Hother).
  pose proof (create_sdr_dispatch [x01; x00; x51; x03; x00] x03 (Some 2) eq_refl)
    as (_ & _ & Hevent & _).
  split.
  - destruct (Hother eq_refl) as (e & Hraise & -> & _). exact Hraise.
  - apply Hevent. reflexivity.
Defined.

(** C3, as stated, fails: for record type 0x13 the decoder raises a
    [DecodingError], which is the specification's [DecodingError] kind,
    the one a too short record raises as well, and not a separate
    [UnsupportedRecordType]. *)
Lemma unsupported_type_is_a_decoding_error :
  create_sdr [x01; x00; x51; x13; x00] None =
  Raise (DecodingError "Unsupported SDR type(0x13)")
  /\ error_kind (DecodingError "Unsupported SDR type(0x13)") = Some KDecodingError
  /\ error_kind (DecodingError "Unsupported SDR type(0x13)")
     <> Some (KUnsupportedRecordType 0x13)
  /\ create_sdr [x01; x00; x51; x01] None =
     Raise (DecodingError "Invalid SDR length (4)").
Proof.
  split; [reflexivity |]. split; [reflexivity |].
  split; [discriminate | reflexivity].
Qed.

(** ** The successor pointer *)

Lemma SdrCommon_init_next_id (data : list byte) (next : option Z) (o : SdrCommon.t) :
  SdrCommon.__init__ data next = Ok o ->
  SdrCommon.next_id o = SdrCommon.set_next_id next.
Proof.
  unfold SdrCommon.__init__.
  destruct data as [|c data']; simpl.
  - intros Ho. inversion Ho; subst. reflexivity.
  - destruct (SdrCommon.from_response (c :: data')); simpl; intros Ho;
      inversion Ho; subst; reflexivity.
Qed.

(** The record [create_sdr] returns has the attribute [next_id] exactly
    when the successor passed in is truthy. *)
Lemma create_sdr_next_id (data : list byte) (next : option Z) (s : Sdr) :
  create_sdr data next = Ok s ->
  next_id s = SdrCommon.set_next_id next.
Proof.
  unfold create_sdr, next_id.
  destruct (data !! 3%nat) as [c|]; [| discriminate].
  repeat match goal with
         | |- (if ?b then _ else _) = _ -> _ => destruct b
         end; try discriminate.
  - unfold SdrFullSensorRecord.__init__.
    destruct (SdrCommon.__init__ data next) as [o|] eqn:Ho; [| discriminate]. simpl.
    destruct (init_body SdrFullSensorRecord.from_data data); [| discriminate]. simpl.
    intros Hs. inversion Hs; subst. simpl. eapply SdrCommon_init_next_id, Ho.
  - unfold SdrCompactSensorRecord.__init__.
    destruct (SdrCommon.__init__ data next) as [o|] eqn:Ho; [| discriminate]. simpl.
    destruct (init_body SdrCompactSensorRecord.from_data data); [| discriminate]. simpl.
    intros Hs. inversion Hs; subst. simpl. eapply SdrCommon_init_next_id, Ho.
  - unfold SdrEventOnlySensorRecord.__init__.
    destruct (SdrCommon.__init__ data next) as [o|] eqn:Ho; [| discriminate]. simpl.
    destruct (init_body SdrEventOnlySensorRecord.from_data data); [| discriminate]. simpl.
    intros Hs. inversion Hs; subst. simpl. eapply SdrCommon_init_next_id, Ho.
  - unfold SdrFruDeviceLocator.__init__.
    destruct (SdrCommon.__init__ data next) as [o|] eqn:Ho; [| discriminate]. simpl.
    destruct (init_body SdrFruDeviceLocator.from_data data); [| discriminate]. simpl.
    intros Hs. inversion Hs; subst. simpl. eapply SdrCommon_init_next_id, Ho.
  - unfold SdrManagementContollerDeviceLocator.__init__.
    destruct (SdrCommon.__init__ data next) as [o|] eqn:Ho; [| discriminate]. simpl.
    destruct (init_body SdrManagementContollerDeviceLocator.from_data data);
      [| discriminate]. simpl.
    intros Hs. inversion Hs; subst. simpl. eapply SdrCommon_init_next_id, Ho.
Qed.

(** A successor of 0 is not attached, whatever the record. *)
Lemma create_sdr_drops_zero_successor (data : list byte) (s : Sdr) :
  create_sdr data (Some 0) = Ok s -> next_id s = None.
Proof. intros Hs. apply create_sdr_next_id in Hs. exact Hs. Qed.

(** C9 at the failing input: the repository answers the header read of
    record 1 with successor 0; [get_sdr] returns the decoded record, and
    the record has no [next_id]. *)
Theorem get_sdr_drops_zero_successor :
  exists s w,
    @get_sdr scripted ipmi_constants 2 1 (Some 7)
      (script_world [sdr_rsp 0 (event_only_bytes x01); sdr_rsp 0 []])
    = (Ok (Some s), w)
    /\ requests w = [GetDeviceSdr 7 1 0 5; GetDeviceSdr 7 1 5 0]
    /\ next_id s = None.
Proof. do 2 eexists. split; [vm_compute; reflexivity |]. split; reflexivity. Qed.

(** ** The paginated reader *)

Section Reader.
Context `{Transport} `{Constants}.

(** The number of bytes a body read asks for. *)
Lemma request_length_min (max_req_len offset record_length : Z) :
  (if offset + max_req_len >? record_length
   then record_length - offset else max_req_len)
  = Z.min max_req_len (record_length - offset).
Proof. destruct (Z.gtb_spec (offset + max_req_len) record_length); lia. Qed.

Lemma send_answer (req : Request) (w : World) (rsp : Response) (d : Dev) :
  send_message req (dev w) = (rsp, d) ->
  send req w = (Ok rsp, {| dev := d; slept := slept w |}).
Proof. intros Hsend. unfold send. rewrite Hsend. reflexivity. Qed.

Lemma get_reservation_id_Ok (w : World) (rsp : Response) (d : Dev) :
  send_message ReserveDeviceSdrRepository (dev w) = (rsp, d) ->
  completion_code rsp = 0 ->
  get_reservation_id w = (Ok (reservation_id rsp), {| dev := d; slept := slept w |}).
Proof.
  intros Hsend Hcc. unfold get_reservation_id, bind.
  rewrite (send_answer _ _ _ _ Hsend). unfold lift, check_completion_code.
  rewrite Hcc. reflexivity.
Qed.

(** A header read answered with completion code 0 leaves the header loop. *)
Lemma header_step_success (rid : Z) (st : header_state) (w : World)
    (rsp : Response) (d : Dev) :
  h_retry st <> 0 ->
  send_message (GetDeviceSdr (h_reservation_id st) rid 0 5) (dev w) = (rsp, d) ->
  completion_code rsp = 0 ->
  header_step rid st w
  = (Ok (inr (rsp, h_reservation_id st)), {| dev := d; slept := slept w |}).
Proof.
  intros Hretry Hsend Hcc. unfold header_step.
  apply Z.eqb_neq in Hretry. rewrite Hretry. unfold bind.
  rewrite (send_answer _ _ _ _ Hsend), Hcc. reflexivity.
Qed.

(** A body read answered with completion code 0: the bytes are appended,
    and the loop ends once the record is complete. *)
Lemma body_step_success (rid record_length : Z) (st : body_state) (w : World)
    (rsp : Response) (d : Dev) :
  retry st <> 0 ->
  CC_CANT_RET_NUM_REQ_BYTES <> 0 ->
  CC_RES_CANCELED <> 0 ->
  send_message
    (GetDeviceSdr (req_reservation_id st) rid (req_offset st)
       (Z.min (max_req_len st) (record_length - req_offset st))) (dev w)
  = (rsp, d) ->
  completion_code rsp = 0 ->
  body_step rid record_length st w
  = (Ok (let record_data := acc_record_data st ++ record_data rsp in
         if Z.of_nat (List.length record_data) >=? record_length
         then inr record_data
         else inl {| retry := retry st;
                     max_req_len := max_req_len st;
                     req_reservation_id := req_reservation_id st;
                     req_offset := Z.of_nat (List.length record_data);
                     acc_record_data := record_data |}),
     {| dev := d; slept := slept w |}).
Proof.
  intros Hretry Hcant Hres Hsend Hcc. unfold body_step.
  apply Z.eqb_neq in Hretry. rewrite Hretry.
  rewrite request_length_min. unfold bind.
  rewrite (send_answer _ _ _ _ Hsend), Hcc.
  assert (Hc : (0 =? CC_CANT_RET_NUM_REQ_BYTES) = false) by (apply Z.eqb_neq; lia).
  assert (Hr : (0 =? CC_RES_CANCELED) = false) by (apply Z.eqb_neq; lia).
  rewrite Hc, Hr. simpl.
  destruct (Z.of_nat (List.length (acc_record_data st ++ record_data rsp))
            >=? record_length); reflexivity.
Qed.

(** A body read answered with "reservation canceled": a reservation is
    acquired again, the accumulated bytes are dropped, the offset goes
    back to 0 and one attempt is used up. *)
Lemma body_step_canceled (rid record_length : Z) (st : body_state) (w : World)
    (rsp rsp' : Response) (d d' : Dev) :
  retry st <> 0 ->
  CC_RES_CANCELED <> CC_CANT_RET_NUM_REQ_BYTES ->
  send_message
    (GetDeviceSdr (req_reservation_id st) rid (req_offset st)
       (Z.min (max_req_len st) (record_length - req_offset st))) (dev w)
  = (rsp, d) ->
  completion_code rsp = CC_RES_CANCELED ->
  send_message ReserveDeviceSdrRepository d = (rsp', d') ->
  completion_code rsp' = 0 ->
  body_step rid record_length st w
  = (Ok (inl {| retry := retry st - 1;
                max_req_len := max_req_len st;
                req_reservation_id := reservation_id rsp';
                req_offset := 0;
                acc_record_data := [] |}),
     {| dev := d'; slept := (tenth * float_of_Z (retry st))%float :: slept w |}).
Proof.
  intros Hretry Hne Hsend Hcc Hsend' Hcc'. unfold body_step.
  apply Z.eqb_neq in Hretry. rewrite Hretry.
  rewrite request_length_min. unfold bind at 1.
  rewrite (send_answer _ _ _ _ Hsend), Hcc.
  apply Z.eqb_neq in Hne. rewrite Hne, Z.eqb_refl.
  unfold bind.
  rewrite (get_reservation_id_Ok {| dev := d; slept := slept w |} rsp' d' Hsend' Hcc').
  reflexivity.
Qed.

Lemma pop_header_length (record : list byte) (c : byte) :
  record !! 4%nat = Some c ->
  fst (pop_header (take 5 record)) = Ok (ord c + 5).
Proof.
  destruct record as [|c0 [|c1 [|c2 [|c3 [|c4 rest]]]]]; try discriminate.
  intros Hc. inversion Hc; subst.
  cbv [pop_header bind pop_unsigned_int ret fst].
  simpl. f_equal. lia.
Qed.

(** A body read answered "cannot return number of requested bytes": the
    page size shrinks by 4, and the attempts are forfeited once it
    reaches 0. *)
Lemma body_step_too_long (rid record_length : Z) (st : body_state) (w : World)
    (rsp : Response) (d : Dev) :
  retry st <> 0 ->
  send_message
    (GetDeviceSdr (req_reservation_id st) rid (req_offset st)
       (Z.min (max_req_len st) (record_length - req_offset st))) (dev w)
  = (rsp, d) ->
  completion_code rsp = CC_CANT_RET_NUM_REQ_BYTES ->
  body_step rid record_length st w
  = (Ok (inl {| retry := if max_req_len st - 4 <=? 0 then 0 else retry st;
                max_req_len := max_req_len st - 4;
                req_reservation_id := req_reservation_id st;
                req_offset := req_offset st;
                acc_record_data := acc_record_data st |}),
     {| dev := d; slept := slept w |}).
Proof.
  intros Hretry Hsend Hcc. unfold body_step.
  apply Z.eqb_neq in Hretry. rewrite Hretry.
  rewrite request_length_min. unfold bind.
  rewrite (send_answer _ _ _ _ Hsend), Hcc, Z.eqb_refl. reflexivity.
Qed.

(** The header loop ends at the first read answered with completion
    code 0. *)
Lemma header_loop_success (fuel : nat) (rid rsv : Z) (w : World)
    (rsp : Response) (d : Dev) :
  send_message (GetDeviceSdr rsv rid 0 5) (dev w) = (rsp, d) ->
  completion_code rsp = 0 ->
  while_true (Datatypes.S fuel) (header_step rid)
    {| h_retry := 5; h_reservation_id := rsv |} w
  = (Ok (Some (rsp, rsv)), {| dev := d; slept := slept w |}).
Proof.
  intros Hsend Hcc. cbn [while_true]. unfold bind.
  rewrite (header_step_success rid _ w rsp d)
    by (simpl; first [discriminate | assumption]).
  reflexivity.
Qed.

End Reader.

(** *** Reading from a faithful repository *)

Section Paging.
Variables (rid next : Z) (rec : list byte).

Let N : nat := List.length rec.
Let L : Z := Z.of_nat N.

Lemma holds_after (req : Request) (d : Repository) :
  holds rid next rec d -> holds rid next rec (snd (repository_send req d)).
Proof.
  intros [Hrec Hlimit]. unfold holds.
  destruct req; simpl; [auto | | auto].
  destruct (plan d); simpl; auto.
Qed.


(** One iteration of the body loop against the repository when the read
    is served. *)
Lemma served_body_step (st : body_state) (n : nat) (d : Repository) (s : list float) :
  holds rid next rec d ->
  assembling rec st n ->
  retry st <> 0 ->
  (plan d = [] \/ exists p, plan d = 0 :: p) ->
  let len := Z.min (max_req_len st) (L - Z.of_nat n) in
  let d' := snd (repository_send
                   (GetDeviceSdr (req_reservation_id st) rid (Z.of_nat n) len) d) in
  @body_step repository ipmi_constants rid L st (repository_world d s)
  = (Ok (if len >? page_limit d
         then inl {| retry := retry st;
                     max_req_len := max_req_len st - 4;
                     req_reservation_id := req_reservation_id st;
                     req_offset := Z.of_nat n;
                     acc_record_data := take n rec |}
         else if (N <=? n + Z.to_nat (max_req_len st))%nat
              then inr rec
              else inl {| retry := retry st;
                          max_req_len := max_req_len st;
                          req_reservation_id := req_reservation_id st;
                          req_offset := Z.of_nat (n + Z.to_nat (max_req_len st));
                          acc_record_data := take (n + Z.to_nat (max_req_len st)) rec |}),
     repository_world d' s).
Proof.
  intros [Hrec Hlimit] (Hacc & Hoff & Hn & Hmax & Hmod) Hretry Hplan len d'.
  assert (Hserve :
    @send_message repository
      (GetDeviceSdr (req_reservation_id st) rid (req_offset st)
         (Z.min (max_req_len st) (L - req_offset st)))
      (dev (repository_world d s))
    = (serve d rid (Z.of_nat n) len, d')).
  { rewrite Hoff. subst d' len. simpl.
    destruct Hplan as [-> | [p ->]]; reflexivity. }
  unfold serve in Hserve.
  destruct (Z.gtb_spec len (page_limit d)) as [Hlong | Hfits].
  - rewrite (@body_step_too_long repository ipmi_constants rid L st _ _ _ Hretry Hserve)
      by reflexivity.
    assert (Hbig : (max_req_len st - 4 <=? 0) = false).
    { apply Z.leb_gt. subst len. 
      assert (max_req_len st <> 4) by lia.
      pose proof (Z.div_mod (max_req_len st) 4 ltac:(lia)). lia. }
    rewrite Hbig, Hacc, Hoff. reflexivity.
  - rewrite Hrec in Hserve.
    rewrite (@body_step_success repository ipmi_constants rid L st _ _ _ Hretry
               ltac:(discriminate) ltac:(discriminate) Hserve)
      by reflexivity.
    cbn [record_data sdr_rsp]. rewrite Hacc, Nat2Z.id, take_take_drop.
    assert (Hlen : Z.to_nat len = Nat.min (Z.to_nat (max_req_len st)) (N - n)).
    { subst len L. lia. }
    rewrite Hlen, length_take. fold N.
    destruct (Nat.leb_spec N (n + Z.to_nat (max_req_len st))) as [Hlast | Hmore].
    + replace (n + Nat.min (Z.to_nat (max_req_len st)) (N - n))%nat with N by lia.
      rewrite Nat.min_id.
      destruct (Z.geb_spec (Z.of_nat N) L) as [_ | Hlt]; [| subst L; lia].
      rewrite take_ge by (fold N; lia). reflexivity.
    + replace (Nat.min (Z.to_nat (max_req_len st)) (N - n))
        with (Z.to_nat (max_req_len st)) by lia.
      rewrite Nat.min_l by lia.
      destruct (Z.geb_spec (Z.of_nat (n + Z.to_nat (max_req_len st))) L)
        as [Hge | _]; [subst L; lia |].
      reflexivity.
Qed.

(** One iteration of the body loop against the repository when the plan
    cancels the reservation. *)
Lemma canceled_body_step (st : body_state) (n : nat) (d : Repository)
    (s : list float) (p : list Z) :
  assembling rec st n ->
  retry st <> 0 ->
  plan d = 0xc5 :: p ->
  let len := Z.min (max_req_len st) (L - Z.of_nat n) in
  let d' := snd (repository_send ReserveDeviceSdrRepository
                   (snd (repository_send
                           (GetDeviceSdr (req_reservation_id st) rid (Z.of_nat n) len)
                           d))) in
  @body_step repository ipmi_constants rid L st (repository_world d s)
  = (Ok (inl {| retry := retry st - 1;
                max_req_len := max_req_len st;
                req_reservation_id := issued d + 1;
                req_offset := 0;
                acc_record_data := [] |}),
     repository_world d' ((tenth * float_of_Z (retry st))%float :: s)).
Proof.
  intros (Hacc & Hoff & Hn & Hmax & Hmod) Hretry Hplan len d'.
  rewrite (@body_step_canceled repository ipmi_constants rid L st
             (repository_world d s) (response 0xc5) (reserved_rsp (issued d + 1))
             (snd (repository_send
                     (GetDeviceSdr (req_reservation_id st) rid (Z.of_nat n) len) d))
             d' Hretry ltac:(discriminate)).
  - reflexivity.
  - rewrite Hoff. subst len. simpl. rewrite Hplan. reflexivity.
  - reflexivity.
  - subst d'. simpl. rewrite Hplan. reflexivity.
  - reflexivity.
Qed.



End Paging.




(** Five header reads answered "response could not be provided" use up
    the five attempts: [get_sdr] raises [RetryError], having slept 0.5,
    0.4, 0.3, 0.2 and 0.1 seconds (most recent first below). *)
Lemma header_attempts_run_out :
  @get_sdr scripted ipmi_constants 6 10 (Some 7)
    (script_world (replicate 5 (response 0xce)))
  = (Raise RetryError,
     {| dev := ([], replicate 5 (GetDeviceSdr 7 10 0 5)) : @Dev scripted;
        slept := [ (tenth * 1)%float; (tenth * 2)%float; (tenth * 3)%float;
                   (tenth * 4)%float; (tenth * 5)%float ] |}).
Proof. vm_compute. reflexivity. Qed.


(** ** The repository enumerator *)

Section Enumerator.
Context `{Transport}.



End Enumerator.


(** ** Sensor readings *)

Section SensorReading.
Context `{Transport}.

(** What [get_sensor_reading] returns on a response with completion code
    0, by the presence of the two state masks. *)
Lemma get_sensor_reading_Ok (n : Z) (w : World) (rsp : Response) (d : Dev) :
  send_message (GetSensorReading n) (dev w) = (rsp, d) ->
  completion_code rsp = 0 ->
  get_sensor_reading n w =
  (let reading := if update_in_progress rsp then None else Some (sensor_reading rsp) in
   match states1 rsp, states2 rsp with
   | Some s1, Some s2 => Ok (reading, Some (Z.lor s1 (Z.shiftl s2 8)))
   | Some s1, None => Ok (reading, Some s1)
   | None, None => Ok (reading, None)
   | None, Some _ => Raise TypeError
   end, {| dev := d; slept := slept w |}).
Proof.
  intros Hsend Hcc.
  unfold get_sensor_reading, bind, send, lift, check_completion_code.
  rewrite Hsend, Hcc. simpl.
  destruct (states1 rsp), (states2 rsp); reflexivity.
Qed.

End SensorReading.

Lemma get_sensor_reading_Ok_witness :
  fst (@get_sensor_reading scripted 7
         (script_world [reading_rsp 0x40 false (Some 0x03) (Some 0x01)]))
  = Ok (Some 0x40, Some 0x0103)
  /\ fst (@get_sensor_reading scripted 7
            (script_world [reading_rsp 0x40 true (Some 0x03) None]))
     = Ok (None, Some 0x03)
  /\ fst (@get_sensor_reading scripted 7
            (script_world [reading_rsp 0x40 false None None]))
     = Ok (Some 0x40, None).
Proof.
  split; [| split].
  - rewrite (@get_sensor_reading_Ok scripted 7
               (script_world [reading_rsp 0x40 false (Some 0x03) (Some 0x01)])
               (reading_rsp 0x40 false (Some 0x03) (Some 0x01)) ([], [GetSensorReading 7])
               eq_refl eq_refl).
    reflexivity.
  - rewrite (@get_sensor_reading_Ok scripted 7
               (script_world [reading_rsp 0x40 true (Some 0x03) None])
               (reading_rsp 0x40 true (Some 0x03) None) ([], [GetSensorReading 7])
               eq_refl eq_refl).
    reflexivity.
  - rewrite (@get_sensor_reading_Ok scripted 7
               (script_world [reading_rsp 0x40 false None None])
               (reading_rsp 0x40 false None None) ([], [GetSensorReading 7])
               eq_refl eq_refl).
    reflexivity.
Defined.

(** C7 at the failing input: a response that carries only the second state
    mask makes [get_sensor_reading] raise [TypeError], where C7 has
    it return that mask. *)
Theorem get_sensor_reading_second_mask_alone :
  fst (@get_sensor_reading scripted 7
         (script_world [reading_rsp 0x40 false None (Some 0x01)]))
  = Raise TypeError.
Proof. reflexivity. Qed.

(** *** Reservation loss *)

(** One unfolding of a loop. *)
Lemma while_true_S {S St A : Type} (fuel : nat) (body : St -> M S (St + A))
    (st : St) (s : S) :
  while_true (Datatypes.S fuel) body st s
  = match body st s with
    | (Ok (inl st'), s') => while_true fuel body st' s'
    | (Ok (inr a), s') => (Ok (Some a), s')
    | (Raise e, s') => (Raise e, s')
    end.
Proof.
  cbn [while_true]. unfold bind.
  destruct (body st s) as [[[st' | a] | e] s']; reflexivity.
Qed.

(** The state in which a read leaves the repository. *)
Lemma read_leaves (rsv rid offset length : Z) (d : Repository) :
  snd (repository_send (GetDeviceSdr rsv rid offset length) d)
  = {| records := records d; page_limit := page_limit d; plan := tail (plan d);
       issued := issued d;
       received := received d ++ [GetDeviceSdr rsv rid offset length] |}.
Proof. simpl. destruct (plan d); reflexivity. Qed.

Lemma page_count_last (n size : Z) :
  0 < n <= size -> page_count n size = 1%nat.
Proof.
  intros Hn. unfold page_count.
  assert (Hq : (n + size - 1) / size = 1)
    by (symmetry; apply Z.div_unique_pos with (r := n - 1); lia).
  rewrite Hq. reflexivity.
Qed.

Lemma page_count_more (n size : Z) :
  0 < size < n -> page_count n size = Datatypes.S (page_count (n - size) size).
Proof.
  intros Hn. unfold page_count.
  replace (n + size - 1) with (n - size + size - 1 + 1 * size) by lia.
  rewrite Z.div_add by lia.
  assert (0 <= (n - size + size - 1) / size) by (apply Z.div_pos; lia).
  lia.
Qed.

(** Against a repository with no fault planned that accepts the page size
    of the body loop, the loop reads the rest of the record page by page:
    it returns the record and has sent exactly the reads of the pages that
    follow the bytes it had. *)
Lemma body_loop_reads_pages (rid next : Z) (rec : list byte) (fuel : nat) :
  forall (st : body_state) (n : nat) (d : Repository) (s : list float),
    holds rid next rec d ->
    plan d = [] ->
    assembling rec st n ->
    max_req_len st <= page_limit d ->
    retry st <> 0 ->
    (n < List.length rec)%nat ->
    (page_count (Z.of_nat (List.length rec) - Z.of_nat n) (max_req_len st) <= fuel)%nat ->
    @while_true _ _ _ fuel
      (@body_step repository ipmi_constants rid (Z.of_nat (List.length rec))) st
      (repository_world d s)
    = (Ok (Some rec),
       repository_world
         {| records := records d; page_limit := page_limit d; plan := [];
            issued := issued d;
            received :=
              received d
              ++ pages (page_count (Z.of_nat (List.length rec) - Z.of_nat n)
                          (max_req_len st))
                   (req_reservation_id st) rid (Z.of_nat (List.length rec))
                   (max_req_len st) (Z.of_nat n) |}
         s).
Proof.
  induction fuel as [| fuel IH]; intros st n d s Hd Hplan Hst Hfits Hretry Hn Hfuel.
  - destruct Hst as (_ & _ & _ & Hmax & _).
    destruct (Z_le_gt_dec (Z.of_nat (List.length rec) - Z.of_nat n) (max_req_len st)).
    + rewrite page_count_last in Hfuel by lia. lia.
    + rewrite page_count_more in Hfuel by lia. lia.
  - rewrite while_true_S.
    rewrite (served_body_step rid next rec st n d s Hd Hst Hretry (or_introl Hplan)).
    rewrite read_leaves, Hplan. cbn [tail].
    pose proof Hst as (Hacc & Hoff & _ & Hmax & Hmod).
    destruct (Z.gtb_spec (Z.min (max_req_len st) (Z.of_nat (List.length rec) - Z.of_nat n))
                (page_limit d)) as [Hlong | _]; [lia |].
    destruct (Nat.leb_spec (List.length rec) (n + Z.to_nat (max_req_len st)))
      as [Hlast | Hmore].
    + rewrite page_count_last by lia. reflexivity.
    + rewrite page_count_more in Hfuel |- * by lia.
      cbn [pages].
      match goal with
      | |- context [while_true fuel _ ?st' (repository_world ?d1 s)] =>
          rewrite (IH st' (n + Z.to_nat (max_req_len st))%nat d1 s)
      end.
      * cbn [records page_limit issued received req_reservation_id max_req_len].
        rewrite <- app_assoc. cbn [app].
        replace (Z.of_nat (n + Z.to_nat (max_req_len st)))
          with (Z.of_nat n + max_req_len st) by lia.
        replace (Z.of_nat (List.length rec) - (Z.of_nat n + max_req_len st))
          with (Z.of_nat (List.length rec) - Z.of_nat n - max_req_len st) by lia.
        reflexivity.
      * destruct Hd as [Hrec Hlimit]. split; assumption.
      * reflexivity.
      * repeat split; cbn [acc_record_data req_offset max_req_len]; lia.
      * exact Hfits.
      * exact Hretry.
      * lia.
      * cbn [max_req_len].
        replace (Z.of_nat (List.length rec) - Z.of_nat (n + Z.to_nat (max_req_len st)))
          with (Z.of_nat (List.length rec) - Z.of_nat n - max_req_len st) by lia.
        lia.
Qed.

(** What [get_sdr] makes of the outcome of its body loop. *)
Lemma get_sdr_after_header (d d1 : Repository) (s : list float) (rid rsv next : Z)
    (rec : list byte) (c : byte) (fuel : nat) (w : @World repository) :
  repository_send (GetDeviceSdr rsv rid 0 5) d = (sdr_rsp next (take 5 rec), d1) ->
  rec !! 4%nat = Some c ->
  Z.of_nat (List.length rec) = ord c + 5 ->
  @while_true _ _ _ (Datatypes.S fuel)
    (@body_step repository ipmi_constants rid (Z.of_nat (List.length rec)))
    (body_start rsv (take 5 rec)) (repository_world d1 s)
  = (Ok (Some rec), w) ->
  @get_sdr repository ipmi_constants (Datatypes.S fuel) rid (Some rsv)
    (repository_world d s)
  = (decoded rec next, w).
Proof.
  intros Hheader Hc HL Hbody.
  unfold get_sdr. unfold bind at 1. unfold ret at 1. unfold bind at 1.
  rewrite (@header_loop_success repository ipmi_constants fuel rid rsv
             (repository_world d s) (sdr_rsp next (take 5 rec)) d1 Hheader eq_refl).
  cbn [next_record_id record_data sdr_rsp].
  unfold bind at 1. unfold lift at 1.
  rewrite (pop_header_length rec c Hc), <- HL.
  unfold bind at 1.
  change (@Build_World repository d1 (slept (repository_world d s)))
    with (repository_world d1 s).
  rewrite Hbody.
  unfold ret, bind, lift, decoded.
  destruct (create_sdr rec (Some next)); reflexivity.
Qed.

(** The transfer that loses its reservation at the second body read. *)
Lemma get_sdr_interrupted (d : Repository) (s : list float) (rid rsv next : Z)
    (rec : list byte) (c : byte) (fuel : nat) :
  records d !! rid = Some (rec, next) ->
  20 <= page_limit d ->
  rec !! 4%nat = Some c ->
  Z.of_nat (List.length rec) = ord c + 5 ->
  (25 < List.length rec)%nat ->
  plan d = [0; 0; 0xc5] ->
  (2 + page_count (Z.of_nat (List.length rec)) 20 <= fuel)%nat ->
  @get_sdr repository ipmi_constants fuel rid (Some rsv) (repository_world d s)
  = (decoded rec next,
     repository_world
       {| records := records d; page_limit := page_limit d; plan := [];
          issued := issued d + 1;
          received :=
            received d
            ++ [ GetDeviceSdr rsv rid 0 5;
                 GetDeviceSdr rsv rid 5 20;
                 GetDeviceSdr rsv rid 25 (Z.min 20 (Z.of_nat (List.length rec) - 25));
                 ReserveDeviceSdrRepository ]
            ++ pages (page_count (Z.of_nat (List.length rec)) 20)
                 (issued d + 1) rid (Z.of_nat (List.length rec)) 20 0 |}
       ((tenth * float_of_Z 20)%float :: s)).
Proof.
  intros Hrec Hlimit Hc HL Hlen Hplan Hfuel.
  destruct d as [recs limit pl iss recv].
  cbn [records page_limit plan issued received] in *. subst pl.
  pose proof (page_count_more (Z.of_nat (List.length rec)) 20 ltac:(lia)) as Hcount.
  destruct fuel as [| [| [| fuel]]]; try lia.
  set (d1 := {| records := recs; page_limit := limit; plan := [0; 0xc5];
                issued := iss; received := recv ++ [GetDeviceSdr rsv rid 0 5] |}).
  apply (get_sdr_after_header _ d1 s rid rsv next rec c); try assumption.
  { simpl. unfold serve. cbn [page_limit records].
    destruct (Z.gtb_spec 5 limit); [lia |]. rewrite Hrec. reflexivity. }
  (* the first body read: 20 bytes *)
  rewrite while_true_S.
  assert (Hst1 : assembling rec (body_start rsv (take 5 rec)) 5).
  { unfold assembling, body_start. cbn [acc_record_data req_offset max_req_len].
    rewrite length_take. repeat split; lia. }
  rewrite (served_body_step rid next rec (body_start rsv (take 5 rec)) 5 d1 s
             ltac:(split; [exact Hrec | cbn [page_limit d1]; lia]) Hst1
             ltac:(discriminate) (or_intror (ex_intro _ [0xc5] eq_refl))).
  rewrite read_leaves. cbn [body_start max_req_len req_reservation_id retry
                            records page_limit plan issued received d1 tail].
  destruct (Z.gtb_spec (Z.min 20 (Z.of_nat (List.length rec) - Z.of_nat 5)) limit) as [Hlong | _];
    [lia |].
  destruct (Nat.leb_spec (List.length rec) (5 + Z.to_nat 20)) as [Hlast | _];
    [lia |].
  (* the second body read: the reservation is lost *)
  rewrite while_true_S.
  match goal with
  | |- context [@body_step repository ipmi_constants rid _ ?st (repository_world ?d2 s)] =>
      rewrite (canceled_body_step rid rec st (5 + Z.to_nat 20) d2 s [])
  end.
  2: { repeat split; cbn [acc_record_data req_offset max_req_len]; lia. }
  2: { discriminate. }
  2: { reflexivity. }
  cbn [max_req_len req_reservation_id retry issued].
  rewrite read_leaves.
  cbn [repository_send snd records page_limit plan issued received tail].
  (* the transfer starts over *)
  match goal with
  | |- context [while_true _ _ ?st (repository_world ?d4 ?s4)] =>
      rewrite (body_loop_reads_pages rid next rec _ st 0 d4 s4)
  end.
  - cbn [records page_limit issued received req_reservation_id max_req_len].
    rewrite Z.sub_0_r.
    replace (Z.of_nat (5 + Z.to_nat 20)) with 25 by lia.
    replace (Z.min 20 (Z.of_nat (List.length rec) - Z.of_nat 5)) with 20 by lia.
    rewrite <- !app_assoc. reflexivity.
  - split; [exact Hrec | cbn [page_limit]; lia].
  - reflexivity.
  - repeat split; cbn [acc_record_data req_offset max_req_len]; lia.
  - cbn [max_req_len page_limit]. lia.
  - cbn [retry]. lia.
  - lia.
  - cbn [max_req_len]. rewrite Z.sub_0_r. lia.
Qed.

(** The transfer against the same repository with no fault planned. *)
Lemma get_sdr_uninterrupted (d : Repository) (s : list float) (rid rsv next : Z)
    (rec : list byte) (c : byte) (fuel : nat) :
  records d !! rid = Some (rec, next) ->
  20 <= page_limit d ->
  rec !! 4%nat = Some c ->
  Z.of_nat (List.length rec) = ord c + 5 ->
  (5 < List.length rec)%nat ->
  (2 + page_count (Z.of_nat (List.length rec)) 20 <= fuel)%nat ->
  @get_sdr repository ipmi_constants fuel rid (Some rsv)
    (repository_world (unplanned d) s)
  = (decoded rec next,
     repository_world
       {| records := records d; page_limit := page_limit d; plan := [];
          issued := issued d;
          received :=
            received d
            ++ GetDeviceSdr rsv rid 0 5
               :: pages (page_count (Z.of_nat (List.length rec) - 5) 20)
                    rsv rid (Z.of_nat (List.length rec)) 20 5 |}
       s).
Proof.
  intros Hrec Hlimit Hc HL Hlen Hfuel.
  destruct d as [recs limit pl iss recv]. unfold unplanned.
  cbn [records page_limit plan issued received] in *.
  destruct fuel as [| fuel]; [lia |].
  set (d1 := {| records := recs; page_limit := limit; plan := [];
                issued := iss; received := recv ++ [GetDeviceSdr rsv rid 0 5] |}).
  apply (get_sdr_after_header _ d1 s rid rsv next rec c); try assumption.
  { simpl. unfold serve. cbn [page_limit records].
    destruct (Z.gtb_spec 5 limit); [lia |]. rewrite Hrec. reflexivity. }
  assert (Hcount : (page_count (Z.of_nat (List.length rec) - 5) 20
                    <= page_count (Z.of_nat (List.length rec)) 20)%nat).
  { unfold page_count. apply Z2Nat.inj_le.
    - apply Z.div_pos; lia.
    - apply Z.div_pos; lia.
    - apply Z.div_le_mono; lia. }
  rewrite (body_loop_reads_pages rid next rec _ (body_start rsv (take 5 rec)) 5 d1 s).
  - cbn [records page_limit issued received req_reservation_id max_req_len
         body_start d1].
    rewrite <- app_assoc. reflexivity.
  - split; [exact Hrec | cbn [page_limit d1]; lia].
  - reflexivity.
  - unfold assembling, body_start. cbn [acc_record_data req_offset max_req_len].
    rewrite length_take. repeat split; lia.
  - cbn [max_req_len body_start page_limit d1]. lia.
  - discriminate.
  - lia.
  - cbn [max_req_len body_start]. change (Z.of_nat 5) with 5. lia.
Qed.

(** C2, as amended.  The rule: in every state of the body loop with attempts
    left, whatever the attempts, the page size, the offset and the bytes
    accumulated, a read answered "reservation canceled" makes [get_sdr]
    acquire a reservation again, sleep a tenth of a second for each
    attempt left, drop every byte accumulated, go back to offset 0 under
    the new reservation and use up one attempt; the page size stays.  The
    consequence: against a repository that serves the reads it is sent,
    when the body reads are answered success(partial) and "reservation
    canceled", the reader asks for the record again from offset 0 in pages
    of twenty bytes under the new reservation, and the record it returns
    is the one the uninterrupted transfer of the same record returns. *)
Theorem get_sdr_recovers_from_reservation_loss :
  (forall (T : Transport) (K : Constants) (rid record_length : Z) (st : body_state)
          (w : @World T) (rsp rsp' : Response) (d d' : @Dev T),
      retry st <> 0 ->
      @CC_RES_CANCELED K <> @CC_CANT_RET_NUM_REQ_BYTES K ->
      @send_message T
        (GetDeviceSdr (req_reservation_id st) rid (req_offset st)
           (Z.min (max_req_len st) (record_length - req_offset st))) (dev w)
      = (rsp, d) ->
      completion_code rsp = @CC_RES_CANCELED K ->
      @send_message T ReserveDeviceSdrRepository d = (rsp', d') ->
      completion_code rsp' = 0 ->
      @body_step T K rid record_length st w
      = (Ok (inl {| retry := retry st - 1;
                    max_req_len := max_req_len st;
                    req_reservation_id := reservation_id rsp';
                    req_offset := 0;
                    acc_record_data := [] |}),
         {| dev := d'; slept := (tenth * float_of_Z (retry st))%float :: slept w |}))
  /\ (forall (d : Repository) (s : list float) (rid rsv next : Z) (rec : list byte)
             (c : byte) (fuel : nat),
         records d !! rid = Some (rec, next) ->
         20 <= page_limit d ->
         rec !! 4%nat = Some c ->
         Z.of_nat (List.length rec) = ord c + 5 ->
         (25 < List.length rec)%nat ->
         plan d = [0; 0; 0xc5] ->
         (2 + page_count (Z.of_nat (List.length rec)) 20 <= fuel)%nat ->
         let L := Z.of_nat (List.length rec) in
         @get_sdr repository ipmi_constants fuel rid (Some rsv) (repository_world d s)
         = (decoded rec next,
            repository_world
              {| records := records d; page_limit := page_limit d; plan := [];
                 issued := issued d + 1;
                 received :=
                   received d
                   ++ [ GetDeviceSdr rsv rid 0 5;
                        GetDeviceSdr rsv rid 5 20;
                        GetDeviceSdr rsv rid 25 (Z.min 20 (L - 25));
                        ReserveDeviceSdrRepository ]
                   ++ pages (page_count L 20) (issued d + 1) rid L 20 0 |}
              ((tenth * float_of_Z 20)%float :: s))
         /\ @get_sdr repository ipmi_constants fuel rid (Some rsv)
              (repository_world (unplanned d) s)
            = (decoded rec next,
               repository_world
                 {| records := records d; page_limit := page_limit d; plan := [];
                    issued := issued d;
                    received :=
                      received d
                      ++ GetDeviceSdr rsv rid 0 5
                         :: pages (page_count (L - 5) 20) rsv rid L 20 5 |}
                 s)).
Proof.
  split.
  - intros T K rid record_length st w rsp rsp' d d' Hretry Hne Hsend Hcc Hsend' Hcc'.
    exact (@body_step_canceled T K rid record_length st w rsp rsp' d d'
             Hretry Hne Hsend Hcc Hsend' Hcc').
  - intros d s rid rsv next rec c fuel Hrec Hlimit Hc HL Hlen Hplan Hfuel L.
    split.
    + exact (get_sdr_interrupted d s rid rsv next rec c fuel
               Hrec Hlimit Hc HL Hlen Hplan Hfuel).
    + apply (get_sdr_uninterrupted d s rid rsv next rec c fuel); try assumption. lia.
Qed.

Lemma get_sdr_recovers_from_reservation_loss_witness :
  @body_step scripted ipmi_constants 10 52
    {| retry := 3; max_req_len := 12; req_reservation_id := 7; req_offset := 17;
       acc_record_data := take 17 example_record |}
    (script_world [response 0xc5; reserved_rsp 8])
  = (Ok (inl {| retry := 2; max_req_len := 12; req_reservation_id := 8;
                req_offset := 0; acc_record_data := [] |}),
     {| dev := ([], [GetDeviceSdr 7 10 17 12; ReserveDeviceSdrRepository])
               : @Dev scripted;
        slept := [(tenth * 3)%float] |})
  /\ @get_sdr repository ipmi_constants 5 10 (Some 7)
       (repository_world interrupted_repository [])
     = (decoded example_record 9,
        repository_world
          {| records := {[ 10 := (example_record, 9) ]}; page_limit := 20;
             plan := []; issued := 1;
             received :=
               [ GetDeviceSdr 7 10 0 5; GetDeviceSdr 7 10 5 20;
                 GetDeviceSdr 7 10 25 20; ReserveDeviceSdrRepository;
                 GetDeviceSdr 1 10 0 20; GetDeviceSdr 1 10 20 20;
                 GetDeviceSdr 1 10 40 12 ] |}
          [(tenth * 20)%float])
  /\ @get_sdr repository ipmi_constants 5 10 (Some 7)
       (repository_world (unplanned interrupted_repository) [])
     = (decoded example_record 9,
        repository_world
          {| records := {[ 10 := (example_record, 9) ]}; page_limit := 20;
             plan := []; issued := 0;
             received :=
               [ GetDeviceSdr 7 10 0 5; GetDeviceSdr 7 10 5 20;
                 GetDeviceSdr 7 10 25 20; GetDeviceSdr 7 10 45 7 ] |}
          []).
Proof.
  destruct get_sdr_recovers_from_reservation_loss as [Hrule Hrecovers].
  split.
  - rewrite (Hrule scripted ipmi_constants 10 52
               {| retry := 3; max_req_len := 12; req_reservation_id := 7;
                  req_offset := 17; acc_record_data := take 17 example_record |}
               (script_world [response 0xc5; reserved_rsp 8])
               (response 0xc5) (reserved_rsp 8)
               ([reserved_rsp 8], [GetDeviceSdr 7 10 17 12])
               ([], [GetDeviceSdr 7 10 17 12; ReserveDeviceSdrRepository])).
    + vm_compute. reflexivity.
    + discriminate.
    + discriminate.
    + reflexivity.
    + reflexivity.
    + reflexivity.
    + reflexivity.
  - destruct (Hrecovers interrupted_repository [] 10 7 9 example_record x2f 5%nat)
      as [Hinterrupted Huninterrupted].
    + reflexivity.
    + simpl. lia.
    + reflexivity.
    + reflexivity.
    + simpl. lia.
    + reflexivity.
    + vm_compute. lia.
    + rewrite Hinterrupted, Huninterrupted.
      split; vm_compute; reflexivity.
Defined.

(** C2, as stated, fails.  Taken by the letter, the third answer of the
    call sequence success(partial), reservation canceled, success(rest)
    carries the bytes that follow the partial ones.  The reader has
    dropped what it had and asks again from offset 0, so it takes these 27
    bytes for the start of the record and asks for more from offset 27:
    the sequence does not complete the record, and with no further answer
    [get_sdr] fails, where the same answers without the cancellation give
    the decoded record. *)
Lemma literal_rest_does_not_complete_the_record :
  @get_sdr scripted ipmi_constants 5 10 (Some 7) (script_world literal_rest_script)
  = (Raise (CompletionCodeError 0xff),
     {| dev := ([], [ GetDeviceSdr 7 10 0 5; GetDeviceSdr 7 10 5 20;
                      GetDeviceSdr 7 10 25 20; ReserveDeviceSdrRepository;
                      GetDeviceSdr 8 10 0 20; GetDeviceSdr 8 10 27 20 ])
               : @Dev scripted;
        slept := [(tenth * 20)%float] |})
  /\ @get_sdr scripted ipmi_constants 5 10 (Some 7) (script_world uninterrupted_script)
     = (decoded example_record 9,
        {| dev := ([], [ GetDeviceSdr 7 10 0 5; GetDeviceSdr 7 10 5 20;
                         GetDeviceSdr 7 10 25 20 ])
                  : @Dev scripted;
           slept := [] |})
  /\ (exists s, decoded example_record 9 = Ok (Some s)).
Proof.
  split; [vm_compute; reflexivity |].
  split; [vm_compute; reflexivity |].
  eexists. vm_compute. reflexivity.
Qed.

(** * Further properties *)

(** ** The byte cursor at known places *)

Lemma pop_unsigned_int_Ok (n : nat) (buffer : ByteBuffer) :
  (n <= List.length buffer)%nat ->
  pop_unsigned_int n buffer = (Ok (le_value (take n buffer)), drop n buffer).
Proof.
  intros Hn. unfold pop_unsigned_int.
  destruct (Nat.leb_spec n (List.length buffer)); [reflexivity | lia].
Qed.

(** A pop at a known place of the record: the cursor stands at [offset]. *)
Lemma pop_at (data : list byte) (offset n : nat) {A : Type}
    (k : Z -> M ByteBuffer A) :
  (offset + n <= List.length data)%nat ->
  bind (pop_unsigned_int n) k (drop offset data)
  = k (le_at data offset n) (drop (offset + n) data).
Proof.
  intros Hn. unfold bind.
  rewrite pop_unsigned_int_Ok by (rewrite length_drop; lia).
  rewrite drop_drop. reflexivity.
Qed.

Ltac pops :=
  repeat (rewrite pop_at by (simpl; lia); cbn [Nat.add]).

Ltac pops_in H :=
  repeat (rewrite pop_at in H by (simpl; lia); cbn [Nat.add] in H).

Lemma le_at_byte (data : list byte) (k : nat) :
  (k < List.length data)%nat ->
  exists c, data !! k = Some c /\ le_at data k 1 = ord c.
Proof.
  intros Hk. destruct (lookup_lt_is_Some_2 data k Hk) as [c Hc].
  exists c. split; [exact Hc |].
  unfold le_at. rewrite (drop_S data c k Hc). simpl. lia.
Qed.

(** ** [_convert_complement] *)

Theorem convert_complement_is_twos_complement (value size : Z) :
  0 < size -> 0 <= value < 2 ^ size ->
  SdrFullSensorRecord._convert_complement value size = twos_complement size value.
Proof.
  intros Hsize Hv. unfold SdrFullSensorRecord._convert_complement, twos_complement.
  rewrite !Z.shiftl_1_l, truthy_land_pow2 by lia.
  assert (Hpow : 2 ^ size = 2 * 2 ^ (size - 1)).
  { rewrite <- Z.pow_succ_r by lia. f_equal. lia. }
  assert (Hpos : 0 < 2 ^ (size - 1)) by (apply Z.pow_pos_nonneg; lia).
  destruct (Z.ltb_spec value (2 ^ (size - 1))) as [Hlow | Hhigh].
  - replace (Z.testbit value (size - 1)) with false; [reflexivity |].
    symmetry. apply Z.testbit_false; [lia |].
    rewrite Z.div_small by lia. reflexivity.
  - replace (Z.testbit value (size - 1)) with true; [lia |].
    symmetry. apply Z.testbit_true; [lia |].
    replace (value / 2 ^ (size - 1)) with 1; [reflexivity |].
    apply Z.div_unique with (r := value - 2 ^ (size - 1)); lia.
Qed.

Lemma convert_complement_is_twos_complement_witness :
  SdrFullSensorRecord._convert_complement 0x3f6 10 = -10
  /\ SdrFullSensorRecord._convert_complement 0x1ff 10 = 511.
Proof.
  split.
  - rewrite (convert_complement_is_twos_complement 0x3f6 10); [reflexivity | lia | lia].
  - rewrite (convert_complement_is_twos_complement 0x1ff 10); [reflexivity | lia | lia].
Defined.

(** ** Record layouts *)

Lemma compact_too_short (data : list byte) :
  (List.length data < 32)%nat ->
  SdrCompactSensorRecord.from_data data = Raise (DecodingError "Data too short").
Proof.
  intros Hlen.
  do 32 (destruct data as [| ? data]; [reflexivity |]).
  simpl in Hlen. lia.
Qed.

Lemma fru_too_short (data : list byte) :
  (List.length data < 16)%nat ->
  SdrFruDeviceLocator.from_data data = Raise (DecodingError "Data too short").
Proof.
  intros Hlen.
  do 16 (destruct data as [| ? data]; [reflexivity |]).
  simpl in Hlen. lia.
Qed.

Lemma mc_too_short (data : list byte) :
  (List.length data < 16)%nat ->
  SdrManagementContollerDeviceLocator.from_data data
  = Raise (DecodingError "Data too short").
Proof.
  intros Hlen.
  do 16 (destruct data as [| ? data]; [reflexivity |]).
  simpl in Hlen. lia.
Qed.

Lemma full_too_short (data : list byte) :
  (List.length data < 48)%nat ->
  SdrFullSensorRecord.from_data data = Raise (DecodingError "Data too short").
Proof.
  intros Hlen.
  do 48 (destruct data as [| ? data]; [reflexivity |]).
  simpl in Hlen. lia.
Qed.

(** A record at least as long as its parser's reach decodes. *)
Lemma full_long (data : list byte) :
  (48 <= List.length data)%nat -> exists r, SdrFullSensorRecord.from_data data = Ok r.
Proof.
  intros Hlen. unfold SdrFullSensorRecord.from_data, SdrFullSensorRecord.parse.
  pops. eexists. reflexivity.
Qed.

Lemma compact_long (data : list byte) :
  (32 <= List.length data)%nat ->
  exists r, SdrCompactSensorRecord.from_data data = Ok r.
Proof.
  intros Hlen. unfold SdrCompactSensorRecord.from_data, SdrCompactSensorRecord.parse.
  pops. eexists. reflexivity.
Qed.

Lemma fru_long (data : list byte) :
  (16 <= List.length data)%nat -> exists r, SdrFruDeviceLocator.from_data data = Ok r.
Proof.
  intros Hlen. unfold SdrFruDeviceLocator.from_data, SdrFruDeviceLocator.parse.
  pops. eexists. reflexivity.
Qed.

Lemma mc_long (data : list byte) :
  (16 <= List.length data)%nat ->
  exists r, SdrManagementContollerDeviceLocator.from_data data = Ok r.
Proof.
  intros Hlen.
  unfold SdrManagementContollerDeviceLocator.from_data,
    SdrManagementContollerDeviceLocator.parse.
  pops. eexists. reflexivity.
Qed.

(** The compact sensor record parser accepts exactly the records of at
    least 32 bytes; each attribute is the little-endian integer at a fixed
    place of the record, and the identifier string is everything from
    byte 32 on. *)
Theorem compact_record_layout (data : list byte) :
  ((32 <= List.length data)%nat ->
   SdrCompactSensorRecord.from_data data
   = Ok {| SdrCompactSensorRecord.owner_id := le_at data 5 1;
           SdrCompactSensorRecord.owner_lun := le_at data 6 1;
           SdrCompactSensorRecord.number := le_at data 7 1;
           SdrCompactSensorRecord.entity_id := le_at data 8 1;
           SdrCompactSensorRecord.entity_instance := le_at data 9 1;
           SdrCompactSensorRecord.sensor_initialization := le_at data 10 1;
           SdrCompactSensorRecord.capabilities := le_at data 11 1;
           SdrCompactSensorRecord.sensor_type := le_at data 12 1;
           SdrCompactSensorRecord.event_reading_type_code := le_at data 13 1;
           SdrCompactSensorRecord.assertion_mask := le_at data 14 2;
           SdrCompactSensorRecord.deassertion_mask := le_at data 16 2;
           SdrCompactSensorRecord.discrete_reading_mask := le_at data 18 2;
           SdrCompactSensorRecord.units_1 := le_at data 20 1;
           SdrCompactSensorRecord.units_2 := le_at data 21 1;
           SdrCompactSensorRecord.units_3 := le_at data 22 1;
           SdrCompactSensorRecord.record_sharing := le_at data 23 2;
           SdrCompactSensorRecord.positive_going_hysteresis := le_at data 25 1;
           SdrCompactSensorRecord.negative_going_hysteresis := le_at data 26 1;
           SdrCompactSensorRecord.reserved := le_at data 27 3;
           SdrCompactSensorRecord.oem := le_at data 30 1;
           SdrCompactSensorRecord.device_id_string_type_length := le_at data 31 1;
           SdrCompactSensorRecord.device_id_string := drop 32 data |})
  /\ ((List.length data < 32)%nat ->
      exists msg,
        SdrCompactSensorRecord.from_data data = Raise (DecodingError msg)).
Proof.
  split.
  - intros Hlen.
    unfold SdrCompactSensorRecord.from_data, SdrCompactSensorRecord.parse.
    pops. reflexivity.
  - intros Hlen. eexists. apply compact_too_short, Hlen.
Qed.

Lemma compact_record_layout_witness :
  (exists r,
     SdrCompactSensorRecord.from_data compact_sensor_bytes = Ok r
     /\ SdrCompactSensorRecord.number r = 0x30
     /\ SdrCompactSensorRecord.assertion_mask r = 0x0a80
     /\ SdrCompactSensorRecord.reserved r = 0
     /\ SdrCompactSensorRecord.device_id_string r = [x46; x61; x6e; x31])
  /\ exists msg,
       SdrCompactSensorRecord.from_data (take 31 compact_sensor_bytes)
       = Raise (DecodingError msg).
Proof.
  split.
  - eexists. split.
    + apply (proj1 (compact_record_layout compact_sensor_bytes)). simpl. lia.
    + repeat split; reflexivity.
  - apply (proj2 (compact_record_layout (take 31 compact_sensor_bytes))). simpl. lia.
Defined.

(** The FRU device locator parser accepts exactly the records of at least
    16 bytes; the device access address is byte 5 without its lowest bit,
    the other attributes are the bytes 6 to 15, and the identifier string
    is everything from byte 16 on. *)
Theorem fru_device_locator_layout (data : list byte) :
  ((16 <= List.length data)%nat ->
   SdrFruDeviceLocator.from_data data
   = Ok {| SdrFruDeviceLocator.device_access_address := le_at data 5 1 / 2;
           SdrFruDeviceLocator.fru_device_id := le_at data 6 1;
           SdrFruDeviceLocator.logical_physical := le_at data 7 1;
           SdrFruDeviceLocator.channel_number := le_at data 8 1;
           SdrFruDeviceLocator.reserved := le_at data 9 1;
           SdrFruDeviceLocator.device_type := le_at data 10 1;
           SdrFruDeviceLocator.device_type_modifier := le_at data 11 1;
           SdrFruDeviceLocator.entity_id := le_at data 12 1;
           SdrFruDeviceLocator.entity_instance := le_at data 13 1;
           SdrFruDeviceLocator.oem := le_at data 14 1;
           SdrFruDeviceLocator.device_id_string_type_length := le_at data 15 1;
           SdrFruDeviceLocator.device_id_string := drop 16 data |})
  /\ ((List.length data < 16)%nat ->
      exists msg, SdrFruDeviceLocator.from_data data = Raise (DecodingError msg)).
Proof.
  split.
  - intros Hlen.
    unfold SdrFruDeviceLocator.from_data, SdrFruDeviceLocator.parse.
    pops. unfold ret. cbn [fst]. rewrite Z.shiftr_div_pow2 by lia. reflexivity.
  - intros Hlen. eexists. apply fru_too_short, Hlen.
Qed.

Lemma fru_device_locator_layout_witness :
  (exists r,
     SdrFruDeviceLocator.from_data fru_locator_bytes = Ok r
     /\ SdrFruDeviceLocator.device_access_address r = 0x50
     /\ SdrFruDeviceLocator.fru_device_id r = 5
     /\ SdrFruDeviceLocator.device_id_string r = [x46; x52; x55])
  /\ exists msg,
       SdrFruDeviceLocator.from_data (take 15 fru_locator_bytes)
       = Raise (DecodingError msg).
Proof.
  split.
  - eexists. split.
    + apply (proj1 (fru_device_locator_layout fru_locator_bytes)). simpl. lia.
    + repeat split; reflexivity.
  - apply (proj2 (fru_device_locator_layout (take 15 fru_locator_bytes))). simpl. lia.
Defined.

(** The management controller device locator parser accepts exactly the
    records of at least 16 bytes; the slave address is byte 5 without its
    lowest bit, the channel number the low four bits of byte 6,
    [global_initialization] is 0 whatever the record holds, the three
    reserved bytes 9 to 11 are one little-endian integer, and the
    identifier string is everything from byte 16 on. *)
Theorem mc_device_locator_layout (data : list byte) :
  ((16 <= List.length data)%nat ->
   SdrManagementContollerDeviceLocator.from_data data
   = Ok {| SdrManagementContollerDeviceLocator.device_slave_address :=
             le_at data 5 1 / 2;
           SdrManagementContollerDeviceLocator.channel_number :=
             le_at data 6 1 mod 16;
           SdrManagementContollerDeviceLocator.power_state_notification :=
             le_at data 7 1;
           SdrManagementContollerDeviceLocator.global_initialization := 0;
           SdrManagementContollerDeviceLocator.device_capabilities := le_at data 8 1;
           SdrManagementContollerDeviceLocator.reserved := le_at data 9 3;
           SdrManagementContollerDeviceLocator.entity_id := le_at data 12 1;
           SdrManagementContollerDeviceLocator.entity_instance := le_at data 13 1;
           SdrManagementContollerDeviceLocator.oem := le_at data 14 1;
           SdrManagementContollerDeviceLocator.device_id_string_type_length :=
             le_at data 15 1;
           SdrManagementContollerDeviceLocator.device_id_string := drop 16 data |})
  /\ ((List.length data < 16)%nat ->
      exists msg,
        SdrManagementContollerDeviceLocator.from_data data
        = Raise (DecodingError msg)).
Proof.
  split.
  - intros Hlen.
    unfold SdrManagementContollerDeviceLocator.from_data,
      SdrManagementContollerDeviceLocator.parse.
    pops. unfold ret. cbn [fst]. rewrite Z.shiftr_div_pow2 by lia.
    change 15 with (Z.ones 4). rewrite Z.land_ones by lia. reflexivity.
  - intros Hlen. eexists. apply mc_too_short, Hlen.
Qed.

Lemma mc_device_locator_layout_witness :
  (exists r,
     SdrManagementContollerDeviceLocator.from_data mc_locator_bytes = Ok r
     /\ SdrManagementContollerDeviceLocator.device_slave_address r = 0x20
     /\ SdrManagementContollerDeviceLocator.channel_number r = 7
     /\ SdrManagementContollerDeviceLocator.global_initialization r = 0
     /\ SdrManagementContollerDeviceLocator.device_id_string r = [x42; x4d; x43])
  /\ exists msg,
       SdrManagementContollerDeviceLocator.from_data (take 15 mc_locator_bytes)
       = Raise (DecodingError msg).
Proof.
  split.
  - eexists. split.
    + apply (proj1 (mc_device_locator_layout mc_locator_bytes)). simpl. lia.
    + repeat split; reflexivity.
  - apply (proj2 (mc_device_locator_layout (take 15 mc_locator_bytes))). simpl. lia.
Defined.

(** *** The full sensor record *)

(** Turns a successful decoding [Hdec] of a full sensor record into the
    length bound [Hlen] and replaces the record by its attributes, each an
    expression over the bytes of the record. *)
Ltac full_decode Hdec Hlen :=
  match type of Hdec with
  | SdrFullSensorRecord.from_data ?data = Ok ?r =>
      assert (Hlen : (48 <= List.length data)%nat)
        by (destruct (Nat.le_gt_cases 48 (List.length data)) as [Hge | Hlt];
            [exact Hge | rewrite (full_too_short data Hlt) in Hdec; discriminate Hdec]);
      unfold SdrFullSensorRecord.from_data, SdrFullSensorRecord.parse in Hdec;
      pops_in Hdec; unfold ret in Hdec; cbn [fst] in Hdec;
      injection Hdec as <-
  end.

(** The full sensor record parser accepts exactly the records of at least
    48 bytes.  The attributes it copies unchanged are the little-endian
    integers at fixed places of the record, the two hysteresis values are
    the bytes 42 and 43, and the identifier string is everything from
    byte 48 on. *)
Theorem full_record_layout (data : list byte) :
  ((48 <= List.length data)%nat ->
   exists r,
     SdrFullSensorRecord.from_data data = Ok r
     /\ SdrFullSensorRecord.owner_id r = le_at data 5 1
     /\ SdrFullSensorRecord.owner_lun r = le_at data 6 1
     /\ SdrFullSensorRecord.number r = le_at data 7 1
     /\ SdrFullSensorRecord.entity_id r = le_at data 8 1
     /\ SdrFullSensorRecord.entity_instance r = le_at data 9 1
     /\ SdrFullSensorRecord.sensor_type_code r = le_at data 12 1
     /\ SdrFullSensorRecord.event_reading_type_code r = le_at data 13 1
     /\ SdrFullSensorRecord.assertion_mask r = le_at data 14 2
     /\ SdrFullSensorRecord.deassertion_mask r = le_at data 16 2
     /\ SdrFullSensorRecord.discrete_reading_mask r = le_at data 18 2
     /\ SdrFullSensorRecord.nominal_reading r = le_at data 31 1
     /\ SdrFullSensorRecord.normal_maximum r = le_at data 32 1
     /\ SdrFullSensorRecord.normal_minimum r = le_at data 33 1
     /\ SdrFullSensorRecord.sensor_maximum_reading r = le_at data 34 1
     /\ SdrFullSensorRecord.sensor_minimum_reading r = le_at data 35 1
     /\ SdrFullSensorRecord.hysteresis r !! "positive_going" = Some (le_at data 42 1)
     /\ SdrFullSensorRecord.hysteresis r !! "negative_going" = Some (le_at data 43 1)
     /\ SdrFullSensorRecord.reserved r = le_at data 44 2
     /\ SdrFullSensorRecord.oem r = le_at data 46 1
     /\ SdrFullSensorRecord.device_id_string_type_length r = le_at data 47 1
     /\ SdrFullSensorRecord.device_id_string r = drop 48 data)
  /\ ((List.length data < 48)%nat ->
      exists msg, SdrFullSensorRecord.from_data data = Raise (DecodingError msg)).
Proof.
  split.
  - intros Hlen. eexists. split.
    + unfold SdrFullSensorRecord.from_data, SdrFullSensorRecord.parse.
      pops. reflexivity.
    + cbn [SdrFullSensorRecord.owner_id SdrFullSensorRecord.owner_lun
           SdrFullSensorRecord.number SdrFullSensorRecord.entity_id
           SdrFullSensorRecord.entity_instance SdrFullSensorRecord.sensor_type_code
           SdrFullSensorRecord.event_reading_type_code
           SdrFullSensorRecord.assertion_mask SdrFullSensorRecord.deassertion_mask
           SdrFullSensorRecord.discrete_reading_mask
           SdrFullSensorRecord.nominal_reading SdrFullSensorRecord.normal_maximum
           SdrFullSensorRecord.normal_minimum
           SdrFullSensorRecord.sensor_maximum_reading
           SdrFullSensorRecord.sensor_minimum_reading SdrFullSensorRecord.hysteresis
           SdrFullSensorRecord.reserved SdrFullSensorRecord.oem
           SdrFullSensorRecord.device_id_string_type_length
           SdrFullSensorRecord.device_id_string].
      repeat split; simplify_map_eq; reflexivity.
  - intros Hlen. eexists. apply full_too_short, Hlen.
Qed.

Lemma full_record_layout_witness :
  (exists r,
     SdrFullSensorRecord.from_data example_record = Ok r
     /\ SdrFullSensorRecord.number r = 1
     /\ SdrFullSensorRecord.assertion_mask r = 0x0a80
     /\ SdrFullSensorRecord.hysteresis r !! "positive_going" = Some 2
     /\ SdrFullSensorRecord.device_id_string r = [x54; x65; x6d; x70])
  /\ exists msg,
       SdrFullSensorRecord.from_data (take 47 example_record)
       = Raise (DecodingError msg).
Proof.
  split.
  - destruct (proj1 (full_record_layout example_record)) as (r & Hr & Hfields);
      [simpl; lia |].
    exists r. split; [exact Hr |].
    destruct Hfields as (_ & _ & Hnum & _ & _ & _ & _ & Hmask & _ & _ & _ & _ & _
                         & _ & _ & Hpos & _ & _ & _ & _ & Hid).
    rewrite Hnum, Hmask, Hpos, Hid. repeat split; reflexivity.
  - apply (proj2 (full_record_layout (take 47 example_record))). simpl. lia.
Defined.

Lemma quotient_range (c : byte) (d : Z) :
  0 < d -> 0 <= ord c / d < 256 / d + 1.
Proof.
  intros Hd. pose proof (ord_range c) as Hc.
  split; [apply Z.div_pos; lia |].
  assert (ord c / d <= 256 / d) by (apply Z.div_le_mono; lia). lia.
Qed.

(** Two bit fields put side by side in a ten-bit or twelve-bit value. *)
Lemma high_two_bits (d : byte) :
  Z.shiftl (Z.land (ord d) 0xc0) 2 = 256 * (ord d / 64).
Proof. destruct d; reflexivity. Qed.

Lemma high_nibble_shifted (d : byte) :
  Z.shiftl (Z.land (ord d) 0xf0) 4 = 256 * (ord d / 16).
Proof. destruct d; reflexivity. Qed.

Lemma lor_low_byte (c : byte) (k : Z) :
  0 <= k < 4 -> Z.lor (Z.land (ord c) 0xff) (256 * k) = ord c + 256 * k.
Proof.
  intros Hk. assert (Hcases : k = 0 \/ k = 1 \/ k = 2 \/ k = 3) by lia.
  destruct Hcases as [-> | [-> | [-> | ->]]]; destruct c; reflexivity.
Qed.

Lemma lor_low_six_bits (c : byte) (k : Z) :
  0 <= k < 16 -> Z.lor (Z.land (ord c) 0x3f) (256 * k) = ord c mod 64 + 256 * k.
Proof.
  intros Hk.
  assert (Hlow : Z.land (ord c) 0x3f = ord c mod 64).
  { change 0x3f with (Z.ones 6). rewrite Z.land_ones by lia. reflexivity. }
  rewrite Hlow.
  pose proof (Z.mod_pos_bound (ord c) 64 ltac:(lia)) as Hr.
  rewrite <- Z.lxor_lor, <- Z.add_nocarry_lxor; try reflexivity.
  all: apply Z.bits_inj'; intros i Hi; rewrite Z.land_spec, Z.bits_0;
    destruct (Z.lt_ge_cases i 8) as [Hlt | Hge].
  all: try (replace (256 * k) with (k * 2 ^ 8) by lia;
            rewrite (Z.mul_pow2_bits_low k 8 i) by lia; apply andb_false_r).
  all: rewrite (Z.bits_above_log2 (ord c mod 64) i); try reflexivity; try lia.
  all: destruct (Z.eq_dec (ord c mod 64) 0) as [-> | Hnz]; [simpl; lia |];
    assert (Z.log2 (ord c mod 64) < 6) by (apply Z.log2_lt_pow2; lia); lia.
Qed.

(** The converter's coefficients and their companions, read off the bytes
    20 and 23 to 29 of a full sensor record: [m] and [b] are ten-bit
    values whose two high bits come from the top of the next byte, [b],
    [k1] and [k2] are two's complement, and [accuracy] puts the high
    nibble of byte 28 at bit 8, above the six low bits of byte 27. *)
Theorem full_record_coefficients
    (data : list byte) (r : SdrFullSensorRecord.fields) :
  SdrFullSensorRecord.from_data data = Ok r ->
  SdrFullSensorRecord.analog_data_format r = le_at data 20 1 / 64
  /\ SdrFullSensorRecord.percentage r = le_at data 20 1 mod 2
  /\ SdrFullSensorRecord.linearization r = le_at data 23 1 mod 128
  /\ SdrFullSensorRecord.m r = le_at data 24 1 + 256 * (le_at data 25 1 / 64)
  /\ SdrFullSensorRecord.tolerance r = le_at data 25 1 mod 64
  /\ SdrFullSensorRecord.b r
     = twos_complement 10 (le_at data 26 1 + 256 * (le_at data 27 1 / 64))
  /\ SdrFullSensorRecord.accuracy r
     = le_at data 27 1 mod 64 + 256 * (le_at data 28 1 / 16)
  /\ SdrFullSensorRecord.accuracy_exp r = (le_at data 28 1 / 4) mod 4
  /\ SdrFullSensorRecord.k2 r = twos_complement 4 (le_at data 29 1 / 16)
  /\ SdrFullSensorRecord.k1 r = twos_complement 4 (le_at data 29 1 mod 16).
Proof.
  intros Hdec. full_decode Hdec Hlen.
  cbn [SdrFullSensorRecord.analog_data_format SdrFullSensorRecord.percentage
       SdrFullSensorRecord.linearization SdrFullSensorRecord.m
       SdrFullSensorRecord.tolerance SdrFullSensorRecord.b
       SdrFullSensorRecord.accuracy SdrFullSensorRecord.accuracy_exp
       SdrFullSensorRecord.k2 SdrFullSensorRecord.k1].
  destruct (le_at_byte data 20 ltac:(lia)) as (c20 & _ & ->).
  destruct (le_at_byte data 23 ltac:(lia)) as (c23 & _ & ->).
  destruct (le_at_byte data 24 ltac:(lia)) as (c24 & _ & ->).
  destruct (le_at_byte data 25 ltac:(lia)) as (c25 & _ & ->).
  destruct (le_at_byte data 26 ltac:(lia)) as (c26 & _ & ->).
  destruct (le_at_byte data 27 ltac:(lia)) as (c27 & _ & ->).
  destruct (le_at_byte data 28 ltac:(lia)) as (c28 & _ & ->).
  destruct (le_at_byte data 29 ltac:(lia)) as (c29 & _ & ->).
  pose proof (ord_range c24) as H24. pose proof (ord_range c26) as H26.
  pose proof (quotient_range c25 64 ltac:(lia)) as H25.
  pose proof (quotient_range c27 64 ltac:(lia)) as H27.
  pose proof (quotient_range c28 16 ltac:(lia)) as H28.
  change (256 / 64 + 1) with 5 in H25, H27. change (256 / 16 + 1) with 17 in H28.
  assert (H25' : ord c25 / 64 <> 4).
  { intros E. pose proof (ord_range c25). 
    pose proof (Z.mul_div_le (ord c25) 64 ltac:(lia)). lia. }
  assert (H27' : ord c27 / 64 <> 4).
  { intros E. pose proof (ord_range c27).
    pose proof (Z.mul_div_le (ord c27) 64 ltac:(lia)). lia. }
  assert (H28' : ord c28 / 16 <> 16).
  { intros E. pose proof (ord_range c28).
    pose proof (Z.mul_div_le (ord c28) 16 ltac:(lia)). lia. }
  repeat split.
  - destruct c20; reflexivity.
  - destruct c20; reflexivity.
  - destruct c23; reflexivity.
  - rewrite high_two_bits. apply lor_low_byte. lia.
  - destruct c25; reflexivity.
  - rewrite high_two_bits, lor_low_byte by lia.
    apply convert_complement_is_twos_complement; [lia |].
    change (2 ^ 10) with 1024. lia.
  - rewrite high_nibble_shifted. apply lor_low_six_bits. lia.
  - destruct c28; reflexivity.
  - destruct c29; reflexivity.
  - destruct c29; reflexivity.
Qed.

Lemma full_record_coefficients_witness :
  exists r,
    SdrFullSensorRecord.from_data (full_sensor_bytes x80 x00 x02 x40 xf6 xc5 xe1) = Ok r
    /\ SdrFullSensorRecord.analog_data_format r = 2
    /\ SdrFullSensorRecord.m r = 258
    /\ SdrFullSensorRecord.b r = -10
    /\ SdrFullSensorRecord.accuracy r = 5
    /\ SdrFullSensorRecord.k2 r = -2
    /\ SdrFullSensorRecord.k1 r = 1.
Proof.
  eexists. split; [reflexivity |].
  pose proof (full_record_coefficients
                (full_sensor_bytes x80 x00 x02 x40 xf6 xc5 xe1) _ eq_refl)
    as (Hfmt & _ & _ & Hm & _ & Hb & Hacc & _ & Hk2 & Hk1).
  rewrite Hfmt, Hm, Hb, Hacc, Hk2, Hk1. repeat split; reflexivity.
Defined.

(** The two support levels of a byte: the [if]/[elif] chain yields the
    entry of the table at the value of bits 4 and 5. *)
Lemma support_level_table (c : byte) (prefix : string) :
  exists level,
    support_levels !! Z.to_nat ((ord c / 16) mod 4) = Some level
    /\ SdrFullSensorRecord.support_level (ord c) prefix = [prefix +:+ level].
Proof.
  unfold SdrFullSensorRecord.support_level.
  assert (Hv : Z.land (ord c) 0x30 = 16 * ((ord c / 16) mod 4))
    by (destruct c; reflexivity).
  rewrite Hv.
  pose proof (Z.mod_pos_bound (ord c / 16) 4 ltac:(lia)) as Hr.
  assert (Hcases : (ord c / 16) mod 4 = 0 \/ (ord c / 16) mod 4 = 1
                   \/ (ord c / 16) mod 4 = 2 \/ (ord c / 16) mod 4 = 3) by lia.
  destruct Hcases as [-> | [-> | [-> | ->]]]; eexists; split; reflexivity.
Qed.

(** The capabilities of a full sensor record always end with one
    hysteresis support level and one threshold support level, and the two
    are the same level: both are selected by bits 4 and 5 of byte 11.
    Bits 0 to 3 of that byte have no influence on the list. *)
Theorem full_record_support_levels
    (data : list byte) (r : SdrFullSensorRecord.fields) :
  SdrFullSensorRecord.from_data data = Ok r ->
  exists level,
    support_levels !! Z.to_nat ((le_at data 11 1 / 16) mod 4) = Some level
    /\ SdrFullSensorRecord.capabilities r
       = (if Z.testbit (le_at data 11 1) 7 then ["ignore_sensor"] else [])
         ++ (if Z.testbit (le_at data 11 1) 6 then ["auto_rearm"] else [])
         ++ ["hysteresis" +:+ level; "threshold" +:+ level].
Proof.
  intros Hdec. full_decode Hdec Hlen.
  cbn [SdrFullSensorRecord.capabilities].
  destruct (le_at_byte data 11 ltac:(lia)) as (c & _ & ->).
  destruct (support_level_table c "hysteresis") as (level & Hlevel & Hh).
  destruct (support_level_table c "threshold") as (level' & Hlevel' & Ht).
  assert (level' = level) by congruence. subst level'.
  exists level. split; [exact Hlevel |].
  rewrite Hh, Ht. unfold flag.
  change 0x80 with (2 ^ 7). change 0x40 with (2 ^ 6).
  rewrite !truthy_land_pow2 by lia. reflexivity.
Qed.

Lemma full_record_support_levels_witness :
  exists r,
    SdrFullSensorRecord.from_data example_record = Ok r
    /\ SdrFullSensorRecord.capabilities r
       = ["auto_rearm"; "hysteresis_read_and_setable"; "threshold_read_and_setable"].
Proof.
  eexists. split; [reflexivity |].
  destruct (full_record_support_levels example_record _ eq_refl)
    as (level & Hlevel & Hcap).
  rewrite Hcap. vm_compute in Hlevel. injection Hlevel as <-. reflexivity.
Defined.

(** Overwriting byte [i] of a record leaves the integers stored elsewhere
    as they are. *)
Lemma le_at_insert (data : list byte) (i : nat) (c : byte) (k n : nat) :
  (k + n <= i \/ i < k)%nat ->
  le_at (<[i := c]> data) k n = le_at data k n.
Proof.
  intros [Hbefore | Hafter]; unfold le_at.
  - rewrite drop_insert_ge by lia. rewrite take_insert_ge by lia. reflexivity.
  - rewrite drop_insert_lt by lia. reflexivity.
Qed.

(** The full sensor record parser reads the bytes 21 and 22 (the unit
    type codes [units_2] and [units_3]) and stores them nowhere: the
    decoded record, or the error, is the same whatever these two bytes
    are. *)
Theorem full_record_ignores_unit_codes (data : list byte) (c : byte) :
  SdrFullSensorRecord.from_data (<[21%nat := c]> data)
  = SdrFullSensorRecord.from_data data
  /\ SdrFullSensorRecord.from_data (<[22%nat := c]> data)
     = SdrFullSensorRecord.from_data data.
Proof.
  destruct (Nat.le_gt_cases 48 (List.length data)) as [Hlen | Hshort].
  - split.
    + unfold SdrFullSensorRecord.from_data, SdrFullSensorRecord.parse.
      pose proof (length_insert data 21 c) as Hl.
      repeat (rewrite (pop_at (<[21%nat := c]> data)) by (rewrite Hl; simpl; lia);
              cbn [Nat.add]).
      pops. unfold to_string, bind, ret. cbn [fst].
      rewrite !le_at_insert by (simpl; lia).
      rewrite drop_insert_lt by lia. reflexivity.
    + unfold SdrFullSensorRecord.from_data, SdrFullSensorRecord.parse.
      pose proof (length_insert data 22 c) as Hl.
      repeat (rewrite (pop_at (<[22%nat := c]> data)) by (rewrite Hl; simpl; lia);
              cbn [Nat.add]).
      pops. unfold to_string, bind, ret. cbn [fst].
      rewrite !le_at_insert by (simpl; lia).
      rewrite drop_insert_lt by lia. reflexivity.
  - rewrite !full_too_short by (rewrite ?length_insert; exact Hshort).
    split; reflexivity.
Qed.

(** ** The record decoder, by length *)

(** The header of a record of at least five bytes. *)
Lemma from_response_long (data : list byte) :
  (5 <= List.length data)%nat ->
  SdrCommon.from_response data
  = Ok {| SdrCommon.data := data;
          SdrCommon.id := le_at data 0 2;
          SdrCommon.version := le_at data 2 1;
          SdrCommon.type := le_at data 3 1;
          SdrCommon.lenght := le_at data 4 1 |}.
Proof.
  intros Hlen. unfold SdrCommon.from_response.
  destruct (Nat.ltb_spec (List.length data) 5) as [Hlt | _]; [lia |].
  pose proof (fun A k => @pop_at data 0 2 A k) as Hfirst.
  cbn [drop Nat.add] in Hfirst. rewrite Hfirst by lia.
  pops. reflexivity.
Qed.

Lemma from_response_short (data : list byte) :
  (List.length data < 5)%nat ->
  SdrCommon.from_response data
  = Raise (DecodingError
             ("Invalid SDR length (" +:+ fmt_d (Z.of_nat (List.length data)) +:+ ")")).
Proof.
  intros Hlen. unfold SdrCommon.from_response.
  destruct (Nat.ltb_spec (List.length data) 5) as [_ | Hge]; [reflexivity | lia].
Qed.

Lemma common_init_long (data : list byte) (next : option Z) :
  (5 <= List.length data)%nat ->
  SdrCommon.__init__ data next
  = Ok {| SdrCommon.head :=
            Some {| SdrCommon.data := data;
                    SdrCommon.id := le_at data 0 2;
                    SdrCommon.version := le_at data 2 1;
                    SdrCommon.type := le_at data 3 1;
                    SdrCommon.lenght := le_at data 4 1 |};
          SdrCommon.next_id := SdrCommon.set_next_id next |}.
Proof.
  intros Hlen. unfold SdrCommon.__init__.
  destruct data as [| c data']; [simpl in Hlen; lia |].
  rewrite from_response_long by exact Hlen. reflexivity.
Qed.

Lemma common_init_short (data : list byte) (next : option Z) :
  (0 < List.length data < 5)%nat ->
  exists msg, SdrCommon.__init__ data next = Raise (DecodingError msg).
Proof.
  intros Hlen. unfold SdrCommon.__init__.
  destruct data as [| c data']; [simpl in Hlen; lia |].
  rewrite from_response_short by lia. eexists. reflexivity.
Qed.

Lemma init_body_nonempty {A : Type} (from_data : list byte -> result A)
    (data : list byte) :
  (0 < List.length data)%nat ->
  init_body from_data data = let! r := from_data data in Ok (Some r).
Proof. destruct data; [simpl; lia | reflexivity]. Qed.

(** What a constructor makes of a record, by the length of the record:
    [common] is the result of [SdrCommon.__init__] and [body] that of the
    class's [from_data]. *)
Lemma constructor_by_length {A B : Type} (from_data : list byte -> result A)
    (build : SdrCommon.t -> option A -> B) (data : list byte) (next : option Z)
    (n : nat) :
  (5 <= n)%nat ->
  (0 < List.length data)%nat ->
  ((n <= List.length data)%nat -> exists r, from_data data = Ok r) ->
  ((5 <= List.length data < n)%nat ->
   exists msg, from_data data = Raise (DecodingError msg)) ->
  if (n <=? List.length data)%nat
  then exists o, (let! c := SdrCommon.__init__ data next in
                  let! a := init_body from_data data in
                  Ok (build c a)) = Ok o
  else exists msg, (let! c := SdrCommon.__init__ data next in
                    let! a := init_body from_data data in
                    Ok (build c a)) = Raise (DecodingError msg).
Proof.
  intros Hn Hpos Hlong Hshort.
  rewrite init_body_nonempty by exact Hpos.
  destruct (Nat.leb_spec n (List.length data)) as [Hge | Hlt].
  - rewrite common_init_long by lia. destruct (Hlong Hge) as [r ->].
    eexists. reflexivity.
  - destruct (Nat.le_gt_cases 5 (List.length data)) as [H5 | H5].
    + rewrite common_init_long by lia.
      destruct (Hshort (conj H5 Hlt)) as [msg ->].
      exists msg. reflexivity.
    + destruct (common_init_short data next ltac:(lia)) as [msg ->].
      exists msg. reflexivity.
Qed.

Lemma result_bind_Ok_exists {A B : Type} (r : result A) (f : A -> B) :
  (exists a, r = Ok a) -> exists b, (let! a := r in Ok (f a)) = Ok b.
Proof. intros [a ->]. eexists. reflexivity. Qed.

Lemma result_bind_Raise_exists {A B : Type} (r : result A) (f : A -> B) :
  (exists msg, r = Raise (DecodingError msg)) ->
  exists msg, (let! a := r in Ok (f a)) = Raise (DecodingError msg).
Proof. intros [msg ->]. eexists. reflexivity. Qed.

(** [create_sdr] accepts a record exactly when its fourth byte is one of
    the five supported types and the record has at least as many bytes as
    the parser of that type consumes: 48 for a full sensor record, 32 for
    a compact one, 5 for an event-only record and 16 for the two device
    locators.  A shorter record of a supported type raises
    [DecodingError], a record of fewer than four bytes [IndexError].  The
    length byte of the record is not compared with the number of bytes. *)
Theorem create_sdr_accepts (data : list byte) (next : option Z) :
  match data !! 3%nat with
  | None => create_sdr data next = Raise IndexError
  | Some c =>
      match minimum_length (ord c) with
      | None => create_sdr data next = Raise (unsupported_sdr_type (ord c))
      | Some n =>
          if (n <=? List.length data)%nat
          then exists s, create_sdr data next = Ok s
          else exists msg, create_sdr data next = Raise (DecodingError msg)
      end
  end.
Proof.
  unfold create_sdr. destruct (data !! 3%nat) as [c |] eqn:Hc; [| reflexivity].
  assert (Hpos : (0 < List.length data)%nat) by (apply lookup_lt_Some in Hc; lia).
  unfold minimum_length, SDR_TYPE_FULL_SENSOR_RECORD, SDR_TYPE_COMPACT_SENSOR_RECORD,
    SDR_TYPE_EVENT_ONLY_SENSOR_RECORD, SDR_TYPE_FRU_DEVICE_LOCATOR_RECORD,
    SDR_TYPE_MANAGEMENT_CONTROLLER_DEVICE_LOCATOR_RECORD,
    SDR_TYPE_MANAGEMENT_CONTROLLER_CONFIRMATION_RECORD,
    SDR_TYPE_BMC_MESSAGE_CHANNEL_INFO_RECORD.
  destruct (ord c =? 1).
  { pose proof (constructor_by_length SdrFullSensorRecord.from_data
                  SdrFullSensorRecord.Build_t data next 48 ltac:(lia) Hpos) as Hinit.
    unfold SdrFullSensorRecord.__init__.
    destruct (48 <=? List.length data)%nat;
      [apply result_bind_Ok_exists | apply result_bind_Raise_exists]; apply Hinit.
    all: try apply full_long.
    all: intros [_ Hlt]; eexists; apply (full_too_short data Hlt). }
  destruct (ord c =? 2).
  { pose proof (constructor_by_length SdrCompactSensorRecord.from_data
                  SdrCompactSensorRecord.Build_t data next 32 ltac:(lia) Hpos) as Hinit.
    unfold SdrCompactSensorRecord.__init__.
    destruct (32 <=? List.length data)%nat;
      [apply result_bind_Ok_exists | apply result_bind_Raise_exists]; apply Hinit.
    all: try apply compact_long.
    all: intros [_ Hlt]; eexists; apply (compact_too_short data Hlt). }
  destruct (ord c =? 3).
  { pose proof (constructor_by_length SdrEventOnlySensorRecord.from_data
                  (fun c _ => SdrEventOnlySensorRecord.Build_t c) data next 5
                  ltac:(lia) Hpos) as Hinit.
    unfold SdrEventOnlySensorRecord.__init__.
    destruct (5 <=? List.length data)%nat;
      [apply result_bind_Ok_exists | apply result_bind_Raise_exists]; apply Hinit.
    all: try (intros _; exists tt; reflexivity).
    all: intros [? ?]; lia. }
  destruct (ord c =? 17).
  { pose proof (constructor_by_length SdrFruDeviceLocator.from_data
                  SdrFruDeviceLocator.Build_t data next 16 ltac:(lia) Hpos) as Hinit.
    unfold SdrFruDeviceLocator.__init__.
    destruct (16 <=? List.length data)%nat;
      [apply result_bind_Ok_exists | apply result_bind_Raise_exists]; apply Hinit.
    all: try apply fru_long.
    all: intros [_ Hlt]; eexists; apply (fru_too_short data Hlt). }
  destruct (ord c =? 18).
  { pose proof (constructor_by_length SdrManagementContollerDeviceLocator.from_data
                  SdrManagementContollerDeviceLocator.Build_t data next 16
                  ltac:(lia) Hpos) as Hinit.
    unfold SdrManagementContollerDeviceLocator.__init__.
    destruct (16 <=? List.length data)%nat;
      [apply result_bind_Ok_exists | apply result_bind_Raise_exists]; apply Hinit.
    all: try apply mc_long.
    all: intros [_ Hlt]; eexists; apply (mc_too_short data Hlt). }
  destruct (ord c =? 19); [reflexivity |].
  destruct (ord c =? 20); reflexivity.
Qed.

Lemma result_bind_Ok_inv {A B : Type} (r : result A) (k : A -> result B) (b : B) :
  (let! a := r in k a) = Ok b -> exists a, r = Ok a /\ k a = Ok b.
Proof. destruct r as [a | e]; [| discriminate]. intros Hk. exists a. auto. Qed.

(** A constructed object of a record that has a fourth byte carries the
    decoded header. *)
Lemma common_init_Ok_inv (data : list byte) (next : option Z) (o : SdrCommon.t) :
  (0 < List.length data)%nat ->
  SdrCommon.__init__ data next = Ok o ->
  (5 <= List.length data)%nat
  /\ SdrCommon.head o
     = Some {| SdrCommon.data := data;
               SdrCommon.id := le_at data 0 2;
               SdrCommon.version := le_at data 2 1;
               SdrCommon.type := le_at data 3 1;
               SdrCommon.lenght := le_at data 4 1 |}.
Proof.
  intros Hpos Hinit.
  destruct (Nat.le_gt_cases 5 (List.length data)) as [Hlen | Hshort].
  - rewrite common_init_long in Hinit by exact Hlen.
    injection Hinit as <-. split; [exact Hlen | reflexivity].
  - destruct (common_init_short data next ltac:(lia)) as [msg Hmsg].
    rewrite Hmsg in Hinit. discriminate Hinit.
Qed.

(** Every record [create_sdr] returns has at least five bytes and keeps
    them all in [data]; its [id] is the little-endian integer in bytes 0
    and 1, [version] is byte 2, [lenght] is byte 4, and [type], byte 3, is
    the record type of the class of the object. *)
Theorem create_sdr_header (data : list byte) (next : option Z) (s : Sdr) :
  create_sdr data next = Ok s ->
  (5 <= List.length data)%nat
  /\ SdrCommon.head (sdr_common s)
     = Some {| SdrCommon.data := data;
               SdrCommon.id := le_at data 0 2;
               SdrCommon.version := le_at data 2 1;
               SdrCommon.type := sdr_type_of s;
               SdrCommon.lenght := le_at data 4 1 |}.
Proof.
  unfold create_sdr. destruct (data !! 3%nat) as [c |] eqn:Hc; [| discriminate].
  assert (Hpos : (0 < List.length data)%nat) by (apply lookup_lt_Some in Hc; lia).
  assert (Htype : le_at data 3 1 = ord c).
  { destruct (le_at_byte data 3) as (c' & Hc' & ->);
      [apply lookup_lt_Some in Hc; exact Hc | congruence]. }
  unfold SDR_TYPE_FULL_SENSOR_RECORD, SDR_TYPE_COMPACT_SENSOR_RECORD,
    SDR_TYPE_EVENT_ONLY_SENSOR_RECORD, SDR_TYPE_FRU_DEVICE_LOCATOR_RECORD,
    SDR_TYPE_MANAGEMENT_CONTROLLER_DEVICE_LOCATOR_RECORD,
    SDR_TYPE_MANAGEMENT_CONTROLLER_CONFIRMATION_RECORD,
    SDR_TYPE_BMC_MESSAGE_CHANNEL_INFO_RECORD.
  repeat match goal with
         | |- (if ?z =? ?n then _ else _) = _ -> _ =>
             destruct (Z.eqb_spec z n) as [Heq | _]
         end; try discriminate.
  all: intros Hs; apply result_bind_Ok_inv in Hs as (o & Ho & Hs);
    injection Hs as <-.
  - unfold SdrFullSensorRecord.__init__ in Ho.
    apply result_bind_Ok_inv in Ho as (co & Hco & Ho).
    apply result_bind_Ok_inv in Ho as (a & _ & Ho). injection Ho as <-.
    apply common_init_Ok_inv in Hco as [Hlen Hhead]; [| exact Hpos].
    split; [exact Hlen |]. cbn. rewrite Hhead, Htype, Heq. reflexivity.
  - unfold SdrCompactSensorRecord.__init__ in Ho.
    apply result_bind_Ok_inv in Ho as (co & Hco & Ho).
    apply result_bind_Ok_inv in Ho as (a & _ & Ho). injection Ho as <-.
    apply common_init_Ok_inv in Hco as [Hlen Hhead]; [| exact Hpos].
    split; [exact Hlen |]. cbn. rewrite Hhead, Htype, Heq. reflexivity.
  - unfold SdrEventOnlySensorRecord.__init__ in Ho.
    apply result_bind_Ok_inv in Ho as (co & Hco & Ho).
    apply result_bind_Ok_inv in Ho as (a & _ & Ho). injection Ho as <-.
    apply common_init_Ok_inv in Hco as [Hlen Hhead]; [| exact Hpos].
    split; [exact Hlen |]. cbn. rewrite Hhead, Htype, Heq. reflexivity.
  - unfold SdrFruDeviceLocator.__init__ in Ho.
    apply result_bind_Ok_inv in Ho as (co & Hco & Ho).
    apply result_bind_Ok_inv in Ho as (a & _ & Ho). injection Ho as <-.
    apply common_init_Ok_inv in Hco as [Hlen Hhead]; [| exact Hpos].
    split; [exact Hlen |]. cbn. rewrite Hhead, Htype, Heq. reflexivity.
  - unfold SdrManagementContollerDeviceLocator.__init__ in Ho.
    apply result_bind_Ok_inv in Ho as (co & Hco & Ho).
    apply result_bind_Ok_inv in Ho as (a & _ & Ho). injection Ho as <-.
    apply common_init_Ok_inv in Hco as [Hlen Hhead]; [| exact Hpos].
    split; [exact Hlen |]. cbn. rewrite Hhead, Htype, Heq. reflexivity.
Qed.

Lemma create_sdr_header_witness :
  exists s,
    create_sdr mc_locator_bytes (Some 0xffff) = Ok s
    /\ SdrCommon.head (sdr_common s)
       = Some {| SdrCommon.data := mc_locator_bytes;
                 SdrCommon.id := 4;
                 SdrCommon.version := 0x51;
                 SdrCommon.type := 0x12;
                 SdrCommon.lenght := 14 |}.
Proof.
  eexists. split; [reflexivity |].
  apply (create_sdr_header mc_locator_bytes (Some 0xffff) _ eq_refl).
Defined.

(** ** The round trip of the converters *)

(** Doubles that compare equal round to the same integer. *)
Lemma eqb_round_int (x y : float) :
  (x =? y)%float = true -> py_int (py_round x) = py_int (py_round y).
Proof.
  intros Heq. rewrite FloatAxioms.eqb_spec in Heq. unfold SFeqb, SFcompare in Heq.
  revert Heq.
  destruct (Prim2SF x) as [sx | sx | | sx mx ex] eqn:Hx;
    destruct (Prim2SF y) as [sy | sy | | sy my ey] eqn:Hy;
    try discriminate; try (destruct sx; discriminate); try (destruct sy; discriminate).
  - intros _. unfold py_round. rewrite Hx, Hy. unfold py_int. rewrite Hx, Hy.
    reflexivity.
  - intros _. unfold py_round. rewrite Hx, Hy. unfold py_int. rewrite Hx, Hy.
    reflexivity.
  - intros Heq. assert (Hsame : Prim2SF x = Prim2SF y).
    { rewrite Hx, Hy.
      destruct sx, sy; try discriminate;
        destruct (Z.compare_spec ex ey) as [-> | |]; try discriminate.
      all: change (PosDef.Pos.compare_cont Eq mx my) with (mx ?= my)%positive in Heq.
      all: destruct (Pos.compare_spec mx my) as [-> | |]; try discriminate.
      all: reflexivity. }
    apply Prim2SF_inj in Hsame. subst y. reflexivity.
Qed.

Lemma floats_in (lo n : nat) (z : Z) :
  Z.of_nat lo <= z < Z.of_nat (lo + n) -> In (float_of_Z z) (floats lo n).
Proof.
  intros Hz. unfold floats. apply in_map_iff. exists (Z.to_nat z).
  split; [rewrite Z2Nat.id by lia; reflexivity | apply in_seq; lia].
Qed.

Lemma round_trip_checks :
  let readings := floats 0 256 in
  forallb (fun mf => forallb (round_trip_check mf) readings) (floats 1 1023) = true.
Proof. vm_compute. reflexivity. Qed.

Lemma float_of_Z_0 : float_of_Z 0 = 0%float.
Proof. vm_compute. reflexivity. Qed.

Lemma float_of_Z_1 : float_of_Z 1 = 1%float.
Proof. vm_compute. reflexivity. Qed.

Lemma round_trip_check_holds (m r : Z) :
  0 < m < 1024 -> 0 <= r < 256 ->
  round_trip_check (float_of_Z m) (float_of_Z r) = true.
Proof.
  intros Hm Hr. pose proof round_trip_checks as Hall.
  cbv zeta in Hall. rewrite forallb_forall in Hall.
  specialize (Hall (float_of_Z m) (floats_in 1 1023 m ltac:(lia))).
  rewrite forallb_forall in Hall.
  apply Hall, (floats_in 0 256 r). lia.
Qed.

Lemma round_int_byte (r : Z) :
  0 <= r < 256 -> py_int (py_round (float_of_Z r)) = Ok r.
Proof.
  intros Hr.
  assert (Hall : forallb (fun n => match py_int (py_round (float_of_Z (Z.of_nat n))) with
                                   | Ok z => z =? Z.of_nat n
                                   | Raise _ => false
                                   end) (seq 0 256) = true)
    by (vm_compute; reflexivity).
  rewrite forallb_forall in Hall. specialize (Hall (Z.to_nat r)).
  rewrite Z2Nat.id in Hall by lia.
  destruct (py_int (py_round (float_of_Z r))) as [z | e].
  - f_equal. apply Z.eqb_eq, Hall, in_seq. lia.
  - discriminate Hall. apply in_seq. lia.
Qed.

Section RoundTrip.
Context `{MathModule}.

(** For a linear full sensor record with a non-zero [m], no offset
    ([b = 0], [k1] not negative) and [k2 = 0], converting a raw byte to a
    value and the value back returns the byte, provided the byte is not
    sign-adjusted: the format is unsigned or none, or bit 7 of the byte is
    clear. *)
Theorem round_trip_without_offset
    (data : list byte) (self : SdrFullSensorRecord.fields) (c : byte) :
  SdrFullSensorRecord.from_data data = Ok self ->
  SdrFullSensorRecord.linearization self = 0 ->
  SdrFullSensorRecord.m self <> 0 ->
  SdrFullSensorRecord.b self = 0 ->
  0 <= SdrFullSensorRecord.k1 self ->
  SdrFullSensorRecord.k2 self = 0 ->
  (SdrFullSensorRecord.analog_data_format self <> 1
   /\ SdrFullSensorRecord.analog_data_format self <> 2)
  \/ ord c < 128 ->
  exists value,
    SdrFullSensorRecord.convert_sensor_raw_to_value self (ord c) = Ok value
    /\ SdrFullSensorRecord.convert_sensor_value_to_raw self value = Ok (ord c).
Proof.
  intros Hdec Hlin Hm0 Hb Hk1 Hk2 Hfmt.
  pose proof (full_record_coefficient_ranges data self Hdec) as Hr.
  pose proof Hr as [_ _ Hm _ Hk1r _].
  pose proof (ord_range c) as Hc.
  pose proof (round_trip_check_holds (SdrFullSensorRecord.m self) (ord c)
                ltac:(lia) Hc) as Hcheck.
  unfold round_trip_check in Hcheck. cbv zeta in Hcheck.
  apply andb_true_iff in Hcheck as [Hsign Hback].
  apply negb_true_iff in Hsign.
  set (value := ((float_of_Z (SdrFullSensorRecord.m self) * float_of_Z (ord c)
                  + 0) * 1)%float) in *.
  assert (Hoffset : offset_term self = 0%float).
  { unfold offset_term. destruct (Z.leb_spec 0 (SdrFullSensorRecord.k1 self)); [| lia].
    rewrite Hb. apply float_of_Z_0. }
  assert (Hone : float_pow10 0 = 1%float) by apply float_of_Z_1.
  assert (Hraw :
    (if SdrFullSensorRecord.analog_data_format self
        =? SdrFullSensorRecord.DATA_FMT_1S_COMPLEMENT
     then if truthy (Z.land (ord c) 0x80)
          then - (Z.lxor (Z.land (ord c) 0x7f) 0x7f) else ord c
     else if SdrFullSensorRecord.analog_data_format self
             =? SdrFullSensorRecord.DATA_FMT_2S_COMPLEMENT
          then if truthy (Z.land (ord c) 0x80)
               then - (Z.lxor (Z.land (ord c) 0x7f) 0x7f) - 1 else ord c
          else ord c) = ord c).
  { unfold SdrFullSensorRecord.DATA_FMT_1S_COMPLEMENT,
      SdrFullSensorRecord.DATA_FMT_2S_COMPLEMENT.
    destruct Hfmt as [[H1 H2] | Hlow].
    - apply Z.eqb_neq in H1, H2. rewrite H1, H2. reflexivity.
    - assert (Hclear : truthy (Z.land (ord c) 0x80) = false).
      { change 0x80 with (2 ^ 7). rewrite truthy_land_pow2 by lia.
        apply Z.testbit_false; [lia |]. rewrite Z.div_small by lia. reflexivity. }
      rewrite Hclear. destruct (_ =? 1); [| destruct (_ =? 2)]; reflexivity. }
  exists value. split.
  - unfold SdrFullSensorRecord.convert_sensor_raw_to_value. cbv zeta.
    rewrite Hraw.
    rewrite float_of_int_small by (assert (2 ^ 8 < 2 ^ 64) by reflexivity; lia).
    cbn [result_bind]. rewrite l_is_table_lookup. cbv zeta.
    rewrite Hlin. cbn [Z.land Z.to_nat lookup list_lookup linearizations result_bind].
    unfold py_mul at 1. cbn [py_arith to_float].
    rewrite float_of_int_small by (assert (2 ^ 10 < 2 ^ 64) by reflexivity; lia).
    cbn [result_bind].
    pose proof (offset_term_code self PrimFloat.add Z.add
                  (float_of_Z (SdrFullSensorRecord.m self) * float_of_Z (ord c))%float
                  Hr) as Hoff.
    unfold result_bind in Hoff |- *. unfold py_add.
    destruct (py_mul (PyInt (SdrFullSensorRecord.b self))
                (py_pow10 (SdrFullSensorRecord.k1 self))) as [bk | e];
      [| discriminate Hoff].
    rewrite Hoff, Hoffset. rewrite float_pow10_code by lia.
    rewrite Hk2, Hone. reflexivity.
  - unfold SdrFullSensorRecord.convert_sensor_value_to_raw. cbv zeta.
    rewrite Hlin. cbn [Z.land Z.eqb negb SdrFullSensorRecord.L_LINEAR].
    rewrite (value_to_raw_arithmetic self value _ Hr Hm0).
    unfold value_to_raw_formula. rewrite Hoffset, Hk2.
    change (- 0) with 0. rewrite Hone.
    rewrite Hsign.
    assert (Hcheck : (if SdrFullSensorRecord.analog_data_format self
                         =? SdrFullSensorRecord.DATA_FMT_1S_COMPLEMENT
                      then Ok tt
                      else if SdrFullSensorRecord.analog_data_format self
                              =? SdrFullSensorRecord.DATA_FMT_2S_COMPLEMENT
                           then Ok tt else Ok tt) = Ok tt)
      by (destruct (_ =? _); [| destruct (_ =? _)]; reflexivity).
    rewrite Hcheck. cbn [result_bind].
    rewrite (eqb_round_int _ _ Hback), round_int_byte by exact Hc.
    cbn [result_bind].
    destruct (Z.gtb_spec (ord c) 255); [lia | reflexivity].
Qed.

End RoundTrip.

Lemma round_trip_without_offset_witness :
  exists self,
    SdrFullSensorRecord.from_data no_offset_record = Ok self
    /\ forall M : MathModule,
         SdrFullSensorRecord.convert_sensor_raw_to_value self 20 = Ok 40%float
         /\ SdrFullSensorRecord.convert_sensor_value_to_raw self 40 = Ok 20.
Proof.
  eexists. split; [reflexivity |]. intros M.
  destruct (round_trip_without_offset no_offset_record _ x14 eq_refl)
    as (value & Hvalue & Hback);
    [reflexivity | discriminate | reflexivity | vm_compute; discriminate
    | reflexivity | left; split; discriminate |].
  assert (Hv : value = 40%float)
    by (vm_compute in Hvalue; injection Hvalue as <-; reflexivity).
  subst value. (split; [exact Hvalue | exact Hback]).
Defined.

(** ** The two loops of [get_sdr] *)

Section Loops.
Context `{Transport} `{Constants}.

Lemma get_reservation_id_cases (w : World) :
  match get_reservation_id w with
  | (Ok _, _) => True
  | (Raise e, _) => exists cc, cc <> 0 /\ e = CompletionCodeError cc
  end.
Proof.
  unfold get_reservation_id, bind, send, lift, check_completion_code.
  destruct (send_message ReserveDeviceSdrRepository (dev w)) as [rsp d].
  destruct (Z.eqb_spec (completion_code rsp) 0) as [Hcc | Hcc]; simpl.
  - exact I.
  - exists (completion_code rsp). split; [exact Hcc | reflexivity].
Qed.

(** One iteration of the header loop with attempts left: it ends the loop
    with a response of completion code 0, or uses up one attempt, or
    raises [CompletionCodeError] with a non-zero code. *)
Lemma header_step_cases (rid : Z) (st : header_state) (w : World) :
  h_retry st <> 0 ->
  match header_step rid st w with
  | (Ok (inr (rsp, _)), _) => completion_code rsp = 0
  | (Ok (inl st'), _) => h_retry st' = h_retry st - 1
  | (Raise e, _) => exists cc, cc <> 0 /\ e = CompletionCodeError cc
  end.
Proof.
  intros Hretry. unfold header_step. apply Z.eqb_neq in Hretry. rewrite Hretry.
  unfold bind at 1, send.
  destruct (send_message (GetDeviceSdr (h_reservation_id st) rid 0 5) (dev w))
    as [rsp d].
  destruct (Z.eqb_spec (completion_code rsp) 0) as [Hcc | Hcc]; [exact Hcc |].
  destruct (completion_code rsp =? CC_RES_CANCELED).
  { unfold bind at 1.
    pose proof (get_reservation_id_cases {| dev := d; slept := slept w |}) as Hres.
    destruct (get_reservation_id {| dev := d; slept := slept w |}) as [[rsv | e] w'].
    - reflexivity.
    - exact Hres. }
  destruct (completion_code rsp =? CC_RESP_COULD_NOT_BE_PRV); [reflexivity |].
  unfold bind, lift, check_completion_code.
  apply Z.eqb_neq in Hcc. rewrite Hcc.
  exists (completion_code rsp). split; [apply Z.eqb_neq, Hcc | reflexivity].
Qed.

Lemma header_loop_bounded (n : nat) :
  forall (rid : Z) (st : header_state) (w : World) (fuel : nat),
    h_retry st = Z.of_nat n ->
    (n < fuel)%nat ->
    while_true fuel (header_step rid) st w
    = while_true (Datatypes.S n) (header_step rid) st w
    /\ match while_true fuel (header_step rid) st w with
       | (Ok (Some (rsp, _)), _) => completion_code rsp = 0
       | (Ok None, _) => False
       | (Raise e, _) =>
           e = RetryError \/ exists cc, cc <> 0 /\ e = CompletionCodeError cc
       end.
Proof.
  induction n as [| n IH]; intros rid st w fuel Hretry Hfuel;
    (destruct fuel as [| fuel]; [lia |]).
  - rewrite !while_true_S. unfold header_step. rewrite Hretry. simpl.
    split; [reflexivity | left; reflexivity].
  - rewrite (while_true_S fuel), (while_true_S (Datatypes.S n)).
    pose proof (header_step_cases rid st w ltac:(lia)) as Hstep.
    destruct (header_step rid st w) as [[[st' | [rsp rsv]] | e] w'].
    + apply IH; lia.
    + split; [reflexivity | exact Hstep].
    + split; [reflexivity | right; exact Hstep].
Qed.

(** The header phase of [get_sdr] always ends, after at most five failed
    attempts: six iterations of its loop are enough whatever the device
    answers, and it ends with a response of completion code 0, with
    [RetryError] or with [CompletionCodeError] for a non-zero code. *)
Theorem header_phase_ends (rid rsv : Z) (w : World) (fuel : nat) :
  (6 <= fuel)%nat ->
  while_true fuel (header_step rid) {| h_retry := 5; h_reservation_id := rsv |} w
  = while_true 6 (header_step rid) {| h_retry := 5; h_reservation_id := rsv |} w
  /\ match while_true fuel (header_step rid)
             {| h_retry := 5; h_reservation_id := rsv |} w with
     | (Ok (Some (rsp, _)), _) => completion_code rsp = 0
     | (Ok None, _) => False
     | (Raise e, _) =>
         e = RetryError \/ exists cc, cc <> 0 /\ e = CompletionCodeError cc
     end.
Proof.
  intros Hfuel. apply (header_loop_bounded 5); [reflexivity | lia].
Qed.

(** The body phase gives up after five refusals in a row.  When the read
    of the body loop is answered "cannot return number of requested bytes"
    five times, the reader has sent exactly five reads, all at the offset
    after the header, asking for 20, 16, 12, 8 and 4 bytes (each cut at
    the end of the record); the fifth refusal brings the page size to 0
    and sets the attempts to 0 (second conclusion), and the next iteration
    raises [RetryError] with no further read and without having slept,
    although none of the twenty attempts was used. *)
Theorem body_phase_gives_up_after_five_refusals
    (rid rsv record_length : Z) (header : list byte) (w : World)
    (rsp1 rsp2 rsp3 rsp4 rsp5 : Response) (d1 d2 d3 d4 d5 : Dev) (fuel : nat) :
  let offset := Z.of_nat (List.length header) in
  let read (size : Z) :=
    GetDeviceSdr rsv rid offset (Z.min size (record_length - offset)) in
  send_message (read 20) (dev w) = (rsp1, d1) ->
  send_message (read 16) d1 = (rsp2, d2) ->
  send_message (read 12) d2 = (rsp3, d3) ->
  send_message (read 8) d3 = (rsp4, d4) ->
  send_message (read 4) d4 = (rsp5, d5) ->
  Forall (fun rsp => completion_code rsp = CC_CANT_RET_NUM_REQ_BYTES)
    [rsp1; rsp2; rsp3; rsp4; rsp5] ->
  (6 <= fuel)%nat ->
  while_true fuel (body_step rid record_length) (body_start rsv header) w
  = (Raise RetryError, {| dev := d5; slept := slept w |})
  /\ body_step rid record_length
       {| retry := 20; max_req_len := 4; req_reservation_id := rsv;
          req_offset := offset; acc_record_data := header |}
       {| dev := d4; slept := slept w |}
     = (Ok (inl {| retry := 0; max_req_len := 0; req_reservation_id := rsv;
                   req_offset := offset; acc_record_data := header |}),
        {| dev := d5; slept := slept w |}).
Proof.
  intros offset read H1 H2 H3 H4 H5 Hcc Hfuel.
  repeat match goal with
         | Hall : Forall _ (_ :: _) |- _ =>
             let Hhead := fresh "Hrefused" in
             apply Forall_cons_1 in Hall; destruct Hall as [Hhead Hall]
         end.
  assert (Hlast :
    body_step rid record_length
      {| retry := 20; max_req_len := 4; req_reservation_id := rsv;
         req_offset := offset; acc_record_data := header |}
      {| dev := d4; slept := slept w |}
    = (Ok (inl {| retry := 0; max_req_len := 0; req_reservation_id := rsv;
                  req_offset := offset; acc_record_data := header |}),
       {| dev := d5; slept := slept w |})).
  { rewrite (body_step_too_long rid record_length _ _ rsp5 d5)
      by (first [discriminate | assumption]).
    reflexivity. }
  split; [| exact Hlast].
  do 6 (destruct fuel as [| fuel]; [lia |]).
  rewrite while_true_S.
  rewrite (body_step_too_long rid record_length (body_start rsv header) w rsp1 d1)
    by (first [discriminate | assumption]).
  cbn [body_start max_req_len retry req_reservation_id req_offset acc_record_data].
  change (20 - 4) with 16. change (16 <=? 0) with false. cbv iota.
  rewrite while_true_S.
  rewrite (body_step_too_long rid record_length _ _ rsp2 d2)
    by (first [discriminate | assumption]).
  cbn [max_req_len retry req_reservation_id req_offset acc_record_data].
  change (16 - 4) with 12. change (12 <=? 0) with false. cbv iota.
  rewrite while_true_S.
  rewrite (body_step_too_long rid record_length _ _ rsp3 d3)
    by (first [discriminate | assumption]).
  cbn [max_req_len retry req_reservation_id req_offset acc_record_data].
  change (12 - 4) with 8. change (8 <=? 0) with false. cbv iota.
  rewrite while_true_S.
  rewrite (body_step_too_long rid record_length _ _ rsp4 d4)
    by (first [discriminate | assumption]).
  cbn [max_req_len retry req_reservation_id req_offset acc_record_data].
  change (8 - 4) with 4. change (4 <=? 0) with false. cbv iota.
  rewrite while_true_S. fold offset. cbn [slept dev]. rewrite Hlast.
  rewrite while_true_S. reflexivity.
Qed.

(** A body read answered with completion code 0 and no bytes changes
    nothing: the same read is sent again, no attempt is used up and
    nothing is slept.  Against a device that keeps answering so the body
    loop of [get_sdr] never ends. *)
Theorem body_loop_spins_on_empty_answers
    (stuck : Dev -> Prop) (rid record_length : Z) (st : body_state)
    (w : World) (fuel : nat) :
  CC_CANT_RET_NUM_REQ_BYTES <> 0 ->
  CC_RES_CANCELED <> 0 ->
  retry st <> 0 ->
  req_offset st = Z.of_nat (List.length (acc_record_data st)) ->
  Z.of_nat (List.length (acc_record_data st)) < record_length ->
  (forall d,
      stuck d ->
      let answer :=
        send_message
          (GetDeviceSdr (req_reservation_id st) rid (req_offset st)
             (Z.min (max_req_len st) (record_length - req_offset st))) d in
      completion_code (fst answer) = 0
      /\ record_data (fst answer) = []
      /\ stuck (snd answer)) ->
  stuck (dev w) ->
  exists w',
    while_true fuel (body_step rid record_length) st w = (Ok None, w')
    /\ slept w' = slept w
    /\ stuck (dev w').
Proof.
  intros Hcant Hres Hretry Hoff Hlen Hdev. revert w.
  induction fuel as [| fuel IH]; intros w Hw.
  - exists w. cbn [while_true]. unfold ret. auto.
  - cbn [while_true]. unfold bind at 1.
    destruct (send_message
                (GetDeviceSdr (req_reservation_id st) rid (req_offset st)
                   (Z.min (max_req_len st) (record_length - req_offset st))) (dev w))
      as [rsp d] eqn:Hsend.
    pose proof (Hdev (dev w) Hw) as Hanswer. cbv zeta in Hanswer.
    rewrite Hsend in Hanswer. cbn [fst snd] in Hanswer.
    destruct Hanswer as (Hcc & Hdata & Hd).
    rewrite (body_step_success rid record_length st w rsp d Hretry Hcant Hres
               Hsend Hcc).
    cbv zeta. rewrite Hdata, app_nil_r.
    destruct (Z.geb_spec (Z.of_nat (List.length (acc_record_data st))) record_length)
      as [Hge | _]; [lia |].
    rewrite <- Hoff.
    replace {| retry := retry st; max_req_len := max_req_len st;
               req_reservation_id := req_reservation_id st;
               req_offset := req_offset st;
               acc_record_data := acc_record_data st |} with st
      by (destruct st; reflexivity).
    destruct (IH {| dev := d; slept := slept w |} Hd) as (w' & Hrun & Hslept & Hstuck).
    exists w'. split; [exact Hrun |]. split; [exact Hslept | exact Hstuck].
Qed.

End Loops.

Lemma header_phase_ends_witness :
  fst (@while_true _ _ _ 9 (@header_step scripted ipmi_constants 10)
         {| h_retry := 5; h_reservation_id := 7 |}
         (script_world (replicate 5 (response 0xce))))
  = Raise RetryError
  /\ fst (@while_true _ _ _ 9 (@header_step scripted ipmi_constants 10)
            {| h_retry := 5; h_reservation_id := 7 |}
            (script_world [response 0xce; response 0xc1]))
     = Raise (CompletionCodeError 0xc1).
Proof.
  split.
  - rewrite (proj1 (@header_phase_ends scripted ipmi_constants 10 7
                      (script_world (replicate 5 (response 0xce))) 9 ltac:(lia))).
    vm_compute. reflexivity.
  - rewrite (proj1 (@header_phase_ends scripted ipmi_constants 10 7
                      (script_world [response 0xce; response 0xc1]) 9 ltac:(lia))).
    vm_compute. reflexivity.
Defined.

Lemma body_phase_gives_up_after_five_refusals_witness :
  @while_true _ _ _ 6 (@body_step scripted ipmi_constants 10 52)
    (body_start 7 (take 5 example_record)) (script_world refusals_script)
  = (Raise RetryError,
     {| dev := ([], [ GetDeviceSdr 7 10 5 20; GetDeviceSdr 7 10 5 16;
                      GetDeviceSdr 7 10 5 12; GetDeviceSdr 7 10 5 8;
                      GetDeviceSdr 7 10 5 4 ])
               : @Dev scripted;
        slept := [] |}).
Proof.
  apply (@body_phase_gives_up_after_five_refusals scripted ipmi_constants
           10 7 52 (take 5 example_record) (script_world refusals_script)
           (response 0xca) (response 0xca) (response 0xca) (response 0xca)
           (response 0xca)
           (replicate 4 (response 0xca), [GetDeviceSdr 7 10 5 20])
           (replicate 3 (response 0xca),
            [GetDeviceSdr 7 10 5 20; GetDeviceSdr 7 10 5 16])
           (replicate 2 (response 0xca),
            [GetDeviceSdr 7 10 5 20; GetDeviceSdr 7 10 5 16; GetDeviceSdr 7 10 5 12])
           (replicate 1 (response 0xca),
            [GetDeviceSdr 7 10 5 20; GetDeviceSdr 7 10 5 16; GetDeviceSdr 7 10 5 12;
             GetDeviceSdr 7 10 5 8])
           ([],
            [GetDeviceSdr 7 10 5 20; GetDeviceSdr 7 10 5 16; GetDeviceSdr 7 10 5 12;
             GetDeviceSdr 7 10 5 8; GetDeviceSdr 7 10 5 4])
           6).
  - reflexivity.
  - reflexivity.
  - reflexivity.
  - reflexivity.
  - reflexivity.
  - repeat constructor.
  - lia.
Defined.

Lemma body_loop_spins_on_empty_answers_witness :
  exists w',
    @while_true _ _ _ 1000 (@body_step silent ipmi_constants 10 52)
      (body_start 7 (take 5 example_record)) (@Build_World silent tt [])
    = (Ok None, w')
    /\ @slept silent w' = []
    /\ True.
Proof.
  apply (@body_loop_spins_on_empty_answers silent ipmi_constants (fun _ => True)
           10 52 (body_start 7 (take 5 example_record))
           (@Build_World silent tt []) 1000).
  - discriminate.
  - discriminate.
  - discriminate.
  - reflexivity.
  - simpl. lia.
  - intros d _. repeat split.
  - exact I.
Defined.

(** ** Enumerating a faithful repository *)

(** A read leaves the records, the page limit and an empty plan as they
    are. *)
Lemma repository_read_keeps (rsv rid offset length : Z) (d : Repository) :
  plan d = [] ->
  records (snd (repository_send (GetDeviceSdr rsv rid offset length) d)) = records d
  /\ page_limit (snd (repository_send (GetDeviceSdr rsv rid offset length) d))
     = page_limit d
  /\ plan (snd (repository_send (GetDeviceSdr rsv rid offset length) d)) = [].
Proof. intros Hplan. simpl. rewrite Hplan. simpl. auto. Qed.

(** The body loop against a repository without faults, with the state in
    which it leaves the repository. *)
Lemma body_loop_pages_world (rid next : Z) (rec : list byte) (fuel : nat) :
  forall (st : body_state) (n : nat) (d : Repository) (s : list float),
    holds rid next rec d ->
    plan d = [] ->
    assembling rec st n ->
    retry st <> 0 ->
    Z.of_nat (List.length rec - n) + max_req_len st + 4 <= 4 * Z.of_nat fuel ->
    exists d',
      @while_true _ _ _ fuel
        (@body_step repository ipmi_constants rid (Z.of_nat (List.length rec))) st
        (repository_world d s)
      = (Ok (Some rec), repository_world d' s)
      /\ records d' = records d
      /\ page_limit d' = page_limit d
      /\ plan d' = [].
Proof.
  induction fuel as [| fuel IH]; intros st n d s Hd Hplan Hst Hretry Hfuel.
  - destruct Hst as (_ & _ & _ & Hmax & _). lia.
  - rewrite while_true_S.
    rewrite (served_body_step rid next rec st n d s Hd Hst Hretry (or_introl Hplan)).
    pose proof Hst as (Hacc & Hoff & Hn & Hmax & Hmod).
    pose proof (repository_read_keeps (req_reservation_id st) rid (Z.of_nat n)
                  (Z.min (max_req_len st) (Z.of_nat (List.length rec) - Z.of_nat n))
                  d Hplan) as (Hrecs & Hlimit & Hplan').
    destruct (_ >? page_limit d) eqn:Hlong.
    + match goal with
      | |- context [while_true fuel _ ?st' (repository_world ?d1 s)] =>
          destruct (IH st' n d1 s) as (d' & Hrun & H1 & H2 & H3)
      end.
      * apply holds_after, Hd.
      * exact Hplan'.
      * assert (max_req_len st <> 4).
        { apply Z.gtb_lt in Hlong. destruct Hd as [_ Hl]. lia. }
        pose proof (Z.div_mod (max_req_len st) 4 ltac:(lia)).
        repeat split; cbn [acc_record_data req_offset max_req_len]; try lia.
        rewrite <- Zminus_mod_idemp_l, Hmod. reflexivity.
      * exact Hretry.
      * cbn [max_req_len]. lia.
      * exists d'. split; [exact Hrun |]. rewrite H1, H2, Hrecs, Hlimit. auto.
    + destruct (Nat.leb_spec (List.length rec) (n + Z.to_nat (max_req_len st)))
        as [Hlast | Hmore].
      * eexists. split; [reflexivity |]. auto.
      * match goal with
        | |- context [while_true fuel _ ?st' (repository_world ?d1 s)] =>
            destruct (IH st' (n + Z.to_nat (max_req_len st))%nat d1 s)
              as (d' & Hrun & H1 & H2 & H3)
        end.
        -- apply holds_after, Hd.
        -- exact Hplan'.
        -- repeat split; cbn [acc_record_data req_offset max_req_len]; lia.
        -- exact Hretry.
        -- cbn [max_req_len]. lia.
        -- exists d'. split; [exact Hrun |]. rewrite H1, H2, Hrecs, Hlimit. auto.
Qed.

(** [get_sdr] against a repository without faults: the decoded record,
    and a repository that still holds the same records. *)
Lemma get_sdr_from_faithful (d : Repository) (s : list float) (rid rsv next : Z)
    (rec : list byte) (fuel : nat) :
  records d !! rid = Some (rec, next) ->
  5 <= page_limit d ->
  plan d = [] ->
  well_formed rec ->
  Z.of_nat (List.length rec) + 24 <= 4 * Z.of_nat fuel ->
  exists d',
    @get_sdr repository ipmi_constants fuel rid (Some rsv) (repository_world d s)
    = (decoded rec next, repository_world d' s)
    /\ records d' = records d
    /\ page_limit d' = page_limit d
    /\ plan d' = [].
Proof.
  intros Hrec Hlimit Hplan (c & Hc & HL) Hfuel.
  assert (Hlen : (5 <= List.length rec)%nat).
  { apply lookup_lt_Some in Hc. lia. }
  destruct fuel as [| fuel]; [lia |].
  set (d1 := snd (repository_send (GetDeviceSdr rsv rid 0 5) d)).
  pose proof (repository_read_keeps rsv rid 0 5 d Hplan) as (Hrecs1 & Hlimit1 & Hplan1).
  fold d1 in Hrecs1, Hlimit1, Hplan1.
  assert (Hheader :
    @send_message repository (GetDeviceSdr rsv rid 0 5) (dev (repository_world d s))
    = (sdr_rsp next (take 5 rec), d1)).
  { subst d1. simpl. unfold serve. rewrite Hplan.
    destruct (Z.gtb_spec 5 (page_limit d)); [lia |]. rewrite Hrec. reflexivity. }
  unfold get_sdr. unfold bind at 1. unfold ret at 1. unfold bind at 1.
  rewrite (@header_loop_success repository ipmi_constants fuel rid rsv
             (repository_world d s) (sdr_rsp next (take 5 rec)) d1 Hheader eq_refl).
  cbn [next_record_id record_data sdr_rsp].
  unfold bind at 1. unfold lift at 1.
  rewrite (pop_header_length rec c Hc), <- HL.
  unfold bind at 1.
  change (@Build_World repository d1 (slept (repository_world d s)))
    with (repository_world d1 s).
  destruct (body_loop_pages_world rid next rec (Datatypes.S fuel)
              (body_start rsv (take 5 rec)) 5%nat d1 s)
    as (d' & Hrun & Hrecs & Hlim & Hpl).
  - split; [rewrite Hrecs1; exact Hrec | lia].
  - exact Hplan1.
  - unfold assembling, body_start.
    cbn [acc_record_data req_offset max_req_len].
    rewrite length_take. repeat split; lia.
  - discriminate.
  - cbn [max_req_len body_start]. lia.
  - rewrite Hrun. exists d'.
    split; [| rewrite Hrecs, Hlim, Hrecs1, Hlimit1; auto].
    unfold ret, bind, lift, decoded.
    destruct (create_sdr rec (Some next)); reflexivity.
Qed.

Lemma well_formed_length (rec : list byte) :
  well_formed rec -> Z.of_nat (List.length rec) <= 260.
Proof. intros (c & _ & HL). pose proof (ord_range c). lia. Qed.

(** The loop of [sdr_entries] along a chain of a repository without
    faults. *)
Lemma sdr_entries_loop_chain (recs : gmap Z (list byte * Z)) (stop id : Z)
    (l : list (list byte * Z)) :
  chain recs stop id l ->
  stop = 0xffff \/ stop = 0 ->
  forall (ss : list Sdr) (d : Repository) (s : list float) (rsv : Z)
         (fuel gfuel : nat),
    records d = recs ->
    5 <= page_limit d ->
    plan d = [] ->
    Forall2 decodes_to l ss ->
    (List.length l <= fuel)%nat ->
    (71 <= gfuel)%nat ->
    exists d',
      @sdr_entries_loop repository (@get_sdr repository ipmi_constants gfuel)
        fuel rsv id (repository_world d s)
      = ({| yielded := ss;
            ended := Some (if stop =? 0 then Raise AttributeError else Ok tt) |},
         repository_world d' s).
Proof.
  intros Hchain Hstop.
  induction Hchain as [id rec Hid | id next rec l Hid Hnext Hnext0 Hchain IH];
    intros ss d s rsv fuel gfuel Hrecs Hlimit Hplan Hdec Hfuel Hgfuel.
  - apply Forall2_cons_inv_l in Hdec as (sdr & ss' & [Hwf Hsdr] & Hnil & ->).
    apply Forall2_nil_inv_l in Hnil as ->.
    cbn [fst snd] in Hwf, Hsdr.
    destruct fuel as [| fuel]; [simpl in Hfuel; lia |].
    pose proof (well_formed_length rec Hwf) as Hshort.
    destruct (get_sdr_from_faithful d s id rsv stop rec gfuel
                ltac:(rewrite Hrecs; exact Hid) Hlimit Hplan Hwf ltac:(lia))
      as (d' & Hrun & _).
    unfold decoded in Hrun. rewrite Hsdr in Hrun.
    cbn [sdr_entries_loop]. rewrite Hrun.
    rewrite (create_sdr_next_id rec (Some stop) sdr Hsdr).
    exists d'. destruct Hstop as [-> | ->]; reflexivity.
  - apply Forall2_cons_inv_l in Hdec as (sdr & ss' & [Hwf Hsdr] & Hrest & ->).
    cbn [fst snd] in Hwf, Hsdr.
    destruct fuel as [| fuel]; [simpl in Hfuel; lia |].
    pose proof (well_formed_length rec Hwf) as Hshort.
    destruct (get_sdr_from_faithful d s id rsv next rec gfuel
                ltac:(rewrite Hrecs; exact Hid) Hlimit Hplan Hwf ltac:(lia))
      as (d1 & Hrun & Hrecs1 & Hlimit1 & Hplan1).
    unfold decoded in Hrun. rewrite Hsdr in Hrun.
    destruct (IH ss' d1 s rsv fuel gfuel ltac:(congruence) ltac:(lia) Hplan1 Hrest
                ltac:(simpl in Hfuel; lia) Hgfuel) as (d' & Hloop).
    cbn [sdr_entries_loop]. rewrite Hrun.
    rewrite (create_sdr_next_id rec (Some next) sdr Hsdr).
    unfold SdrCommon.set_next_id, truthy.
    apply Z.eqb_neq in Hnext0. rewrite Hnext0. cbn [negb].
    apply Z.eqb_neq in Hnext. rewrite Hnext.
    rewrite Hloop. exists d'. reflexivity.
Qed.

(** The reservation that [sdr_entries] acquires from a repository. *)
Lemma repository_reservation (d : Repository) (s : list float) :
  exists d',
    @get_reservation_id repository (repository_world d s)
    = (Ok (issued d + 1), repository_world d' s)
    /\ records d' = records d
    /\ page_limit d' = page_limit d
    /\ plan d' = plan d.
Proof. eexists. split; [reflexivity |]. simpl. auto. Qed.

(** Against a repository without faults whose records are well formed and
    decodable and form a chain from record 0 to the first record with
    successor 0xFFFF, [get_sdr_list] returns the decoded records of the
    chain, in order. *)
Theorem get_sdr_list_enumerates_the_repository
    (d : Repository) (s : list float) (l : list (list byte * Z))
    (ss : list Sdr) (fuel : nat) :
  plan d = [] ->
  5 <= page_limit d ->
  chain (records d) 0xffff 0 l ->
  Forall2 decodes_to l ss ->
  (71 <= fuel)%nat ->
  (List.length l <= fuel)%nat ->
  fst (@get_sdr_list repository ipmi_constants fuel (repository_world d s))
  = Ok (Some ss).
Proof.
  intros Hplan Hlimit Hchain Hdec Hgfuel Hfuel.
  destruct (repository_reservation d s) as (d0 & Hrsv & Hrecs0 & Hlimit0 & Hplan0).
  destruct (sdr_entries_loop_chain (records d) 0xffff 0 l Hchain (or_introl eq_refl)
              ss d0 s (issued d + 1) fuel fuel Hrecs0 ltac:(lia)
              ltac:(congruence) Hdec Hfuel Hgfuel) as (d' & Hloop).
  unfold get_sdr_list, sdr_entries, sdr_entries_with.
  rewrite Hrsv, Hloop. reflexivity.
Qed.

(** When the chain from record 0 reaches a record whose successor is 0,
    that record has no [next_id]: [sdr_entries] yields the records up to
    and including it and then raises [AttributeError], and
    [get_sdr_list] raises [AttributeError]. *)
Theorem sdr_entries_stops_at_successor_zero
    (d : Repository) (s : list float) (l : list (list byte * Z))
    (ss : list Sdr) (fuel : nat) :
  plan d = [] ->
  5 <= page_limit d ->
  chain (records d) 0 0 l ->
  Forall2 decodes_to l ss ->
  (71 <= fuel)%nat ->
  (List.length l <= fuel)%nat ->
  fst (@sdr_entries repository ipmi_constants fuel (repository_world d s))
  = {| yielded := ss; ended := Some (Raise AttributeError) |}
  /\ fst (@get_sdr_list repository ipmi_constants fuel (repository_world d s))
     = Raise AttributeError.
Proof.
  intros Hplan Hlimit Hchain Hdec Hgfuel Hfuel.
  destruct (repository_reservation d s) as (d0 & Hrsv & Hrecs0 & Hlimit0 & Hplan0).
  destruct (sdr_entries_loop_chain (records d) 0 0 l Hchain (or_intror eq_refl)
              ss d0 s (issued d + 1) fuel fuel Hrecs0 ltac:(lia)
              ltac:(congruence) Hdec Hfuel Hgfuel) as (d' & Hloop).
  unfold get_sdr_list, sdr_entries, sdr_entries_with.
  rewrite Hrsv, Hloop. split; reflexivity.
Qed.

Lemma get_sdr_list_enumerates_the_repository_witness :
  exists s0 s5,
    fst (@get_sdr_list repository ipmi_constants 71
           (repository_world two_record_repository []))
    = Ok (Some [s0; s5])
    /\ sdr_type_of s0 = 0x01
    /\ next_id s0 = Some 5
    /\ sdr_type_of s5 = 0x12
    /\ next_id s5 = Some 0xffff.
Proof.
  do 2 eexists. split.
  - apply (get_sdr_list_enumerates_the_repository two_record_repository []
             [(example_record, 5); (mc_locator_bytes, 0xffff)]).
    + reflexivity.
    + simpl. lia.
    + apply chain_next; [reflexivity | discriminate | discriminate |].
      apply chain_last. reflexivity.
    + constructor; [| constructor; [| constructor]].
      * unfold decodes_to, well_formed. cbn [fst snd].
        split; [exists x2f; split; reflexivity | reflexivity].
      * unfold decodes_to, well_formed. cbn [fst snd].
        split; [exists x0e; split; reflexivity | reflexivity].
    + lia.
    + simpl. lia.
  - repeat split; reflexivity.
Defined.

Lemma sdr_entries_stops_at_successor_zero_witness :
  exists s0 s5,
    fst (@sdr_entries repository ipmi_constants 71
           (repository_world zero_successor_repository []))
    = {| yielded := [s0; s5]; ended := Some (Raise AttributeError) |}
    /\ fst (@get_sdr_list repository ipmi_constants 71
              (repository_world zero_successor_repository []))
       = Raise AttributeError
    /\ next_id s0 = Some 5
    /\ next_id s5 = None.
Proof.
  assert (Hchain : chain (records zero_successor_repository) 0 0
                     [(example_record, 5); (mc_locator_bytes, 0)]).
  { apply chain_next; [reflexivity | discriminate | discriminate |].
    apply chain_last. reflexivity. }
  pose proof (fun ss Hdec =>
                sdr_entries_stops_at_successor_zero zero_successor_repository []
                  [(example_record, 5); (mc_locator_bytes, 0)] ss 71
                  eq_refl ltac:(simpl; lia) Hchain Hdec ltac:(lia) ltac:(simpl; lia))
    as Hboth.
  edestruct Hboth as [Hentries Hlist].
  - constructor; [| constructor; [| constructor]].
    + unfold decodes_to, well_formed. cbn [fst snd].
      split; [exists x2f; split; reflexivity | reflexivity].
    + unfold decodes_to, well_formed. cbn [fst snd].
      split; [exists x0e; split; reflexivity | reflexivity].
  - do 2 eexists. split; [exact Hentries |]. split; [exact Hlist |].
    split; reflexivity.
Defined.

(** ** Setting thresholds *)

Section SetSensorThresholdsProperties.
Context `{ThresholdTransport}.

(** One conditional assignment, seen from an attribute name. *)
Lemma set_threshold_lookup (k : string) (value : option Z)
    (req : SetSensorThresholdReq.t) (name : string) :
  SetSensorThresholdReq.sensor_number (set_threshold k value req)
  = SetSensorThresholdReq.sensor_number req
  /\ SetSensorThresholdReq.threshold (set_threshold k value req) !! name
     = match (if String.eqb name k then value else None) with
       | Some v => Some v
       | None => SetSensorThresholdReq.threshold req !! name
       end
  /\ SetSensorThresholdReq.set_mask (set_threshold k value req) !! name
     = match (if String.eqb name k then value else None) with
       | Some _ => Some 1
       | None => SetSensorThresholdReq.set_mask req !! name
       end.
Proof.
  destruct value as [v |]; simpl.
  - split; [reflexivity |].
    destruct (String.eqb_spec name k) as [-> | Hne].
    + rewrite !lookup_insert_eq. split; reflexivity.
    + rewrite !lookup_insert_ne by congruence. split; reflexivity.
  - destruct (String.eqb name k); repeat split; reflexivity.
Qed.

(** [set_sensor_thresholds] sends one request.  The request carries the
    sensor number; for every threshold that was supplied (an argument
    that is not [None], 0 included) it has the mask bit 1 and the value,
    and every other attribute of [set_mask] and [threshold] is as
    [create_request_by_name] left it.  The call returns normally when the
    completion code of the answer is 0 and raises [CompletionCodeError]
    with the code otherwise. *)
Theorem set_sensor_thresholds_request
    (n : Z) (unr ucr unc lnc lcr lnr : option Z) (w : World) :
  exists req,
    set_sensor_thresholds n unr ucr unc lnc lcr lnr w
    = (let (rsp, d) := send_set_sensor_threshold req (dev w) in
       (if completion_code rsp =? 0 then Ok tt
        else Raise (CompletionCodeError (completion_code rsp)),
        {| dev := d; slept := slept w |}))
    /\ SetSensorThresholdReq.sensor_number req = n
    /\ forall name,
         SetSensorThresholdReq.threshold req !! name
         = match supplied unr ucr unc lnc lcr lnr name with
           | Some v => Some v
           | None =>
               SetSensorThresholdReq.threshold create_set_sensor_threshold !! name
           end
         /\ SetSensorThresholdReq.set_mask req !! name
            = match supplied unr ucr unc lnc lcr lnr name with
              | Some _ => Some 1
              | None =>
                  SetSensorThresholdReq.set_mask create_set_sensor_threshold !! name
              end.
Proof.
  exists (set_threshold "lnr" lnr
            (set_threshold "lcr" lcr
               (set_threshold "lnc" lnc
                  (set_threshold "unc" unc
                     (set_threshold "ucr" ucr
                        (set_threshold "unr" unr
                           {| SetSensorThresholdReq.sensor_number := n;
                              SetSensorThresholdReq.set_mask :=
                                SetSensorThresholdReq.set_mask
                                  create_set_sensor_threshold;
                              SetSensorThresholdReq.threshold :=
                                SetSensorThresholdReq.threshold
                                  create_set_sensor_threshold |})))))).
  split; [| split].
  - unfold set_sensor_thresholds, bind, lift, check_completion_code. cbv zeta.
    destruct (send_set_sensor_threshold _ (dev w)) as [rsp d]. reflexivity.
  - repeat match goal with
           | |- SetSensorThresholdReq.sensor_number (set_threshold ?k ?v ?r) = _ =>
               rewrite (proj1 (set_threshold_lookup k v r EmptyString))
           end.
    reflexivity.
  - intros name.
    repeat match goal with
           | |- context [SetSensorThresholdReq.threshold (set_threshold ?k ?v ?r) !! name] =>
               rewrite (proj1 (proj2 (set_threshold_lookup k v r name)))
           | |- context [SetSensorThresholdReq.set_mask (set_threshold ?k ?v ?r) !! name] =>
               rewrite (proj2 (proj2 (set_threshold_lookup k v r name)))
           end.
    cbn [SetSensorThresholdReq.threshold SetSensorThresholdReq.set_mask].
    unfold supplied.
    destruct (String.eqb_spec name "unr") as [-> | _];
      [destruct unr, ucr, unc, lnc, lcr, lnr; split; reflexivity |].
    destruct (String.eqb_spec name "ucr") as [-> | _];
      [destruct ucr, unc, lnc, lcr, lnr; split; reflexivity |].
    destruct (String.eqb_spec name "unc") as [-> | _];
      [destruct unc, lnc, lcr, lnr; split; reflexivity |].
    destruct (String.eqb_spec name "lnc") as [-> | _];
      [destruct lnc, lcr, lnr; split; reflexivity |].
    destruct (String.eqb_spec name "lcr") as [-> | _];
      [destruct lcr, lnr; split; reflexivity |].
    destruct (String.eqb_spec name "lnr") as [-> | _];
      [destruct lnr; split; reflexivity |].
    split; reflexivity.
Qed.

End SetSensorThresholdsProperties.

(** ** The assertion states of a reading *)

Section States.
Context `{Transport}.

(** When both state masks are present, the first a byte, the assertion
    states [get_sensor_reading] returns are [states1 + 256 * states2], and
    both masks can be read back from them: the low byte is [states1] and
    the rest is [states2]. *)
Theorem get_sensor_reading_packs_states
    (n s1 s2 : Z) (w : World) (rsp : Response) (d : Dev) :
  send_message (GetSensorReading n) (dev w) = (rsp, d) ->
  completion_code rsp = 0 ->
  states1 rsp = Some s1 ->
  states2 rsp = Some s2 ->
  0 <= s1 < 256 ->
  0 <= s2 ->
  exists reading states,
    get_sensor_reading n w
    = (Ok (reading, Some states), {| dev := d; slept := slept w |})
    /\ states = s1 + 256 * s2
    /\ Z.land states 0xff = s1
    /\ Z.shiftr states 8 = s2.
Proof.
  intros Hsend Hcc H1 H2 Hs1 Hs2.
  unfold get_sensor_reading, bind, send, lift, check_completion_code.
  rewrite Hsend, Hcc, H1, H2. simpl.
  do 2 eexists. split; [reflexivity |].
  assert (Hsum : Z.lor s1 (Z.shiftl s2 8) = s1 + 256 * s2).
  { rewrite Z.shiftl_mul_pow2 by lia. change (2 ^ 8) with 256.
    rewrite <- Z.lxor_lor, <- Z.add_nocarry_lxor; [lia | |].
    all: apply Z.bits_inj'; intros i Hi; rewrite Z.land_spec, Z.bits_0;
      destruct (Z.lt_ge_cases i 8) as [Hlt | Hge].
    all: try (change 256 with (2 ^ 8);
              rewrite (Z.mul_pow2_bits_low s2 8 i) by lia; apply andb_false_r).
    all: rewrite (Z.bits_above_log2 s1 i); try reflexivity; try lia.
    all: destruct (Z.eq_dec s1 0) as [-> | Hnz]; [simpl; lia |];
      assert (Z.log2 s1 < 8) by (apply Z.log2_lt_pow2; lia); lia. }
  rewrite Hsum. split; [reflexivity |]. split.
  - change 0xff with (Z.ones 8). rewrite Z.land_ones by lia.
    change (2 ^ 8) with 256.
    symmetry. apply Z.mod_unique_pos with (q := s2); lia.
  - rewrite Z.shiftr_div_pow2 by lia. change (2 ^ 8) with 256.
    symmetry. apply Z.div_unique_pos with (r := s1); lia.
Qed.

End States.

Lemma get_sensor_reading_packs_states_witness :
  exists reading states,
    @get_sensor_reading scripted 7
      (script_world [reading_rsp 0x40 false (Some 0x81) (Some 0x02)])
    = (Ok (reading, Some states),
       {| dev := ([], [GetSensorReading 7]) : @Dev scripted; slept := [] |})
    /\ states = 0x0281
    /\ Z.land states 0xff = 0x81
    /\ Z.shiftr states 8 = 0x02.
Proof.
  apply (@get_sensor_reading_packs_states scripted 7 0x81 0x02
           (script_world [reading_rsp 0x40 false (Some 0x81) (Some 0x02)])
           (reading_rsp 0x40 false (Some 0x81) (Some 0x02))
           ([], [GetSensorReading 7])); first [reflexivity | lia].
Defined.

(** ** String forms *)

(** The two hexadecimal digits of a byte read back as the byte. *)
Lemma hex_digits_of_byte (c : byte) :
  hex_value (hex_digit (ord c / 16)) = Some (ord c / 16)
  /\ hex_value (hex_digit (ord c mod 16)) = Some (ord c mod 16)
  /\ Byte.of_N (Z.to_N (16 * (ord c / 16) + ord c mod 16)) = Some c.
Proof. destruct c; repeat split; reflexivity. Qed.

Lemma parse_hex_dump_byte (c : byte) (rest : string) :
  parse_hex_dump (fmt_02x (ord c) +:+ rest)
  = match rest with
    | EmptyString => Some [c]
    | String sep rest' =>
        if Ascii.eqb sep " "
        then match parse_hex_dump rest' with
             | Some bs => Some (c :: bs)
             | None => None
             end
        else None
    end.
Proof.
  destruct (hex_digits_of_byte c) as (Hhi & Hlo & Hbyte).
  unfold fmt_02x.
  change (String (hex_digit (ord c / 16)) (String (hex_digit (ord c mod 16)) EmptyString)
          +:+ rest)
    with (String (hex_digit (ord c / 16)) (String (hex_digit (ord c mod 16)) rest)).
  cbn [parse_hex_dump]. rewrite Hhi, Hlo, Hbyte. reflexivity.
Qed.

Lemma append_empty (s : string) : s +:+ EmptyString = s.
Proof.
  induction s as [| a s IH]; [reflexivity |].
  change (String a s +:+ EmptyString) with (String a (s +:+ EmptyString)).
  rewrite IH. reflexivity.
Qed.

(** The dump of [__str__] loses nothing: it reads back as the bytes. *)
Lemma parse_hex_dump_round_trip (data : list byte) :
  parse_hex_dump (hex_dump data) = Some data.
Proof.
  unfold hex_dump. induction data as [| c data IH]; [reflexivity |].
  destruct data as [| c' data'].
  - cbn [map join_space].
    rewrite <- (append_empty (fmt_02x (ord c))).
    apply parse_hex_dump_byte.
  - change (map (fun b => fmt_02x (ord b)) (c :: c' :: data'))
      with (fmt_02x (ord c) :: map (fun b => fmt_02x (ord b)) (c' :: data')).
    change (join_space (fmt_02x (ord c) :: map (fun b => fmt_02x (ord b)) (c' :: data')))
      with (fmt_02x (ord c)
            +:+ " " +:+ join_space (map (fun b => fmt_02x (ord b)) (c' :: data'))).
    rewrite parse_hex_dump_byte.
    change (" " +:+ join_space (map (fun b => fmt_02x (ord b)) (c' :: data')))
      with (String " " (join_space (map (fun b => fmt_02x (ord b)) (c' :: data')))).
    change (Ascii.eqb " " " ") with true. cbv iota. rewrite IH. reflexivity.
Qed.

(** Where the identifier string of each class starts. *)
Lemma full_id_string (data : list byte) (r : SdrFullSensorRecord.fields) :
  SdrFullSensorRecord.from_data data = Ok r ->
  SdrFullSensorRecord.device_id_string r = drop 48 data.
Proof. intros Hdec. full_decode Hdec Hlen. reflexivity. Qed.

Lemma compact_id_string (data : list byte) (r : SdrCompactSensorRecord.fields) :
  SdrCompactSensorRecord.from_data data = Ok r ->
  SdrCompactSensorRecord.device_id_string r = drop 32 data.
Proof.
  intros Hdec.
  destruct (Nat.le_gt_cases 32 (List.length data)) as [Hlen | Hlt];
    [| rewrite (compact_too_short data Hlt) in Hdec; discriminate Hdec].
  unfold SdrCompactSensorRecord.from_data, SdrCompactSensorRecord.parse in Hdec.
  pops_in Hdec. injection Hdec as <-. reflexivity.
Qed.

Lemma fru_id_string (data : list byte) (r : SdrFruDeviceLocator.fields) :
  SdrFruDeviceLocator.from_data data = Ok r ->
  SdrFruDeviceLocator.device_id_string r = drop 16 data.
Proof.
  intros Hdec.
  destruct (Nat.le_gt_cases 16 (List.length data)) as [Hlen | Hlt];
    [| rewrite (fru_too_short data Hlt) in Hdec; discriminate Hdec].
  unfold SdrFruDeviceLocator.from_data, SdrFruDeviceLocator.parse in Hdec.
  pops_in Hdec. injection Hdec as <-. reflexivity.
Qed.

Lemma mc_id_string (data : list byte)
    (r : SdrManagementContollerDeviceLocator.fields) :
  SdrManagementContollerDeviceLocator.from_data data = Ok r ->
  SdrManagementContollerDeviceLocator.device_id_string r = drop 16 data.
Proof.
  intros Hdec.
  destruct (Nat.le_gt_cases 16 (List.length data)) as [Hlen | Hlt];
    [| rewrite (mc_too_short data Hlt) in Hdec; discriminate Hdec].
  unfold SdrManagementContollerDeviceLocator.from_data,
    SdrManagementContollerDeviceLocator.parse in Hdec.
  pops_in Hdec. injection Hdec as <-. reflexivity.
Qed.

(** What a constructor that succeeded on a record with a fourth byte has
    stored. *)
Lemma constructor_Ok_inv {A B : Type} (from_data : list byte -> result A)
    (build : SdrCommon.t -> option A -> B) (data : list byte) (next : option Z)
    (o : B) :
  (0 < List.length data)%nat ->
  (let! c := SdrCommon.__init__ data next in
   let! a := init_body from_data data in
   Ok (build c a)) = Ok o ->
  exists c r,
    o = build c (Some r)
    /\ from_data data = Ok r
    /\ SdrCommon.data <$> SdrCommon.head c = Some data.
Proof.
  intros Hpos Ho.
  apply result_bind_Ok_inv in Ho as (c & Hc & Ho).
  apply result_bind_Ok_inv in Ho as (a & Ha & Ho). injection Ho as <-.
  rewrite init_body_nonempty in Ha by exact Hpos.
  apply result_bind_Ok_inv in Ha as (r & Hr & Ha). injection Ha as <-.
  apply common_init_Ok_inv in Hc as [_ Hhead]; [| exact Hpos].
  exists c, r. split; [reflexivity |]. split; [exact Hr |].
  rewrite Hhead. reflexivity.
Qed.

(** [str] of an object [create_sdr] returned never raises: every
    attribute [__str__] reads was set.  For an event-only record it is
    the fixed text; for the other classes it shows the identifier string,
    which is the record from the end of the parsed part on, padded to 16
    characters between double quotes, and then every byte of the record
    as two hexadecimal digits, from which the bytes can be read back. *)
Theorem str_of_created_record (data : list byte) (next : option Z) (s : Sdr) :
  create_sdr data next = Ok s ->
  exists n,
    minimum_length (sdr_type_of s) = Some n
    /\ str s = (if sdr_type_of s =? 0x03 then Ok "Not supported yet."
                else format_record (Some (drop n data)) (Some data))
    /\ parse_hex_dump (hex_dump data) = Some data.
Proof.
  unfold create_sdr. destruct (data !! 3%nat) as [c |] eqn:Hc; [| discriminate].
  assert (Hpos : (0 < List.length data)%nat) by (apply lookup_lt_Some in Hc; lia).
  repeat match goal with
         | |- (if ?b then _ else _) = _ -> _ => destruct b
         end; try discriminate.
  all: intros Hs; apply result_bind_Ok_inv in Hs as (o & Ho & Hs);
    injection Hs as <-.
  - apply constructor_Ok_inv in Ho as (co & r & -> & Hr & Hdata); [| exact Hpos].
    exists 48%nat. split; [reflexivity |].
    split; [| apply parse_hex_dump_round_trip].
    cbn. rewrite Hdata, (full_id_string data r Hr). reflexivity.
  - apply constructor_Ok_inv in Ho as (co & r & -> & Hr & Hdata); [| exact Hpos].
    exists 32%nat. split; [reflexivity |].
    split; [| apply parse_hex_dump_round_trip].
    cbn. rewrite Hdata, (compact_id_string data r Hr). reflexivity.
  - exists 5%nat. split; [reflexivity |].
    split; [reflexivity | apply parse_hex_dump_round_trip].
  - apply constructor_Ok_inv in Ho as (co & r & -> & Hr & Hdata); [| exact Hpos].
    exists 16%nat. split; [reflexivity |].
    split; [| apply parse_hex_dump_round_trip].
    cbn. rewrite Hdata, (fru_id_string data r Hr). reflexivity.
  - apply constructor_Ok_inv in Ho as (co & r & -> & Hr & Hdata); [| exact Hpos].
    exists 16%nat. split; [reflexivity |].
    split; [| apply parse_hex_dump_round_trip].
    cbn. rewrite Hdata, (mc_id_string data r Hr). reflexivity.
Qed.

Lemma str_of_created_record_witness :
  exists s,
    create_sdr mc_locator_bytes (Some 0xffff) = Ok s
    /\ str s
       = Ok ("[" +:+ String double_quote "BMC             "
             +:+ String double_quote
                   "] [04 00 51 12 0e 41 f7 00 bf 00 00 00 06 61 00 c3 42 4d 43]").
Proof.
  eexists. split; [reflexivity |].
  destruct (str_of_created_record mc_locator_bytes (Some 0xffff) _ eq_refl)
    as (n & Hn & Hstr & _).
  rewrite Hstr. injection Hn as <-. reflexivity.
Defined.

(** ** Back-off against a busy device *)

Section BackOff.
Context `{Transport} `{Constants}.

Lemma back_off_S (n : nat) :
  back_off (Datatypes.S n)
  = back_off n ++ [(tenth * float_of_Z (Z.of_nat (Datatypes.S n)))%float].
Proof.
  unfold back_off. rewrite seq_S, map_app. reflexivity.
Qed.

(** A header read answered "response could not be provided". *)
Lemma header_step_busy (rid : Z) (st : header_state) (w : World)
    (rsp : Response) (d : Dev) :
  h_retry st <> 0 ->
  CC_RESP_COULD_NOT_BE_PRV <> 0 ->
  CC_RESP_COULD_NOT_BE_PRV <> CC_RES_CANCELED ->
  send_message (GetDeviceSdr (h_reservation_id st) rid 0 5) (dev w) = (rsp, d) ->
  completion_code rsp = CC_RESP_COULD_NOT_BE_PRV ->
  header_step rid st w
  = (Ok (inl {| h_retry := h_retry st - 1;
                h_reservation_id := h_reservation_id st |}),
     {| dev := d; slept := (tenth * float_of_Z (h_retry st))%float :: slept w |}).
Proof.
  intros Hretry H0' Hne Hsend Hcc. unfold header_step.
  apply Z.eqb_neq in Hretry. rewrite Hretry. unfold bind at 1.
  rewrite (send_answer _ _ _ _ Hsend), Hcc.
  apply Z.eqb_neq in H0', Hne. rewrite H0', Hne, Z.eqb_refl. reflexivity.
Qed.

(** A body read answered 0xce. *)
Lemma body_step_busy (rid record_length : Z) (st : body_state) (w : World)
    (rsp : Response) (d : Dev) :
  retry st <> 0 ->
  CC_CANT_RET_NUM_REQ_BYTES <> 0xce ->
  CC_RES_CANCELED <> 0xce ->
  send_message
    (GetDeviceSdr (req_reservation_id st) rid (req_offset st)
       (Z.min (max_req_len st) (record_length - req_offset st))) (dev w)
  = (rsp, d) ->
  completion_code rsp = 0xce ->
  body_step rid record_length st w
  = (Ok (inl {| retry := retry st - 1;
                max_req_len := max_req_len st;
                req_reservation_id := req_reservation_id st;
                req_offset := req_offset st;
                acc_record_data := acc_record_data st |}),
     {| dev := d; slept := (tenth * float_of_Z (retry st))%float :: slept w |}).
Proof.
  intros Hretry Hcant Hres Hsend Hcc. unfold body_step.
  apply Z.eqb_neq in Hretry. rewrite Hretry.
  rewrite request_length_min. unfold bind at 1.
  rewrite (send_answer _ _ _ _ Hsend), Hcc.
  assert (Hc : (0xce =? CC_CANT_RET_NUM_REQ_BYTES) = false) by (apply Z.eqb_neq; lia).
  assert (Hr : (0xce =? CC_RES_CANCELED) = false) by (apply Z.eqb_neq; lia).
  rewrite Hc, Hr. reflexivity.
Qed.

Lemma header_loop_busy (n : nat) :
  forall (busy : Dev -> Prop) (rid : Z) (st : header_state) (w : World) (fuel : nat),
    CC_RESP_COULD_NOT_BE_PRV <> 0 ->
    CC_RESP_COULD_NOT_BE_PRV <> CC_RES_CANCELED ->
    (forall rsv d,
        busy d ->
        completion_code (fst (send_message (GetDeviceSdr rsv rid 0 5) d))
        = CC_RESP_COULD_NOT_BE_PRV
        /\ busy (snd (send_message (GetDeviceSdr rsv rid 0 5) d))) ->
    busy (dev w) ->
    h_retry st = Z.of_nat n ->
    (n < fuel)%nat ->
    exists w',
      while_true fuel (header_step rid) st w = (Raise RetryError, w')
      /\ slept w' = back_off n ++ slept w
      /\ busy (dev w').
Proof.
  induction n as [| n IH];
    intros busy rid st w fuel H0' Hne Hdev Hw Hretry Hfuel;
    (destruct fuel as [| fuel]; [lia |]); rewrite while_true_S.
  - unfold header_step. rewrite Hretry. simpl. exists w. auto.
  - destruct (send_message (GetDeviceSdr (h_reservation_id st) rid 0 5) (dev w))
      as [rsp d] eqn:Hsend.
    pose proof (Hdev (h_reservation_id st) (dev w) Hw) as [Hcc Hd].
    rewrite Hsend in Hcc, Hd. cbn [fst snd] in Hcc, Hd.
    rewrite (header_step_busy rid st w rsp d ltac:(lia) H0' Hne Hsend Hcc).
    destruct (IH busy rid {| h_retry := h_retry st - 1;
                             h_reservation_id := h_reservation_id st |}
                {| dev := d; slept := (tenth * float_of_Z (h_retry st))%float :: slept w |}
                fuel H0' Hne Hdev Hd ltac:(cbn [h_retry]; lia) ltac:(lia))
      as (w' & Hrun & Hslept & Hbusy).
    exists w'. split; [exact Hrun |]. split; [| exact Hbusy].
    rewrite Hslept. cbn [slept]. rewrite back_off_S, <- app_assoc, Hretry.
    reflexivity.
Qed.

Lemma body_loop_busy (n : nat) :
  forall (busy : Dev -> Prop) (rid record_length : Z) (st : body_state) (w : World)
         (fuel : nat),
    CC_CANT_RET_NUM_REQ_BYTES <> 0xce ->
    CC_RES_CANCELED <> 0xce ->
    (forall rsv length d,
        busy d ->
        completion_code
          (fst (send_message (GetDeviceSdr rsv rid (req_offset st) length) d))
        = 0xce
        /\ busy (snd (send_message (GetDeviceSdr rsv rid (req_offset st) length) d))) ->
    busy (dev w) ->
    retry st = Z.of_nat n ->
    (n < fuel)%nat ->
    exists w',
      while_true fuel (body_step rid record_length) st w = (Raise RetryError, w')
      /\ slept w' = back_off n ++ slept w
      /\ busy (dev w').
Proof.
  induction n as [| n IH];
    intros busy rid record_length st w fuel Hcant Hres Hdev Hw Hretry Hfuel;
    (destruct fuel as [| fuel]; [lia |]); rewrite while_true_S.
  - unfold body_step. rewrite Hretry. simpl. exists w. auto.
  - destruct (send_message
                (GetDeviceSdr (req_reservation_id st) rid (req_offset st)
                   (Z.min (max_req_len st) (record_length - req_offset st))) (dev w))
      as [rsp d] eqn:Hsend.
    pose proof (Hdev (req_reservation_id st)
                  (Z.min (max_req_len st) (record_length - req_offset st)) (dev w) Hw)
      as [Hcc Hd].
    rewrite Hsend in Hcc, Hd. cbn [fst snd] in Hcc, Hd.
    rewrite (body_step_busy rid record_length st w rsp d ltac:(lia) Hcant Hres
               Hsend Hcc).
    destruct (IH busy rid record_length
                {| retry := retry st - 1; max_req_len := max_req_len st;
                   req_reservation_id := req_reservation_id st;
                   req_offset := req_offset st;
                   acc_record_data := acc_record_data st |}
                {| dev := d; slept := (tenth * float_of_Z (retry st))%float :: slept w |}
                fuel Hcant Hres Hdev Hd ltac:(cbn [retry]; lia) ltac:(lia))
      as (w' & Hrun & Hslept & Hbusy).
    exists w'. split; [exact Hrun |]. split; [| exact Hbusy].
    rewrite Hslept. cbn [slept]. rewrite back_off_S, <- app_assoc, Hretry.
    reflexivity.
Qed.

(** Against a device that answers every header read with "response could
    not be provided", the header phase of [get_sdr] uses up its five
    attempts and raises [RetryError], having slept a shorter time before
    each new attempt: 0.5, 0.4, 0.3, 0.2 and 0.1 seconds. *)
Theorem header_phase_back_off
    (busy : Dev -> Prop) (rid rsv : Z) (w : World) (fuel : nat) :
  CC_RESP_COULD_NOT_BE_PRV <> 0 ->
  CC_RESP_COULD_NOT_BE_PRV <> CC_RES_CANCELED ->
  (forall rsv d,
      busy d ->
      completion_code (fst (send_message (GetDeviceSdr rsv rid 0 5) d))
      = CC_RESP_COULD_NOT_BE_PRV
      /\ busy (snd (send_message (GetDeviceSdr rsv rid 0 5) d))) ->
  busy (dev w) ->
  (6 <= fuel)%nat ->
  exists w',
    while_true fuel (header_step rid) {| h_retry := 5; h_reservation_id := rsv |} w
    = (Raise RetryError, w')
    /\ slept w' = back_off 5 ++ slept w.
Proof.
  intros H0' Hne Hdev Hw Hfuel.
  destruct (header_loop_busy 5 busy rid {| h_retry := 5; h_reservation_id := rsv |}
              w fuel H0' Hne Hdev Hw eq_refl ltac:(lia)) as (w' & Hrun & Hslept & _).
  exists w'. auto.
Qed.

(** Against a device that answers every body read with completion code
    0xce, the body phase of [get_sdr] uses up its twenty attempts and
    raises [RetryError], having slept 2.0, 1.9, ..., 0.1 seconds, one
    tenth of a second less before each new attempt. *)
Theorem body_phase_back_off
    (busy : Dev -> Prop) (rid rsv record_length : Z) (header : list byte)
    (w : World) (fuel : nat) :
  CC_CANT_RET_NUM_REQ_BYTES <> 0xce ->
  CC_RES_CANCELED <> 0xce ->
  (forall rsv length d,
      busy d ->
      completion_code
        (fst (send_message
                (GetDeviceSdr rsv rid (Z.of_nat (List.length header)) length) d))
      = 0xce
      /\ busy (snd (send_message
                      (GetDeviceSdr rsv rid (Z.of_nat (List.length header)) length)
                      d))) ->
  busy (dev w) ->
  (21 <= fuel)%nat ->
  exists w',
    while_true fuel (body_step rid record_length) (body_start rsv header) w
    = (Raise RetryError, w')
    /\ slept w' = back_off 20 ++ slept w.
Proof.
  intros Hcant Hres Hdev Hw Hfuel.
  destruct (body_loop_busy 20 busy rid record_length (body_start rsv header)
              w fuel Hcant Hres Hdev Hw eq_refl ltac:(lia))
    as (w' & Hrun & Hslept & _).
  exists w'. auto.
Qed.

End BackOff.

Lemma header_phase_back_off_witness :
  exists w',
    @while_true _ _ _ 6 (@header_step (refusing 0xce) ipmi_constants 10)
      {| h_retry := 5; h_reservation_id := 7 |} (@Build_World (refusing 0xce) tt [])
    = (Raise RetryError, w')
    /\ @slept (refusing 0xce) w'
       = [ (tenth * 1)%float; (tenth * 2)%float; (tenth * 3)%float;
           (tenth * 4)%float; (tenth * 5)%float ].
Proof.
  destruct (@header_phase_back_off (refusing 0xce) ipmi_constants (fun _ => True)
              10 7 (@Build_World (refusing 0xce) tt []) 6)
    as (w' & Hrun & Hslept).
  - discriminate.
  - discriminate.
  - intros rsv d _. split; [reflexivity | exact I].
  - exact I.
  - lia.
  - exists w'. split; [exact Hrun |]. rewrite Hslept. vm_compute. reflexivity.
Defined.

Lemma body_phase_back_off_witness :
  exists w',
    @while_true _ _ _ 21 (@body_step (refusing 0xce) ipmi_constants 10 52)
      (body_start 7 (take 5 example_record)) (@Build_World (refusing 0xce) tt [])
    = (Raise RetryError, w')
    /\ List.length (@slept (refusing 0xce) w') = 20%nat
    /\ head (@slept (refusing 0xce) w') = Some (tenth * 1)%float
    /\ last (@slept (refusing 0xce) w') = Some (tenth * 20)%float.
Proof.
  pose proof (@body_phase_back_off (refusing 0xce) ipmi_constants (fun _ => True)
              10 7 52 (take 5 example_record) (@Build_World (refusing 0xce) tt []) 21) as Hb.
  destruct Hb as (w' & Hrun & Hslept).
  - discriminate.
  - discriminate.
  - intros rsv length d _. split; [reflexivity | exact I].
  - exact I.
  - lia.
  - exists w'. split; [exact Hrun |]. rewrite Hslept.
    split; [vm_compute; reflexivity |].
    split; vm_compute; reflexivity.
Defined.

(** ** Surplus bytes *)

Section Surplus.
Context `{Transport} `{Constants}.

(** [get_sdr] compares the number of bytes it has with the announced
    record length only from below: when the answer to the body read
    brings at least the bytes that were missing, every byte of the answer
    is kept and handed to [create_sdr], also those beyond the announced
    length and beyond the number of bytes asked for. *)
Theorem get_sdr_keeps_surplus_bytes
    (fuel : nat) (rid rsv : Z) (w : World) (header : list byte) (c : byte)
    (rsp1 rsp2 : Response) (d1 d2 : Dev) :
  CC_CANT_RET_NUM_REQ_BYTES <> 0 ->
  CC_RES_CANCELED <> 0 ->
  send_message (GetDeviceSdr rsv rid 0 5) (dev w) = (rsp1, d1) ->
  completion_code rsp1 = 0 ->
  record_data rsp1 = header ->
  List.length header = 5%nat ->
  header !! 4%nat = Some c ->
  send_message (GetDeviceSdr rsv rid 5 (Z.min 20 (ord c + 5 - 5))) d1 = (rsp2, d2) ->
  completion_code rsp2 = 0 ->
  ord c <= Z.of_nat (List.length (record_data rsp2)) ->
  (1 <= fuel)%nat ->
  get_sdr fuel rid (Some rsv) w
  = (decoded (header ++ record_data rsp2) (next_record_id rsp1),
     {| dev := d2; slept := slept w |}).
Proof.
  intros Hcant Hres Hsend1 Hcc1 Hdata1 Hlen Hc Hsend2 Hcc2 Henough Hfuel.
  destruct fuel as [| fuel]; [lia |].
  unfold get_sdr. unfold bind at 1. unfold ret at 1. unfold bind at 1.
  rewrite (header_loop_success fuel rid rsv w rsp1 d1 Hsend1 Hcc1).
  rewrite Hdata1. unfold bind at 1. unfold lift at 1.
  assert (Hpop : fst (pop_header header) = Ok (ord c + 5)).
  { rewrite <- (pop_header_length header c Hc).
    rewrite take_ge by lia. reflexivity. }
  rewrite Hpop. unfold bind at 1. rewrite while_true_S.
  rewrite (body_step_success rid (ord c + 5) (body_start rsv header)
             {| dev := d1; slept := slept w |} rsp2 d2)
    by (cbn [retry max_req_len req_reservation_id req_offset body_start dev];
        first [discriminate | assumption | rewrite Hlen; assumption]).
  cbn [acc_record_data body_start slept]. cbv zeta.
  rewrite length_app, Hlen.
  destruct (Z.geb_spec (Z.of_nat (5 + List.length (record_data rsp2))) (ord c + 5))
    as [_ | Hlt]; [| lia].
  unfold bind, lift, ret, decoded.
  destruct (create_sdr (header ++ record_data rsp2) (Some (next_record_id rsp1)));
    reflexivity.
Qed.

End Surplus.

Lemma get_sdr_keeps_surplus_bytes_witness :
  exists s r,
    fst (@get_sdr scripted ipmi_constants 1 10 (Some 7) (script_world surplus_script))
    = Ok (Some s)
    /\ s = FullSensorRecord r
    /\ (SdrFullSensorRecord.device_id_string <$> SdrFullSensorRecord.attrs r)
       = Some ([x54; x65; x6d; x70] ++ replicate 13 x21)
    /\ (SdrCommon.lenght <$> SdrCommon.head (SdrFullSensorRecord.common r)) = Some 47.
Proof.
  do 2 eexists. split.
  - rewrite (@get_sdr_keeps_surplus_bytes scripted ipmi_constants 1 10 7
               (script_world surplus_script) (take 5 example_record) x2f
               (sdr_rsp 9 (take 5 example_record))
               (sdr_rsp 0 (drop 5 example_record ++ replicate 13 x21))
               ([sdr_rsp 0 (drop 5 example_record ++ replicate 13 x21)],
                [GetDeviceSdr 7 10 0 5])
               ([], [GetDeviceSdr 7 10 0 5; GetDeviceSdr 7 10 5 20])).
    + vm_compute. reflexivity.
    + discriminate.
    + discriminate.
    + reflexivity.
    + reflexivity.
    + reflexivity.
    + reflexivity.
    + reflexivity.
    + reflexivity.
    + reflexivity.
    + vm_compute. discriminate.
    + lia.
  - split; [reflexivity |]. split; reflexivity.
Defined.

(** ** The reciprocal of a zero reading *)

Lemma zero_reading_checks :
  let powers := map (fun k => float_of_Z (10 ^ Z.of_nat k)) (seq 0 8) in
  forallb (fun mf => forallb (zero_reading_check mf) powers) (floats 0 1024) = true.
Proof. vm_compute. reflexivity. Qed.

Lemma zero_reading_check_holds (m k : Z) :
  0 <= m < 1024 -> 0 <= k < 8 ->
  zero_reading_check (float_of_Z m) (float_of_Z (10 ^ k)) = true.
Proof.
  intros Hm Hk. pose proof zero_reading_checks as Hall.
  cbv zeta in Hall. rewrite forallb_forall in Hall.
  specialize (Hall (float_of_Z m) (floats_in 0 1024 m ltac:(lia))).
  rewrite forallb_forall in Hall. apply Hall.
  apply in_map_iff. exists (Z.to_nat k).
  split; [rewrite Z2Nat.id by lia; reflexivity | apply in_seq; lia].
Qed.

Section Reciprocal.
Context `{MathModule}.

(** A zero reading of a sensor with the linearization 1/x and no offset
    ([b = 0], [k1] and [k2] not negative) has no value: the converter
    computes [1.0 / 0.0], which raises [ZeroDivisionError], whatever the
    analog data format and [m] are. *)
Theorem reciprocal_of_a_zero_reading
    (data : list byte) (self : SdrFullSensorRecord.fields) :
  SdrFullSensorRecord.from_data data = Ok self ->
  SdrFullSensorRecord.linearization self = SdrFullSensorRecord.L_1_X ->
  SdrFullSensorRecord.b self = 0 ->
  0 <= SdrFullSensorRecord.k1 self ->
  0 <= SdrFullSensorRecord.k2 self ->
  SdrFullSensorRecord.convert_sensor_raw_to_value self 0 = Raise ZeroDivisionError.
Proof.
  intros Hdec Hlin Hb Hk1 Hk2.
  pose proof (full_record_coefficient_ranges data self Hdec) as Hr.
  pose proof Hr as [_ _ Hm _ _ Hk2r].
  pose proof (zero_reading_check_holds (SdrFullSensorRecord.m self)
                (SdrFullSensorRecord.k2 self) Hm ltac:(lia)) as Hzero.
  unfold zero_reading_check in Hzero.
  assert (Hoffset : offset_term self = 0%float).
  { unfold offset_term. destruct (Z.leb_spec 0 (SdrFullSensorRecord.k1 self)); [| lia].
    rewrite Hb. apply float_of_Z_0. }
  unfold SdrFullSensorRecord.convert_sensor_raw_to_value. cbv zeta.
  assert (Hraw :
    (if SdrFullSensorRecord.analog_data_format self
        =? SdrFullSensorRecord.DATA_FMT_1S_COMPLEMENT
     then if truthy (Z.land 0 0x80) then - (Z.lxor (Z.land 0 0x7f) 0x7f) else 0
     else if SdrFullSensorRecord.analog_data_format self
             =? SdrFullSensorRecord.DATA_FMT_2S_COMPLEMENT
          then if truthy (Z.land 0 0x80)
               then - (Z.lxor (Z.land 0 0x7f) 0x7f) - 1 else 0
          else 0) = 0)
    by (destruct (_ =? _); [| destruct (_ =? _)]; reflexivity).
  rewrite Hraw.
  change (float_of_int 0) with (Ok (float_of_Z 0)). rewrite float_of_Z_0.
  cbn [result_bind]. rewrite l_is_table_lookup. cbv zeta.
  rewrite Hlin.
  change (linearizations !! Z.to_nat (Z.land SdrFullSensorRecord.L_1_X 0x7f))
    with (Some (fun x : float => py_float_div 1 (PyFloat x))).
  cbn [result_bind].
  unfold py_mul at 1. cbn [py_arith to_float].
  rewrite float_of_int_small by (assert (2 ^ 10 < 2 ^ 64) by reflexivity; lia).
  cbn [result_bind].
  pose proof (offset_term_code self PrimFloat.add Z.add
                (float_of_Z (SdrFullSensorRecord.m self) * 0)%float Hr) as Hoff.
  unfold result_bind in Hoff |- *. unfold py_add.
  destruct (py_mul (PyInt (SdrFullSensorRecord.b self))
              (py_pow10 (SdrFullSensorRecord.k1 self))) as [bk | e];
    [| discriminate Hoff].
  rewrite Hoff, Hoffset. rewrite float_pow10_code by lia.
  cbn [to_float]. unfold float_pow10.
  destruct (Z.leb_spec 0 (SdrFullSensorRecord.k2 self)) as [_ | Hneg]; [| lia].
  unfold py_float_div. cbn [to_float result_bind]. rewrite Hzero. reflexivity.
Qed.

End Reciprocal.

Lemma reciprocal_of_a_zero_reading_witness :
  exists self,
    SdrFullSensorRecord.from_data reciprocal_record = Ok self
    /\ forall M : MathModule,
         SdrFullSensorRecord.convert_sensor_raw_to_value self 0
         = Raise ZeroDivisionError
         /\ SdrFullSensorRecord.convert_sensor_raw_to_value self 4
            = Ok 0.125%float.
Proof.
  eexists. split; [reflexivity |]. intros M. split.
  - apply (reciprocal_of_a_zero_reading reciprocal_record _ eq_refl).
    + reflexivity.
    + reflexivity.
    + vm_compute. discriminate.
    + vm_compute. discriminate.
  - vm_compute. reflexivity.
Defined.

(** ** Negative values *)

Lemma negative_value_checks :
  let readings := floats 0 256 in
  forallb (fun mf => forallb (negative_value_check mf) readings) (floats 1 1023)
  = true.
Proof. vm_compute. reflexivity. Qed.

Lemma negative_value_check_holds (m r : Z) :
  0 < m < 1024 -> 0 <= r < 256 ->
  negative_value_check (float_of_Z m) (float_of_Z r) = true.
Proof.
  intros Hm Hr. pose proof negative_value_checks as Hall.
  cbv zeta in Hall. rewrite forallb_forall in Hall.
  specialize (Hall (float_of_Z m) (floats_in 1 1023 m ltac:(lia))).
  rewrite forallb_forall in Hall.
  apply Hall, (floats_in 0 256 r). lia.
Qed.

Lemma round_int_negated_byte (r : Z) :
  0 <= r < 256 -> py_int (py_round (- float_of_Z r)) = Ok (- r).
Proof.
  intros Hr.
  assert (Hall : forallb (fun n => match py_int (py_round
                                                   (- float_of_Z (Z.of_nat n))) with
                                   | Ok z => z =? - Z.of_nat n
                                   | Raise _ => false
                                   end) (seq 0 256) = true)
    by (vm_compute; reflexivity).
  rewrite forallb_forall in Hall. specialize (Hall (Z.to_nat r)).
  rewrite Z2Nat.id in Hall by lia.
  destruct (py_int (py_round (- float_of_Z r))) as [z | e].
  - f_equal. apply Z.eqb_eq, Hall, in_seq. lia.
  - discriminate Hall. apply in_seq. lia.
Qed.

Section NegativeValues.
Context `{MathModule}.

(** [convert_sensor_value_to_raw] checks its result against 0xff only:
    for a linear record in unsigned (or no) analog data format with a
    non-zero [m], no offset and [k2 = 0], the value [-(m * r)] converts to
    the raw reading [-r] for every byte [r], a negative number for
    [r > 0], and no error is raised. *)
Theorem value_to_raw_has_no_lower_bound
    (data : list byte) (self : SdrFullSensorRecord.fields) (c : byte) :
  SdrFullSensorRecord.from_data data = Ok self ->
  SdrFullSensorRecord.linearization self = 0 ->
  SdrFullSensorRecord.analog_data_format self <> 1 ->
  SdrFullSensorRecord.analog_data_format self <> 2 ->
  SdrFullSensorRecord.m self <> 0 ->
  SdrFullSensorRecord.b self = 0 ->
  0 <= SdrFullSensorRecord.k1 self ->
  SdrFullSensorRecord.k2 self = 0 ->
  SdrFullSensorRecord.convert_sensor_value_to_raw self
    (- (float_of_Z (SdrFullSensorRecord.m self) * float_of_Z (ord c)))%float
  = Ok (- ord c).
Proof.
  intros Hdec Hlin Hf1 Hf2 Hm0 Hb Hk1 Hk2.
  pose proof (full_record_coefficient_ranges data self Hdec) as Hr.
  pose proof Hr as [_ _ Hm _ _ _].
  pose proof (ord_range c) as Hc.
  pose proof (negative_value_check_holds (SdrFullSensorRecord.m self) (ord c)
                ltac:(lia) Hc) as Hback.
  unfold negative_value_check in Hback.
  assert (Hoffset : offset_term self = 0%float).
  { unfold offset_term. destruct (Z.leb_spec 0 (SdrFullSensorRecord.k1 self)); [| lia].
    rewrite Hb. apply float_of_Z_0. }
  assert (Hone : float_pow10 0 = 1%float) by apply float_of_Z_1.
  unfold SdrFullSensorRecord.convert_sensor_value_to_raw. cbv zeta.
  rewrite Hlin. cbn [Z.land Z.eqb negb SdrFullSensorRecord.L_LINEAR].
  rewrite (value_to_raw_arithmetic self _ _ Hr Hm0).
  unfold value_to_raw_formula. rewrite Hoffset, Hk2.
  change (- 0) with 0. rewrite Hone.
  unfold SdrFullSensorRecord.DATA_FMT_1S_COMPLEMENT,
    SdrFullSensorRecord.DATA_FMT_2S_COMPLEMENT.
  apply Z.eqb_neq in Hf1, Hf2. rewrite Hf1, Hf2. cbn [result_bind].
  rewrite (eqb_round_int _ _ Hback), round_int_negated_byte by exact Hc.
  cbn [result_bind].
  destruct (Z.gtb_spec (- ord c) 255); [lia | reflexivity].
Qed.

End NegativeValues.

Lemma value_to_raw_has_no_lower_bound_witness :
  exists self,
    SdrFullSensorRecord.from_data no_offset_record = Ok self
    /\ forall M : MathModule,
         SdrFullSensorRecord.convert_sensor_value_to_raw self (-40) = Ok (-20).
Proof.
  eexists. split; [reflexivity |]. intros M.
  pose proof (value_to_raw_has_no_lower_bound no_offset_record _ x14 eq_refl) as Hneg.
  assert (Hvalue : (- (float_of_Z 2 * float_of_Z (ord x14)))%float = (-40)%float)
    by (vm_compute; reflexivity).
  change (SdrFullSensorRecord.m _) with 2 in Hneg.
  rewrite Hvalue in Hneg. apply Hneg.
  - reflexivity.
  - discriminate.
  - discriminate.
  - discriminate.
  - reflexivity.
  - vm_compute. discriminate.
  - reflexivity.
Defined.
